(** * Etherial Particles backend: gesture classifier, detector facades,
      connection manager and websocket handlers of [backend/server.py]

    The Python code is embedded shallowly.  A Python [float] is an IEEE
    binary64 number, modelled by Rocq's primitive [float]; an expression that
    can raise is a computation in the result monad [res]; module globals (the
    detector singletons) are [Section] variables; the objects a handler
    mutates ([manager], the sockets) are threaded explicitly.  The C library
    behind Python's [**] is a parameter, the class [Libm]. *)

From Stdlib Require Import Floats ZArith List String Ascii Bool Lia.
Import ListNotations.

Set Warnings "-inexact-float,-register-all".

Local Open Scope string_scope.
Local Open Scope float_scope.

(** ** Python results: a value, or a raised exception *)

Inductive exn : Type :=
  | OverflowError
  | TypeError
  | IndexError
  | KeyError
  | ValueError
  | AttributeError
  | ZeroDivisionError
  | WebSocketDisconnect
  | DetectorError.        (* whatever an external capability raises *)

Inductive res (A : Type) : Type :=
  | Ok (a : A)
  | Raise (e : exn).

Arguments Ok {A} a.
Arguments Raise {A} e.

Definition bind {A B : Type} (m : res A) (k : A -> res B) : res B :=
  match m with
  | Ok a => k a
  | Raise e => Raise e
  end.

Declare Scope py_scope.
Delimit Scope py_scope with py.
Notation "x <- m ;; k" := (bind m (fun x => k))
  (at level 100, m at next level, right associativity) : py_scope.
Local Open Scope py_scope.

Definition raises {A : Type} (m : res A) : bool :=
  match m with
  | Ok _ => false
  | Raise _ => true
  end.

(** [l[i]] on a Python list, for a non-negative literal index. *)
Definition getitem {A : Type} (l : list A) (i : nat) : res A :=
  match nth_error l i with
  | Some a => Ok a
  | None => Raise IndexError
  end.

(** ** Float arithmetic as Python performs it

    [+], [-], [abs] and the comparisons are the IEEE operations and never
    raise.  [v ** 2] and [v ** 0.5] go through [float.__pow__]
    ([float_pow] of CPython's [floatobject.c]), which settles the special
    bases itself and hands every other one to the C library's [pow]. *)

Inductive pynum : Type :=
  | PyFloat (f : float)
  | PyComplex.

(** A binary64 value that is not negative ([nan] and both zeros included). *)
Definition sf_nonneg (s : spec_float) : bool :=
  match s with
  | S754_infinity true | S754_finite true _ _ => false
  | _ => true
  end.

(** The C library behind the interpreter.  [pow b y] gives the value
    returned and whether [errno] was left at [ERANGE].  The C standard asks
    no particular accuracy of [pow], so the value is left to the platform;
    all that is used of it is that the power of a positive base is not
    negative.  (A positive base raises no domain error.) *)
Class Libm : Type := {
  pow : float -> float -> float * bool;
  pow_sign : forall b y : float,
    (0 <? b) = true -> sf_nonneg (Prim2SF (fst (pow b y))) = true
}.

(** A C library whose [pow] is the correctly rounded square at exponent 2
    and the correctly rounded root at exponent 0.5, the two exponents the
    program uses, and sets no [errno].  It stands in for the platform where
    a property is evaluated on sample data. *)
Definition rounded_libm : Libm.
Proof.
  refine {| pow := fun b y => (if y =? 0.5 then sqrt b else b * b, false) |}.
  intros b y Hb. cbn [fst].
  assert (Hround : forall m e l,
             sf_nonneg (binary_round_aux prec emax false m e l) = true).
  { intros m e l. unfold binary_round_aux.
    destruct (shr_fexp prec emax m e l) as [mrs1 e1].
    destruct (shr_fexp prec emax _ e1 loc_Exact) as [mrs2 e2].
    destruct (shr_m mrs2); [reflexivity| |reflexivity].
    destruct (Z.leb e2 (Z.sub emax prec)); reflexivity. }
  rewrite ltb_spec in Hb. change (Prim2SF 0) with (S754_zero false) in Hb.
  destruct (y =? 0.5).
  - rewrite sqrt_spec.
    destruct (Prim2SF b) as [[|]|[|]| |[|] m e];
      try discriminate Hb; try reflexivity.
    unfold SF64sqrt, SFsqrt.
    destruct (SFsqrt_core_binary prec emax (Zpos m) e) as [[mz ez] lz].
    apply Hround.
  - rewrite mul_spec.
    destruct (Prim2SF b) as [[|]|[|]| |[|] m e];
      try discriminate Hb; try reflexivity.
    unfold SF64mul. cbn [SFmul xorb]. apply Hround.
Defined.

(** [_Py_ADJUST_ERANGE1(ix)] followed by [if (errno != 0)]: an infinite
    result is a range error even when [errno] was not set, and [ERANGE] with
    a zero result (underflow) is none. *)
Definition range_error (r : float * bool) : bool :=
  if snd r then negb (is_zero (fst r)) else is_infinity (fst r).

(** The tail of [float_pow]: [ix = pow(iv, iw)] under the range check. *)
Definition libm_pow {libm : Libm} (iv iw : float) : res float :=
  let r := pow iv iw in
  if range_error r then Raise OverflowError else Ok (fst r).

(** [v ** 2].  In [float_pow]: a [nan] base gives [nan]; an infinite base
    gives [fabs(iv)]; a zero base gives [0.0]; a negative finite base under
    an integral exponent is replaced by its absolute value (the sign is put
    back for odd exponents only); the base [1.0] gives [1.0]. *)
Definition float_pow_2 {libm : Libm} (v : float) : res float :=
  if is_nan v then Ok v
  else if is_infinity v then Ok (abs v)
  else if is_zero v then Ok 0
  else if abs v =? 1 then Ok 1
  else libm_pow (abs v) 2.

(** [v ** 0.5].  As above, except that a negative finite base under a
    fractional exponent is handed to [complex.__pow__]. *)
Definition float_pow_half {libm : Libm} (v : float) : res pynum :=
  if is_nan v then Ok (PyFloat v)
  else if is_infinity v then Ok (PyFloat (abs v))
  else if is_zero v then Ok (PyFloat 0)
  else if v <? 0 then Ok PyComplex
  else if v =? 1 then Ok (PyFloat 1)
  else r <- libm_pow v 0.5 ;; Ok (PyFloat r).

(** [n < c] for a float constant [c]; ordering a [complex] is a [TypeError]. *)
Definition num_lt (n : pynum) (c : float) : res bool :=
  match n with
  | PyFloat f => Ok (f <? c)
  | PyComplex => Raise TypeError
  end.

(** ** Landmarks *)

(** A landmark dictionary: ["id"], numeric ["x"] and ["y"]; ["z"] and
    ["visibility"] may be absent. *)
Record Landmark : Type := mkLandmark {
  lm_id : nat;
  lm_x : float;
  lm_y : float;
  lm_z : option float;
  lm_visibility : option float
}.

(** [p.get("z", 0)] *)
Definition get_z (p : Landmark) : float :=
  match lm_z p with
  | Some z => z
  | None => 0
  end.

(** def calculate_distance(p1, p2) *)
Definition calculate_distance {libm : Libm} (p1 p2 : Landmark) : res pynum :=
  dx <- float_pow_2 (lm_x p1 - lm_x p2) ;;
  dy <- float_pow_2 (lm_y p1 - lm_y p2) ;;
  dz <- float_pow_2 (get_z p1 - get_z p2) ;;
  float_pow_half (dx + dy + dz).

(** ** Gesture classifier *)

Definition any (l : list bool) : bool := existsb (fun b => b) l.
Definition all (l : list bool) : bool := forallb (fun b => b) l.

Section RecognizeGesture.

Context {libm : Libm}.
Variable landmarks : list Landmark.

Definition is_finger_extended (tip_id base_id : nat) : res bool :=
  tip <- getitem landmarks tip_id ;;
  base <- getitem landmarks base_id ;;
  Ok (lm_y tip <? lm_y base).

Definition is_thumb_extended : res bool :=
  l4 <- getitem landmarks 4 ;;
  l2 <- getitem landmarks 2 ;;
  Ok (0.05 <? abs (lm_x l4 - lm_x l2)).

(** def recognize_gesture(landmarks) *)
Definition recognize_gesture : res string :=
  if (List.length landmarks <? 21)%nat then Ok "UNKNOWN" else
  thumb <- is_thumb_extended ;;
  index <- is_finger_extended 8 5 ;;
  middle <- is_finger_extended 12 9 ;;
  ring <- is_finger_extended 16 13 ;;
  pinky <- is_finger_extended 20 17 ;;
  if negb (any [index; middle; ring; pinky]) then
    if thumb then Ok "THUMBS_UP" else Ok "FIST"
  else if index && middle && negb ring && negb pinky then Ok "VICTORY"
  else if index && negb middle && negb ring && negb pinky then Ok "POINT"
  else if all [thumb; index; middle; ring; pinky] then Ok "OPEN"
  else if index && middle && ring && negb pinky then Ok "THREE"
  else if negb index && negb middle && negb ring && pinky then Ok "PINKY"
  else if thumb && pinky && negb index && negb middle && negb ring
  then Ok "ROCK"
  else
    l4 <- getitem landmarks 4 ;;
    l8 <- getitem landmarks 8 ;;
    pinch_dist <- calculate_distance l4 l8 ;;
    lt <- num_lt pinch_dist 0.05 ;;
    if lt then Ok "PINCH" else Ok "OPEN".

End RecognizeGesture.

(** ** JSON values, as [receive_json] hands them to the handlers *)

Inductive json : Type :=
  | JNull
  | JBool (b : bool)
  | JInt (z : Z)
  | JFloat (f : float)
  | JStr (s : string)
  | JArr (l : list json)
  | JObj (fields : list (string * json)).

Fixpoint assoc {V : Type} (k : string) (d : list (string * V)) : option V :=
  match d with
  | [] => None
  | (k', v) :: d' => if String.eqb k k' then Some v else assoc k d'
  end.

(** [d.get(key, default)] on a dict. *)
Definition dict_get (fields : list (string * json)) (key : string)
  (default : json) : json :=
  match assoc key fields with
  | Some v => v
  | None => default
  end.

(** [data.get(key, default)]; only a dict has a [get] method. *)
Definition json_get (data : json) (key : string) (default : json) : res json :=
  match data with
  | JObj fields => Ok (dict_get fields key default)
  | _ => Raise AttributeError
  end.

(** Truth value of a decoded JSON value in an [if]. *)
Definition truthy (v : json) : bool :=
  match v with
  | JNull => false
  | JBool b => b
  | JInt z => negb (z =? 0)%Z
  | JFloat f => negb (is_zero f)
  | JStr s => negb (String.eqb s EmptyString)
  | JArr l => negb (Nat.eqb (List.length l) 0)
  | JObj d => negb (Nat.eqb (List.length d) 0)
  end.

Definition json_is_str (s : string) (v : json) : bool :=
  match v with
  | JStr s' => String.eqb s s'
  | _ => false
  end.

(** [int] to [float], rounding to nearest even; too large an [int] raises. *)
Definition float_of_int (z : Z) : res float :=
  let f := SF2Prim (binary_normalize prec emax z 0 false) in
  if is_infinity f then Raise OverflowError else Ok f.

(** [60.0 / tempo] for a decoded JSON value [tempo] ([bool] is an [int]). *)
Definition float_60_div (tempo : json) : res float :=
  let div60 (d : float) : res float :=
    if is_zero d then Raise ZeroDivisionError else Ok (60 / d) in
  match tempo with
  | JFloat f => div60 f
  | JInt z => d <- float_of_int z ;; div60 d
  | JBool b => div60 (if b then 1 else 0)
  | _ => Raise TypeError
  end.

(** ** The classifier on int and float coordinates

    [recognize_gesture] and [calculate_distance] take whatever dictionaries
    they are handed; a coordinate is an [int] or a [float] ([bool] is an
    [int]).  [int] arithmetic is exact.  Where an [int] meets a [float] in
    [-], [+] or [**] it is converted first, which raises for an [int] beyond
    the float range; [<] and [>] compare the two exactly. *)

Inductive number : Type :=
  | NInt (n : Z)
  | NFloat (f : float).

(** The exact order of an [int] and a binary64 value; none against a NaN. *)
Definition Z_compare_SF (n : Z) (s : spec_float) : option comparison :=
  match s with
  | S754_nan => None
  | S754_infinity false => Some Lt
  | S754_infinity true => Some Gt
  | S754_zero _ => Some (n ?= 0)%Z
  | S754_finite sign m e =>
      let v := if sign then Zneg m else Zpos m in
      match e with
      | Zneg p => Some (n * 2 ^ Zpos p ?= v)%Z
      | _ => Some (n ?= v * 2 ^ e)%Z
      end
  end.

(** [a < b] *)
Definition num_ltb (a b : number) : bool :=
  match a, b with
  | NInt m, NInt n => (m <? n)%Z
  | NFloat x, NFloat y => x <? y
  | NInt m, NFloat y =>
      match Z_compare_SF m (Prim2SF y) with
      | Some Lt => true
      | _ => false
      end
  | NFloat x, NInt n =>
      match Z_compare_SF n (Prim2SF x) with
      | Some Gt => true
      | _ => false
      end
  end.

(** The operand of a float operation. *)
Definition as_float (a : number) : res float :=
  match a with
  | NInt n => float_of_int n
  | NFloat f => Ok f
  end.

(** [a - b] *)
Definition num_sub (a b : number) : res number :=
  match a, b with
  | NInt m, NInt n => Ok (NInt (m - n))
  | _, _ => x <- as_float a ;; y <- as_float b ;; Ok (NFloat (x - y))
  end.

(** [a + b] *)
Definition num_add (a b : number) : res number :=
  match a, b with
  | NInt m, NInt n => Ok (NInt (m + n))
  | _, _ => x <- as_float a ;; y <- as_float b ;; Ok (NFloat (x + y))
  end.

(** [abs(a)] *)
Definition num_abs (a : number) : number :=
  match a with
  | NInt n => NInt (Z.abs n)
  | NFloat f => NFloat (abs f)
  end.

(** [a ** 2]: an [int] to an [int] power stays an [int]. *)
Definition num_pow_2 {libm : Libm} (a : number) : res number :=
  match a with
  | NInt n => Ok (NInt (n * n))
  | NFloat f => r <- float_pow_2 f ;; Ok (NFloat r)
  end.

(** [a ** 0.5] *)
Definition num_pow_half {libm : Libm} (a : number) : res pynum :=
  x <- as_float a ;; float_pow_half x.

Module Numeric.

(** The keys the classifier reads of a landmark dictionary. *)
Record Landmark : Type := mkLandmark {
  lm_x : number;
  lm_y : number;
  lm_z : option number
}.

(** [p.get("z", 0)] *)
Definition get_z (p : Landmark) : number :=
  match lm_z p with
  | Some z => z
  | None => NInt 0
  end.

Section Classifier.

Context {libm : Libm}.

(** def calculate_distance(p1, p2) *)
Definition calculate_distance (p1 p2 : Landmark) : res pynum :=
  x <- num_sub (lm_x p1) (lm_x p2) ;;
  dx <- num_pow_2 x ;;
  y <- num_sub (lm_y p1) (lm_y p2) ;;
  dy <- num_pow_2 y ;;
  dxy <- num_add dx dy ;;
  z <- num_sub (get_z p1) (get_z p2) ;;
  dz <- num_pow_2 z ;;
  total <- num_add dxy dz ;;
  num_pow_half total.

Variable landmarks : list Landmark.

Definition is_finger_extended (tip_id base_id : nat) : res bool :=
  tip <- getitem landmarks tip_id ;;
  base <- getitem landmarks base_id ;;
  Ok (num_ltb (lm_y tip) (lm_y base)).

Definition is_thumb_extended : res bool :=
  l4 <- getitem landmarks 4 ;;
  l2 <- getitem landmarks 2 ;;
  d <- num_sub (lm_x l4) (lm_x l2) ;;
  Ok (num_ltb (NFloat 0.05) (num_abs d)).

(** def recognize_gesture(landmarks) *)
Definition recognize_gesture : res string :=
  if (List.length landmarks <? 21)%nat then Ok "UNKNOWN" else
  thumb <- is_thumb_extended ;;
  index <- is_finger_extended 8 5 ;;
  middle <- is_finger_extended 12 9 ;;
  ring <- is_finger_extended 16 13 ;;
  pinky <- is_finger_extended 20 17 ;;
  if negb (any [index; middle; ring; pinky]) then
    if thumb then Ok "THUMBS_UP" else Ok "FIST"
  else if index && middle && negb ring && negb pinky then Ok "VICTORY"
  else if index && negb middle && negb ring && negb pinky then Ok "POINT"
  else if all [thumb; index; middle; ring; pinky] then Ok "OPEN"
  else if index && middle && ring && negb pinky then Ok "THREE"
  else if negb index && negb middle && negb ring && pinky then Ok "PINKY"
  else if thumb && pinky && negb index && negb middle && negb ring
  then Ok "ROCK"
  else
    l4 <- getitem landmarks 4 ;;
    l8 <- getitem landmarks 8 ;;
    pinch_dist <- calculate_distance l4 l8 ;;
    lt <- num_lt pinch_dist 0.05 ;;
    if lt then Ok "PINCH" else Ok "OPEN".

End Classifier.

End Numeric.

(** A dictionary of float coordinates, as the hand facade builds them. *)
Definition float_coordinates (l : Landmark) : Numeric.Landmark :=
  Numeric.mkLandmark (NFloat (lm_x l)) (NFloat (lm_y l))
                     (option_map NFloat (lm_z l)).

(** ** Results of the analyses *)

Record Point2D : Type := mkPoint { p_x : float; p_y : float }.

Definition point_of (l : Landmark) : Point2D := mkPoint (lm_x l) (lm_y l).

(** ["all_emotions"] is absent from the manager's initial value. *)
Record EmotionResult : Type := mkEmotion {
  emotion : string;
  confidence : float;
  all_emotions : option (list (string * float))
}.

Definition neutral_emotion : EmotionResult := mkEmotion "neutral" 0 (Some []).
Definition unknown_emotion : EmotionResult := mkEmotion "unknown" 0 (Some []).

Record PoseKeypoints : Type := mkPoseKeypoints {
  nose : Point2D;
  left_hand : option Point2D;
  right_hand : option Point2D;
  left_shoulder : Point2D;
  right_shoulder : Point2D;
  left_hip : option Point2D;
  right_hip : option Point2D
}.

(** The seven keypoint keys are present together or not at all. *)
Record PoseResult : Type := mkPose {
  pose_detected : bool;
  pose_landmarks : list Landmark;
  pose_keypoints : option PoseKeypoints
}.

Definition empty_pose : PoseResult := mkPose false [] None.

Record FaceFeatures : Type := mkFaceFeatures {
  mouth_open : bool;
  left_eye_open : bool;
  right_eye_open : bool;
  eyebrows_raised : bool;
  face_center : Point2D;
  nose_tip : Point2D;
  chin : Point2D;
  left_eye : Point2D;
  right_eye : Point2D;
  mouth_center : Point2D
}.

Record FaceMeshResult : Type := mkFaceMesh {
  face_detected : bool;
  landmark_count : option nat;
  face_landmarks : list Landmark;
  features : option FaceFeatures
}.

Definition empty_face_mesh : FaceMeshResult := mkFaceMesh false None [] None.

Record HandObservation : Type := mkHand {
  handedness : string;
  hand_landmarks : list Landmark;
  gesture : string;
  palm_center : Point2D;
  index_tip : Point2D;
  thumb_tip : Point2D;
  pinch_distance : pynum
}.

Record HandsResult : Type := mkHands {
  hands_detected : bool;
  hand_count : option nat;
  hands : list HandObservation
}.

Definition empty_hands : HandsResult := mkHands false None [].

(** ** What the external detectors hand back *)

(** A MediaPipe landmark message. *)
Record RawLandmark : Type := mkRaw {
  raw_x : float;
  raw_y : float;
  raw_z : float;
  raw_visibility : float
}.

(** One entry of FER's [detect_emotions]: a dict whose ["emotions"] maps
    labels to scores (insertion order kept, keys distinct). *)
Record FerFace : Type := mkFerFace {
  fer_emotions : option (list (string * float))
}.

(** Reading an attribute of a detector's result gives its value, or raises
    when the result is malformed.  [results.pose_landmarks] is unset, or
    carries [.landmark]. *)
Record PoseOutput : Type := mkPoseOutput {
  out_pose_landmarks : res (option (list RawLandmark))
}.

Record FaceMeshOutput : Type := mkFaceMeshOutput {
  out_multi_face_landmarks : res (option (list (list RawLandmark)))
}.

(** [multi_handedness[i].classification] is kept as its list of labels. *)
Record HandsOutput : Type := mkHandsOutput {
  out_multi_hand_landmarks : res (option (list (list RawLandmark)));
  out_multi_handedness : res (option (list (list string)))
}.

(** [enumerate] and the dict built per landmark. *)
Fixpoint enumerate_from {A : Type} (i : nat) (l : list A) : list (nat * A) :=
  match l with
  | [] => []
  | a :: l' => (i, a) :: enumerate_from (S i) l'
  end.

Definition enumerate {A : Type} (l : list A) : list (nat * A) :=
  enumerate_from 0 l.

Definition pose_dict (e : nat * RawLandmark) : Landmark :=
  let (idx, landmark) := e in
  mkLandmark idx (raw_x landmark) (raw_y landmark) (Some (raw_z landmark))
             (Some (raw_visibility landmark)).

Definition xyz_dict (e : nat * RawLandmark) : Landmark :=
  let (idx, landmark) := e in
  mkLandmark idx (raw_x landmark) (raw_y landmark) (Some (raw_z landmark)) None.

(** [max(emotions, key=emotions.get)]: the first key whose score no later
    score exceeds; an empty dict raises. *)
Fixpoint max_from (best : string * float) (l : list (string * float))
  : string * float :=
  match l with
  | [] => best
  | kv :: l' => if snd best <? snd kv then max_from kv l' else max_from best l'
  end.

Definition max_by_score (emotions : list (string * float))
  : res (string * float) :=
  match emotions with
  | [] => Raise ValueError
  | kv :: l => Ok (max_from kv l)
  end.

(** [e1 if cond else None] over a computation that may raise. *)
Definition when_ {A : Type} (cond : bool) (m : res A) : res (option A) :=
  if cond then (a <- m ;; Ok (Some a)) else Ok None.

(** [try: body / except Exception: (log) / return fallback], where [body]
    either returns from the function or falls out of the [try]. *)
Definition try_or {A : Type} (body : res (option A)) (fallback : A) : A :=
  match body with
  | Ok (Some a) => a
  | Ok None => fallback
  | Raise _ => fallback
  end.

(** [landmarks[i]["y"]] and [{"x": landmarks[i]["x"], "y": landmarks[i]["y"]}] *)
Definition item_y (landmarks : list Landmark) (i : nat) : res float :=
  l <- getitem landmarks i ;; Ok (lm_y l).

Definition item_xy (landmarks : list Landmark) (i : nat) : res Point2D :=
  l <- getitem landmarks i ;; Ok (point_of l).

(** ** Detector facades *)

Section Facades.

Variable Image : Type.

(** [cv2.cvtColor(image, cv2.COLOR_BGR2RGB)] *)
Variable cvtColor : Image -> res Image.

(** The module-level detector singletons: [None], or an object whose call
    on a frame returns or raises. *)
Variable emotion_detector : option (Image -> res (list FerFace)).
Variable pose_detector : option (Image -> res PoseOutput).
Variable face_mesh_detector : option (Image -> res FaceMeshOutput).
Variable hand_detector : option (Image -> res HandsOutput).

(** The C library under [calculate_distance]. *)
Context {libm : Libm}.

(** def analyze_emotion(image) *)
Definition analyze_emotion (image : Image) : EmotionResult :=
  match emotion_detector with
  | None => unknown_emotion
  | Some detect_emotions =>
      try_or
        (rgb_image <- cvtColor image ;;
         result <- detect_emotions rgb_image ;;
         if negb (Nat.eqb (List.length result) 0)
            && (0 <? List.length result)%nat
         then
           face <- getitem result 0 ;;
           emotions <- match fer_emotions face with
                       | Some d => Ok d
                       | None => Raise KeyError
                       end ;;
           dominant <- max_by_score emotions ;;
           Ok (Some (mkEmotion (fst dominant) (snd dominant) (Some emotions)))
         else Ok None)
        neutral_emotion
  end.

(** def analyze_pose(image) *)
Definition analyze_pose (image : Image) : PoseResult :=
  match pose_detector with
  | None => empty_pose
  | Some process =>
      try_or
        (rgb_image <- cvtColor image ;;
         results <- process rgb_image ;;
         pose_landmarks <- out_pose_landmarks results ;;
         match pose_landmarks with
         | Some landmark =>
             let landmarks := map pose_dict (enumerate landmark) in
             let n := List.length landmarks in
             l0 <- getitem landmarks 0 ;;
             lh <- when_ (15 <? n)%nat (getitem landmarks 15) ;;
             rh <- when_ (16 <? n)%nat (getitem landmarks 16) ;;
             l11 <- getitem landmarks 11 ;;
             l12 <- getitem landmarks 12 ;;
             lhip <- when_ (23 <? n)%nat (getitem landmarks 23) ;;
             rhip <- when_ (24 <? n)%nat (getitem landmarks 24) ;;
             Ok (Some (mkPose true landmarks
                         (Some (mkPoseKeypoints
                                  (point_of l0)
                                  (option_map point_of lh)
                                  (option_map point_of rh)
                                  (point_of l11) (point_of l12)
                                  (option_map point_of lhip)
                                  (option_map point_of rhip)))))
         | None => Ok None
         end)
        empty_pose
  end.

(** def analyze_face_mesh(image) *)
Definition analyze_face_mesh (image : Image) : FaceMeshResult :=
  match face_mesh_detector with
  | None => empty_face_mesh
  | Some process =>
      try_or
        (rgb_image <- cvtColor image ;;
         results <- process rgb_image ;;
         multi_face_landmarks <- out_multi_face_landmarks results ;;
         match multi_face_landmarks with
         | Some (face_landmarks :: _) =>
             let landmarks := map xyz_dict (enumerate face_landmarks) in
             y13 <- item_y landmarks 13 ;; y14 <- item_y landmarks 14 ;;
             let mouth_open := 0.03 <? abs (y13 - y14) in
             y159 <- item_y landmarks 159 ;; y145 <- item_y landmarks 145 ;;
             let left_eye_open := 0.015 <? abs (y159 - y145) in
             y386 <- item_y landmarks 386 ;; y374 <- item_y landmarks 374 ;;
             let right_eye_open := 0.015 <? abs (y386 - y374) in
             left_brow <- item_y landmarks 70 ;;
             right_brow <- item_y landmarks 300 ;;
             let eyebrows_raised := (left_brow <? 0.25) || (right_brow <? 0.25) in
             face_center <- item_xy landmarks 1 ;;
             nose_tip <- item_xy landmarks 4 ;;
             chin <- item_xy landmarks 152 ;;
             left_eye <- item_xy landmarks 33 ;;
             right_eye <- item_xy landmarks 263 ;;
             m13 <- item_xy landmarks 13 ;; m14 <- item_xy landmarks 14 ;;
             Ok (Some (mkFaceMesh true (Some (List.length landmarks))
                         (firstn 50 landmarks)
                         (Some (mkFaceFeatures
                                  mouth_open left_eye_open right_eye_open
                                  eyebrows_raised face_center nose_tip chin
                                  left_eye right_eye
                                  (mkPoint ((p_x m13 + p_x m14) / 2)
                                           ((p_y m13 + p_y m14) / 2))))))
         | Some [] | None => Ok None
         end)
        empty_face_mesh
  end.

(** The body of [for hand_idx, hand_landmarks in enumerate(...)]: the dict
    appended to [hands]. *)
Definition hand_entry (results : HandsOutput) (e : nat * list RawLandmark)
  : res HandObservation :=
  let (hand_idx, hand_landmarks) := e in
  let landmarks := map xyz_dict (enumerate hand_landmarks) in
  gesture <- recognize_gesture landmarks ;;
  multi_handedness <- out_multi_handedness results ;;
  handedness <- match multi_handedness with
                | Some ((_ :: _) as labels) =>
                    classification <- getitem labels hand_idx ;;
                    getitem classification 0
                | Some [] | None => Ok "Unknown"
                end ;;
  l0 <- getitem landmarks 0 ;;
  l8 <- getitem landmarks 8 ;;
  l4 <- getitem landmarks 4 ;;
  pinch_distance <- calculate_distance l4 l8 ;;
  Ok (mkHand handedness landmarks gesture
             (point_of l0) (point_of l8) (point_of l4) pinch_distance).

Fixpoint for_each {A B : Type} (f : A -> res B) (l : list A) : res (list B) :=
  match l with
  | [] => Ok []
  | a :: l' => b <- f a ;; bs <- for_each f l' ;; Ok (b :: bs)
  end.

(** def analyze_hands(image) *)
Definition analyze_hands (image : Image) : HandsResult :=
  match hand_detector with
  | None => empty_hands
  | Some process =>
      try_or
        (rgb_image <- cvtColor image ;;
         results <- process rgb_image ;;
         found <- out_multi_hand_landmarks results ;;
         hands <- match found with
                  | Some multi_hand_landmarks =>
                      for_each (hand_entry results)
                               (enumerate multi_hand_landmarks)
                  | None => Ok []
                  end ;;
         Ok (Some (mkHands (0 <? List.length hands)%nat
                           (Some (List.length hands)) hands)))
        empty_hands
  end.

End Facades.

(** ** Sockets, messages and the shared manager *)

Definition is_some {A : Type} (o : option A) : bool :=
  match o with
  | Some _ => true
  | None => false
  end.

Definition WebSocket : Type := nat.

(** The JSON objects the server sends. *)
Inductive Message : Type :=
  | MsgConnected (emotion pose audio : bool)
  | MsgAnalysis (emotion : option EmotionResult) (pose : option PoseResult)
                (face_mesh : option FaceMeshResult) (hands : option HandsResult)
  | MsgError (e : exn)                      (* "message": str(e) *)
  | MsgPong
  | MsgBeat (count : nat) (tempo : json)
  | MsgDict (payload : json).               (* any other dict *)

(** class ConnectionManager *)
Record ConnectionManager : Type := mkManager {
  active_connections : list WebSocket;
  last_emotion : EmotionResult;
  last_pose : option PoseResult;            (* [None] is the initial [{}] *)
  last_beat : Z * bool
}.

(** ConnectionManager.__init__ *)
Definition new_manager : ConnectionManager :=
  mkManager [] (mkEmotion "neutral" 0 None) None (0%Z, false).

(** What a handler can touch: the module-level [manager], the messages that
    handed to each socket's [send_json], those that went through, the delays
    slept, and which sockets fail on send. *)
Record World : Type := mkWorld {
  manager : ConnectionManager;
  attempted : list (WebSocket * Message);
  sent : list (WebSocket * Message);
  slept : list float;
  send_error : WebSocket -> option exn
}.

Definition with_manager (f : ConnectionManager -> ConnectionManager)
  (w : World) : World :=
  mkWorld (f (manager w)) (attempted w) (sent w) (slept w) (send_error w).

(** Handlers: state over [World], with exceptions. *)
Definition io (A : Type) : Type := World -> res A * World.

Definition ret {A : Type} (a : A) : io A := fun w => (Ok a, w).

Definition lift {A : Type} (m : res A) : io A := fun w => (m, w).

Definition io_bind {A B : Type} (m : io A) (k : A -> io B) : io B :=
  fun w =>
    match m w with
    | (Ok a, w') => k a w'
    | (Raise e, w') => (Raise e, w')
    end.

Notation "x <~ m ;; k" := (io_bind m (fun x => k))
  (at level 100, m at next level, right associativity) : py_scope.
Notation "m ;;; k" := (io_bind m (fun _ => k))
  (at level 100, right associativity) : py_scope.

(** [try: body / except ...: handler] *)
Definition io_try {A : Type} (body : io A) (handler : exn -> io A) : io A :=
  fun w =>
    match body w with
    | (Ok a, w') => (Ok a, w')
    | (Raise e, w') => handler e w'
    end.

Definition modify_manager (f : ConnectionManager -> ConnectionManager)
  : io unit :=
  fun w => (Ok tt, with_manager f w).

(** await websocket.send_json(message) *)
Definition send_json (websocket : WebSocket) (message : Message) : io unit :=
  fun w =>
    let tried := (attempted w ++ [(websocket, message)])%list in
    match send_error w websocket with
    | Some e =>
        (Raise e, mkWorld (manager w) tried (sent w) (slept w) (send_error w))
    | None =>
        (Ok tt, mkWorld (manager w) tried (sent w ++ [(websocket, message)])
                        (slept w) (send_error w))
    end.

(** await asyncio.sleep(delay) *)
Definition sleep (delay : float) : io unit :=
  fun w => (Ok tt, mkWorld (manager w) (attempted w) (sent w)
                           (slept w ++ [delay])
                           (send_error w)).

(** [list.remove(x)]: drops the first occurrence. *)
Fixpoint remove_first (x : WebSocket) (l : list WebSocket) : list WebSocket :=
  match l with
  | [] => []
  | y :: l' => if Nat.eqb x y then l' else y :: remove_first x l'
  end.

(** ConnectionManager.connect; [accept] is taken to succeed. *)
Definition connect (websocket : WebSocket) : io unit :=
  modify_manager (fun m =>
    mkManager (active_connections m ++ [websocket])
              (last_emotion m) (last_pose m) (last_beat m)).

(** ConnectionManager.disconnect *)
Definition disconnect (websocket : WebSocket) : io unit :=
  modify_manager (fun m =>
    if existsb (Nat.eqb websocket) (active_connections m)
    then mkManager (remove_first websocket (active_connections m))
                   (last_emotion m) (last_pose m) (last_beat m)
    else m).

(** The [for connection in ...] loop of [broadcast]. *)
Fixpoint broadcast_to (connections : list WebSocket) (message : Message)
  : io unit :=
  match connections with
  | [] => ret tt
  | connection :: rest =>
      io_try (send_json connection message) (fun _ => ret tt) ;;;
      broadcast_to rest message
  end.

(** ConnectionManager.broadcast *)
Definition broadcast (message : Message) : io unit :=
  fun w => broadcast_to (active_connections (manager w)) message w.

Definition set_last_emotion (r : EmotionResult) : io unit :=
  modify_manager (fun m =>
    mkManager (active_connections m) r (last_pose m) (last_beat m)).

Definition set_last_pose (r : PoseResult) : io unit :=
  modify_manager (fun m =>
    mkManager (active_connections m) (last_emotion m) (Some r) (last_beat m)).

(** ** Image decoding *)

Fixpoint contains_comma (s : string) : bool :=
  match s with
  | EmptyString => false
  | String c s' => Ascii.eqb c "," || contains_comma s'
  end.

(** [s.split(',')] *)
Fixpoint split_comma (s : string) : list string :=
  match s with
  | EmptyString => [EmptyString]
  | String c s' =>
      if Ascii.eqb c "," then EmptyString :: split_comma s'
      else match split_comma s' with
           | piece :: pieces => String c piece :: pieces
           | [] => [String c EmptyString]
           end
  end.

(** ** The websocket handlers *)

(** Where a handler stands once its inbound events are used up. *)
Inductive handler_status : Type :=
  | Awaiting          (* suspended in [receive_json] or in a [sleep] *)
  | Closed.           (* the handler returned *)

Section Server.

Variable Image : Type.
Variable cvtColor : Image -> res Image.
Variable emotion_detector : option (Image -> res (list FerFace)).
Variable pose_detector : option (Image -> res PoseOutput).
Variable face_mesh_detector : option (Image -> res FaceMeshOutput).
Variable hand_detector : option (Image -> res HandsOutput).

Variables FER_AVAILABLE MEDIAPIPE_AVAILABLE LIBROSA_AVAILABLE : bool.

(** [b64decode], [Image.open], [np.array] and [cvtColor] on the payload. *)
Variable image_of_base64 : string -> res Image.
Context {libm : Libm}.

(** def decode_base64_image(data); [data] is whatever the client put under
    ["data"], and anything but a string fails on [in], [split] or
    [b64decode]. *)
Definition decode_base64_image (data : json) : res Image :=
  match data with
  | JStr s =>
      payload <- (if contains_comma s then getitem (split_comma s) 1
                  else Ok s) ;;
      image_of_base64 payload
  | JArr l =>
      if existsb (json_is_str ",") l then Raise AttributeError
      else Raise TypeError
  | JObj d =>
      match assoc "," d with
      | Some _ => Raise AttributeError
      | None => Raise TypeError
      end
  | JNull | JBool _ | JInt _ | JFloat _ => Raise TypeError
  end.

(** The [try] body of the ["frame"] branch. *)
Definition handle_frame (websocket : WebSocket) (data : json) : io unit :=
  payload <~ lift (json_get data "data" (JStr EmptyString)) ;;
  image <~ lift (decode_base64_image payload) ;;
  want_emotion <~ lift (json_get data "analyze_emotion" (JBool false)) ;;
  emotion <~ (if truthy want_emotion then
                let emotion_result :=
                  analyze_emotion Image cvtColor emotion_detector image in
                set_last_emotion emotion_result ;;;
                ret (Some emotion_result)
              else ret None) ;;
  want_pose <~ lift (json_get data "analyze_pose" (JBool false)) ;;
  pose <~ (if truthy want_pose then
             let pose_result :=
               analyze_pose Image cvtColor pose_detector image in
             set_last_pose pose_result ;;;
             ret (Some pose_result)
           else ret None) ;;
  want_face <~ lift (json_get data "analyze_face_mesh" (JBool false)) ;;
  let face_mesh :=
    if truthy want_face
    then Some (analyze_face_mesh Image cvtColor face_mesh_detector image)
    else None in
  want_hands <~ lift (json_get data "analyze_hands" (JBool true)) ;;
  let hands :=
    if truthy want_hands
    then Some (analyze_hands Image cvtColor hand_detector image)
    else None in
  send_json websocket (MsgAnalysis emotion pose face_mesh hands).

(** One turn of [while True] per inbound event; an event is what
    [receive_json] returns or raises. *)
Fixpoint receive_loop (websocket : WebSocket) (inbox : list (res json))
  : io handler_status :=
  match inbox with
  | [] => ret Awaiting
  | event :: inbox' =>
      data <~ lift event ;;
      msg_type <~ lift (json_get data "type" JNull) ;;
      if json_is_str "frame" msg_type then
        io_try (handle_frame websocket data)
               (fun e => send_json websocket (MsgError e)) ;;;
        receive_loop websocket inbox'
      else if json_is_str "ping" msg_type then
        send_json websocket MsgPong ;;;
        receive_loop websocket inbox'
      else
        receive_loop websocket inbox'
  end.

(** async def websocket_endpoint(websocket) *)
Definition websocket_endpoint (websocket : WebSocket)
  (inbox : list (res json)) : io handler_status :=
  connect websocket ;;;
  send_json websocket
    (MsgConnected (FER_AVAILABLE && is_some emotion_detector)
                  (MEDIAPIPE_AVAILABLE && is_some pose_detector)
                  LIBROSA_AVAILABLE) ;;;
  io_try (receive_loop websocket inbox)
         (fun _ => disconnect websocket ;;; ret Closed).

End Server.

(** ** Beat streaming *)

(** The tempo and the interval [beats_websocket] derives from the client's
    first message. *)
Definition beat_setup (data : json) : res (json * float) :=
  tempo <- json_get data "tempo" (JInt 120) ;;
  beat_interval <- float_60_div tempo ;;
  Ok (tempo, beat_interval).

(** [pulses] turns of the pulse loop. *)
Fixpoint beat_loop (pulses : nat) (websocket : WebSocket) (tempo : json)
  (beat_interval : float) (beat_count : nat) : io handler_status :=
  match pulses with
  | O => ret Awaiting
  | S pulses' =>
      send_json websocket (MsgBeat beat_count tempo) ;;;
      sleep beat_interval ;;;
      beat_loop pulses' websocket tempo beat_interval (beat_count + 1)
  end.

(** async def beats_websocket(websocket).  [accepted] is how
    [await websocket.accept()] ends and [first] how the first
    [receive_json] does; the accept comes before the [try]. *)
Definition beats_websocket (websocket : WebSocket) (accepted : res unit)
  (first : res json) (pulses : nat) : io handler_status :=
  lift accepted ;;;
  io_try
    (data <~ lift first ;;
     setup <~ lift (beat_setup data) ;;
     beat_loop pulses websocket (fst setup) (snd setup) 0)
    (fun _ => ret Closed).

(** ** The classifier as the specification words it

    Extension flags read off the fixed landmark topology, then the ordered
    rule table; the first rule whose condition holds gives the label. *)

Definition no_landmark : Landmark := mkLandmark 0 0 0 None None.

Record Extended : Type := mkExtended {
  thumb : bool;
  index : bool;
  middle : bool;
  ring : bool;
  pinky : bool
}.

Definition landmark_at (landmarks : list Landmark) (i : nat) : Landmark :=
  nth i landmarks no_landmark.

(** Tip strictly above base: smaller [y] is higher. *)
Definition tip_above_base (landmarks : list Landmark) (tip base : nat) : bool :=
  lm_y (landmark_at landmarks tip) <? lm_y (landmark_at landmarks base).

Definition extended_of (landmarks : list Landmark) : Extended :=
  mkExtended
    (0.05 <? abs (lm_x (landmark_at landmarks 4) - lm_x (landmark_at landmarks 2)))
    (tip_above_base landmarks 8 5)
    (tip_above_base landmarks 12 9)
    (tip_above_base landmarks 16 13)
    (tip_above_base landmarks 20 17).

(** Rules 1 to 7: condition and label. *)
Definition rules (e : Extended) : list (bool * string) :=
  [ (negb (index e || middle e || ring e || pinky e),
       if thumb e then "THUMBS_UP" else "FIST");
    (index e && middle e && negb (ring e) && negb (pinky e), "VICTORY");
    (index e && negb (middle e) && negb (ring e) && negb (pinky e), "POINT");
    (thumb e && index e && middle e && ring e && pinky e, "OPEN");
    (index e && middle e && ring e && negb (pinky e), "THREE");
    (negb (index e) && negb (middle e) && negb (ring e) && pinky e, "PINKY");
    (thumb e && pinky e && negb (index e) && negb (middle e) && negb (ring e),
       "ROCK") ].

Fixpoint first_match (table : list (bool * string)) : option string :=
  match table with
  | [] => None
  | (cond, label) :: table' => if cond then Some label else first_match table'
  end.

(** The Euclidean distance, depth included (an absent depth counts as 0):
    the binary64 root of the sum of the squared coordinate differences. *)
Definition euclidean_distance (p1 p2 : Landmark) : float :=
  let dx := lm_x p1 - lm_x p2 in
  let dy := lm_y p1 - lm_y p2 in
  let dz := get_z p1 - get_z p2 in
  sqrt (dx * dx + dy * dy + dz * dz).

(** Rule 8, the fallback. *)
Definition pinch_or_open (landmarks : list Landmark) : string :=
  if euclidean_distance (landmark_at landmarks 4) (landmark_at landmarks 8)
     <? 0.05
  then "PINCH" else "OPEN".

Definition decision_table (landmarks : list Landmark) : string :=
  match first_match (rules (extended_of landmarks)) with
  | Some label => label
  | None => pinch_or_open landmarks
  end.

(** One of rules 1 to 7 applies. *)
Definition rules_decide (landmarks : list Landmark) : Prop :=
  exists label, first_match (rules (extended_of landmarks)) = Some label.

(** Python's [**] returns the correctly rounded squares of the three
    coordinate differences and the correctly rounded root of their sum (no
    range error, no last-bit deviation of the C library's [pow]). *)
Definition python_power_rounds {libm : Libm} (p1 p2 : Landmark) : Prop :=
  let dx := lm_x p1 - lm_x p2 in
  let dy := lm_y p1 - lm_y p2 in
  let dz := get_z p1 - get_z p2 in
  float_pow_2 dx = Ok (dx * dx)
  /\ float_pow_2 dy = Ok (dy * dy)
  /\ float_pow_2 dz = Ok (dz * dz)
  /\ float_pow_half (dx * dx + dy * dy + dz * dz)
     = Ok (PyFloat (sqrt (dx * dx + dy * dy + dz * dz))).

(** ** The classifier's own last branch

    What [recognize_gesture] does once rules 1 to 7 have passed, and the
    function read as rules followed by that branch. *)

Definition pinch_branch {libm : Libm} (landmarks : list Landmark)
  : res string :=
  d <- calculate_distance (landmark_at landmarks 4) (landmark_at landmarks 8) ;;
  close <- num_lt d 0.05 ;;
  Ok (if close then "PINCH" else "OPEN").

Definition rule_chain {libm : Libm} (landmarks : list Landmark) : res string :=
  match first_match (rules (extended_of landmarks)) with
  | Some label => Ok label
  | None => pinch_branch landmarks
  end.

(** ** When a power leaves the float range *)

(** [v ** 2] is handed to the C library (a finite [v], not zero, not 1 or
    -1) and the square comes back as a range error. *)
Definition square_out_of_range {libm : Libm} (v : float) : bool :=
  if is_nan v then false
  else if is_infinity v then false
  else if is_zero v then false
  else if abs v =? 1 then false
  else range_error (pow (abs v) 2).

(** [s ** 0.5] is handed to the C library (a finite positive [s], not 1)
    and the root comes back as a range error. *)
Definition root_out_of_range {libm : Libm} (s : float) : bool :=
  if is_nan s then false
  else if is_infinity s then false
  else if is_zero s then false
  else if s <? 0 then false
  else if s =? 1 then false
  else range_error (pow s 0.5).

(** The square of the x, y or z difference of two landmarks is out of
    range, or the root of the sum of the three squares is. *)
Definition power_out_of_range {libm : Libm} (p1 p2 : Landmark) : Prop :=
  let dx := lm_x p1 - lm_x p2 in
  let dy := lm_y p1 - lm_y p2 in
  let dz := get_z p1 - get_z p2 in
  square_out_of_range dx = true
  \/ square_out_of_range dy = true
  \/ square_out_of_range dz = true
  \/ exists a b c,
       float_pow_2 dx = Ok a /\ float_pow_2 dy = Ok b /\ float_pow_2 dz = Ok c
       /\ root_out_of_range (a + b + c) = true.

(** An [int] or a [float] that is not negative. *)
Definition number_nonneg (a : number) : bool :=
  match a with
  | NInt n => (0 <=? n)%Z
  | NFloat f => sf_nonneg (Prim2SF f)
  end.

Definition gesture_labels : list string :=
  [ "FIST"; "OPEN"; "POINT"; "VICTORY"; "THUMBS_UP";
    "THREE"; "PINKY"; "ROCK"; "PINCH"; "UNKNOWN" ].

(** A landmark sitting at the given coordinates. *)
Definition at_point (l : Landmark) (x y z : float) : Prop :=
  lm_x l = x /\ lm_y l = y /\ lm_z l = Some z.

(** ** Sample inputs *)

Definition pt (x y z : float) : Landmark := mkLandmark 0 x y (Some z) None.

(** Hand landmarks from a few (index, landmark) overrides, the rest at the
    origin. *)
Definition hand_with (overrides : list (nat * Landmark)) (n : nat)
  : list Landmark :=
  map (fun i => match find (fun o => Nat.eqb (fst o) i) overrides with
                | Some o => snd o
                | None => pt 0 0 0
                end) (seq 0 n).

Definition flat_hand : list Landmark := hand_with [] 21.

(** Thumb tip at the origin, index tip at (0.03, 0.04, 0). *)
Definition three_four_five_hand : list Landmark :=
  hand_with [(8%nat, pt 0.03 0.04 0)] 21.

(** Thumb and index tips 0.01 apart, no finger extended. *)
Definition closed_pinch_hand : list Landmark :=
  hand_with [(8%nat, pt 0.01 0 0)] 21.

(** Only the middle finger extended, thumb and index tips together. *)
Definition middle_pinch_hand : list Landmark :=
  hand_with [(9%nat, pt 0 1 0)] 21.

(** Only the middle finger extended, the thumb tip far out on [x]. *)
Definition far_thumb_hand : list Landmark :=
  hand_with [(9%nat, pt 0 1 0); (4%nat, pt 1e200 0 0)] 21.

(** Only the middle finger extended, the index tip half a unit from the
    thumb tip. *)
Definition open_pinch_hand : list Landmark :=
  hand_with [(9%nat, pt 0 1 0); (8%nat, pt 0.3 0.4 0)] 21.

(** Only the middle finger extended, the index tip a last bit short of 0.05
    from the thumb tip. *)
Definition last_bit_hand : list Landmark :=
  hand_with [(9%nat, pt 0 1 0);
             (8%nat, pt 0.004301461922125085 0.04981463063531143 0)] 21.

Definition short_hand : list Landmark := hand_with [] 20.

(** Float coordinates at the origin, but for the thumb tip, whose x is the
    int 10 ** 400. *)
Definition huge_int_hand : list Numeric.Landmark :=
  map (fun i => Numeric.mkLandmark
                  (if Nat.eqb i 4 then NInt (10 ^ 400) else NFloat 0)
                  (NFloat 0) None)
      (seq 0 21).

(** ** How a capability call ends

    [None] for the singleton is an unavailable capability; a raise of the
    colour conversion or of the detector is a failed call; a returned value
    may still be malformed for the facade that reads it. *)

Inductive outcome (R : Type) : Type :=
  | Unavailable
  | Failed (e : exn)
  | Returned (r : R).

Arguments Unavailable {R}.
Arguments Failed {R} e.
Arguments Returned {R} r.

Definition capability {Image R : Type} (cvtColor : Image -> res Image)
  (detector : option (Image -> res R)) (image : Image) : outcome R :=
  match detector with
  | None => Unavailable
  | Some call =>
      match (rgb_image <- cvtColor image ;; call rgb_image) with
      | Ok r => Returned r
      | Raise e => Failed e
      end
  end.

(** A first face without an ["emotions"] entry, or with an empty one. *)
Definition malformed_emotions (result : list FerFace) : Prop :=
  exists face rest,
    result = face :: rest
    /\ (fer_emotions face = None \/ fer_emotions face = Some []).

(** A result whose [pose_landmarks] cannot be read. *)
Definition malformed_pose (results : PoseOutput) : Prop :=
  exists e, out_pose_landmarks results = Raise e.

(** A pose whose landmarks stop short of the shoulders (indices 11, 12). *)
Definition short_pose (results : PoseOutput) : Prop :=
  exists landmark,
    out_pose_landmarks results = Ok (Some landmark)
    /\ (List.length landmark < 13)%nat.

(** A result whose faces cannot be read, or whose first face stops short of
    the highest index read, 386. *)
Definition malformed_face_mesh (results : FaceMeshOutput) : Prop :=
  (exists e, out_multi_face_landmarks results = Raise e)
  \/ exists face_landmarks rest,
       out_multi_face_landmarks results = Ok (Some (face_landmarks :: rest))
       /\ (List.length face_landmarks < 387)%nat.

(** A result whose hands cannot be read, or with a hand that stops short of
    the index tip, landmark 8. *)
Definition malformed_hands (results : HandsOutput) : Prop :=
  (exists e, out_multi_hand_landmarks results = Raise e)
  \/ exists multi_hand_landmarks,
       out_multi_hand_landmarks results = Ok (Some multi_hand_landmarks)
       /\ Exists (fun hand => (List.length hand < 9)%nat) multi_hand_landmarks.

(** A capability "fails in any way": unavailable, raising, or malformed. *)
Definition capability_failure {Image R : Type} (cvtColor : Image -> res Image)
  (detector : option (Image -> res R)) (image : Image)
  (malformed : R -> Prop) : Prop :=
  capability cvtColor detector image = Unavailable
  \/ (exists e, capability cvtColor detector image = Failed e)
  \/ (exists r, capability cvtColor detector image = Returned r /\ malformed r).

(** ** Sample detectors and frames *)

Definition raw_origin : RawLandmark := mkRaw 0 0 0 1.

(** A pose detector that reports 10 landmarks. *)
Definition ten_landmark_pose : unit -> res PoseOutput :=
  fun _ => Ok (mkPoseOutput (Ok (Some (repeat raw_origin 10)))).

(** A pose detector that reports 16 landmarks. *)
Definition sixteen_landmark_pose : unit -> res PoseOutput :=
  fun _ => Ok (mkPoseOutput (Ok (Some (repeat raw_origin 16)))).

Definition failing_detector {R : Type} : unit -> res R :=
  fun _ => Raise DetectorError.

Definition same_image : unit -> res unit := fun u => Ok u.

(** ** What a best-effort broadcast should leave behind *)

(** A connection whose send does not fail. *)
Definition healthy (w : World) (c : WebSocket) : bool :=
  negb (is_some (send_error w c)).

(** The message once for each healthy connection, in registration order. *)
Definition deliveries (w : World) (connections : list WebSocket)
  (message : Message) : list (WebSocket * Message) :=
  map (fun c => (c, message)) (filter (healthy w) connections).

(** Every registered connection, in order. *)
Definition attempts (connections : list WebSocket) (message : Message)
  : list (WebSocket * Message) :=
  map (fun c => (c, message)) connections.

(** ** Sample servers, worlds and messages *)

(** No manager state yet, every socket healthy. *)
Definition quiet_world : World :=
  mkWorld new_manager [] [] [] (fun _ => None).

(** Sessions 1, 2 and 3 registered; sending to session 2 fails. *)
Definition three_sessions : World :=
  mkWorld (mkManager [1%nat; 2%nat; 3%nat] (mkEmotion "neutral" 0 None) None
                     (0%Z, false))
          [] [] []
          (fun c => if Nat.eqb c 2 then Some WebSocketDisconnect else None).

Definition happy : EmotionResult :=
  mkEmotion "happy" 0.9 (Some [("sad", 0.1); ("happy", 0.9)]).

(** A server whose frames are their own payload text; its emotion detector
    sees a face on the payload "smile" and raises on anything else; no pose
    detector. *)
Definition moody_detector : string -> res (list FerFace) :=
  fun payload =>
    if String.eqb payload "smile"
    then Ok [mkFerFace (Some [("sad", 0.1); ("happy", 0.9)])]
    else Raise DetectorError.

Definition moody_loop : WebSocket -> list (res json) -> io handler_status :=
  receive_loop (libm := rounded_libm) string (fun i => Ok i)
               (Some moody_detector) None None None
               (fun payload => Ok payload).

Definition moody_endpoint : WebSocket -> list (res json) -> io handler_status :=
  websocket_endpoint (libm := rounded_libm) string (fun i => Ok i)
                     (Some moody_detector) None None None true false false
                     (fun payload => Ok payload).

Definition emotion_frame (payload : string) : json :=
  JObj [("type", JStr "frame"); ("data", JStr payload);
        ("analyze_emotion", JBool true); ("analyze_hands", JBool false)].

Definition pose_frame (payload : string) : json :=
  JObj [("type", JStr "frame"); ("data", JStr payload);
        ("analyze_pose", JBool true); ("analyze_hands", JBool false)].

(** The message kind the endpoint's docstring announces but no branch
    handles. *)
Definition audio_chunk : json :=
  JObj [("type", JStr "audio_chunk"); ("data", JStr "AAAA")].

Definition ping : json := JObj [("type", JStr "ping")].

(** First messages of a beat session. *)
Definition tempo_message (tempo : json) : json := JObj [("tempo", tempo)].

(** ** Vocabulary of the further properties *)

(** The labels some landmark list is answered with. *)
Definition reachable_labels : list string :=
  [ "FIST"; "OPEN"; "POINT"; "VICTORY"; "THUMBS_UP";
    "THREE"; "PINKY"; "PINCH"; "UNKNOWN" ].

(** The landmarks the classifier looks at. *)
Definition read_indices : list nat :=
  [2; 4; 5; 8; 9; 12; 13; 16; 17; 20]%nat.

(** Two landmark dictionaries that read alike: same x, y and z-or-default. *)
Definition same_reading (a b : Landmark) : Prop :=
  lm_x a = lm_x b /\ lm_y a = lm_y b /\ get_z a = get_z b.

(** A float that is neither a NaN nor an infinity. *)
Definition finite_point (p : Landmark) : Prop :=
  is_finite (lm_x p) = true /\ is_finite (lm_y p) = true
  /\ is_finite (get_z p) = true.

(** A flat hand followed by four landmarks that no rule reads, with ids and
    visibilities of their own. *)
Definition padded_hand : list Landmark :=
  (map (fun l => mkLandmark 7 (lm_x l) (lm_y l) None (Some 0.5)) flat_hand
   ++ repeat (pt 1 1 1) 4)%list.

(** The order [<] tests on non-NaN binary64 values, as a lexicographic
    rank: class, then exponent, then mantissa, mirrored below zero. *)
Definition sf_rank (s : spec_float) : Z * Z * Z :=
  match s with
  | S754_infinity true => (-2, 0, 0)
  | S754_finite true m e => (-1, - e, Zneg m)
  | S754_zero _ | S754_nan => (0, 0, 0)
  | S754_finite false m e => (1, e, Zpos m)
  | S754_infinity false => (2, 0, 0)
  end%Z.

Definition lex_lt (a b : Z * Z * Z) : Prop :=
  let '(a1, a2, a3) := a in
  let '(b1, b2, b3) := b in
  (a1 < b1 \/ (a1 = b1 /\ (a2 < b2 \/ (a2 = b2 /\ a3 < b3))))%Z.

Definition sf_is_nan (s : spec_float) : bool :=
  match s with
  | S754_nan => true
  | _ => false
  end.

(** An emotion detector that sees one face with the given scores. *)
Definition one_face (scores : list (string * float))
  : unit -> res (list FerFace) :=
  fun _ => Ok [mkFerFace (Some scores)].

Definition tied_scores : list (string * float) :=
  [("sad", 0.2); ("happy", 0.4); ("angry", 0.4); ("fear", 0.1)].

(** What a handler of [websocket] may change between two worlds: nothing
    of the registrations, the beat field, the sleeps or the socket health,
    and both send logs only grow, by messages addressed to [websocket]. *)
Definition own_traffic (websocket : WebSocket)
  (l : list (WebSocket * Message)) : Prop :=
  Forall (fun a => fst a = websocket) l.

Definition handler_step (websocket : WebSocket) (w w' : World) : Prop :=
  active_connections (manager w') = active_connections (manager w)
  /\ last_beat (manager w') = last_beat (manager w)
  /\ slept w' = slept w
  /\ send_error w' = send_error w
  /\ (exists l, attempted w' = (attempted w ++ l)%list /\ own_traffic websocket l)
  /\ (exists l, sent w' = (sent w ++ l)%list /\ own_traffic websocket l).

(** A computation all of whose runs are such steps. *)
Definition keeps {A : Type} (websocket : WebSocket) (m : io A) : Prop :=
  forall w, handler_step websocket w (snd (m w)).

(** Whether every inbound event is a received JSON object. *)
Definition is_dict (event : res json) : bool :=
  match event with
  | Ok (JObj _) => true
  | _ => false
  end.

(** The world once [message] went out to [websocket]. *)
Definition after_send (websocket : WebSocket) (message : Message) (w : World)
  : World :=
  mkWorld (manager w) (attempted w ++ [(websocket, message)])
          (sent w ++ [(websocket, message)]) (slept w) (send_error w).

(** A modality's entry in the analysis reply: its result if the frame's
    flag (or the flag's default) is true, no entry otherwise. *)
Definition requested {A : Type} (fields : list (string * json)) (flag : string)
  (default : bool) (result : A) : option A :=
  if truthy (dict_get fields flag (JBool default)) then Some result else None.

Definition registered (w : World) : list WebSocket :=
  active_connections (manager w).

(** The world once [connect] registered [websocket]. *)
Definition after_connect (websocket : WebSocket) (w : World) : World :=
  with_manager (fun m =>
    mkManager (active_connections m ++ [websocket])
              (last_emotion m) (last_pose m) (last_beat m)) w.

(** A frame whose payload is not even a string. *)
Definition bad_frame : json := JObj [("type", JStr "frame"); ("data", JNull)].

(** The pulses of a session, counted from [start]. *)
Definition pulses_from (websocket : WebSocket) (tempo : json) (start n : nat)
  : list (WebSocket * Message) :=
  map (fun k => (websocket, MsgBeat k tempo)) (seq start n).

(** [sep.join(pieces)] *)
Fixpoint join (sep : string) (pieces : list string) : string :=
  match pieces with
  | [] => EmptyString
  | [piece] => piece
  | piece :: pieces' => (piece ++ sep ++ join sep pieces')%string
  end.

(** The label the handedness channel holds for the hand at [hand_idx]:
    the first classification of the entry at that index, or "Unknown" where
    the channel is absent or empty. *)
Definition handedness_of (multi_handedness : option (list (list string)))
  (hand_idx : nat) (label : string) : Prop :=
  match multi_handedness with
  | None | Some [] => label = "Unknown"
  | Some labels =>
      exists classification,
        nth_error labels hand_idx = Some classification
        /\ nth_error classification 0 = Some label
  end.

(** What an entry of ["hands"] says of the raw hand it was built from, the
    hand at [hand_idx] of a detection with the given handedness channel. *)
Definition observes {libm : Libm}
  (multi_handedness : option (list (list string)))
  (hand_idx : nat) (raw : list RawLandmark) (h : HandObservation) : Prop :=
  let landmarks := map xyz_dict (enumerate raw) in
  hand_landmarks h = landmarks
  /\ handedness_of multi_handedness hand_idx (handedness h)
  /\ (9 <= List.length raw)%nat
  /\ recognize_gesture landmarks = Ok (gesture h)
  /\ In (gesture h) gesture_labels
  /\ palm_center h = point_of (landmark_at landmarks 0)
  /\ index_tip h = point_of (landmark_at landmarks 8)
  /\ thumb_tip h = point_of (landmark_at landmarks 4)
  /\ calculate_distance (landmark_at landmarks 4) (landmark_at landmarks 8)
     = Ok (pinch_distance h)
  /\ exists d, pinch_distance h = PyFloat d.

(** A raw hand whose entry can be built: it reaches the index tip, the
    handedness channel has a label for it, and neither the classifier nor
    the pinch distance overflows. *)
Definition reportable {libm : Libm}
  (multi_handedness : option (list (list string)))
  (hand_idx : nat) (raw : list RawLandmark) : Prop :=
  let landmarks := map xyz_dict (enumerate raw) in
  (9 <= List.length raw)%nat
  /\ (exists label, handedness_of multi_handedness hand_idx label)
  /\ raises (recognize_gesture landmarks) = false
  /\ raises (calculate_distance (landmark_at landmarks 4)
                                (landmark_at landmarks 8)) = false.

(** The features read off a face's landmark dictionaries. *)
Definition face_features (landmarks : list Landmark) : FaceFeatures :=
  let y (i : nat) := lm_y (landmark_at landmarks i) in
  let xy (i : nat) := point_of (landmark_at landmarks i) in
  mkFaceFeatures
    (0.03 <? abs (y 13%nat - y 14%nat))
    (0.015 <? abs (y 159%nat - y 145%nat))
    (0.015 <? abs (y 386%nat - y 374%nat))
    ((y 70%nat <? 0.25) || (y 300%nat <? 0.25))
    (xy 1%nat) (xy 4%nat) (xy 152%nat) (xy 33%nat) (xy 263%nat)
    (mkPoint ((p_x (xy 13%nat) + p_x (xy 14%nat)) / 2)
             ((p_y (xy 13%nat) + p_y (xy 14%nat)) / 2)).

(** A face-mesh detector that reports one face of [n] landmarks at the
    origin, and a hand detector that reports hands of the given sizes. *)
Definition flat_face (n : nat) : unit -> res FaceMeshOutput :=
  fun _ => Ok (mkFaceMeshOutput (Ok (Some [repeat raw_origin n]))).

Definition flat_hands (sizes : list nat) : unit -> res HandsOutput :=
  fun _ => Ok (mkHandsOutput
                 (Ok (Some (map (repeat raw_origin) sizes))) (Ok None)).

(** A hand detector that reports hands of the given sizes, with one
    handedness classification for each of the given labels. *)
Definition labelled_hands (sizes : list nat) (labels : list string)
  : unit -> res HandsOutput :=
  fun _ => Ok (mkHandsOutput
                 (Ok (Some (map (repeat raw_origin) sizes)))
                 (Ok (Some (map (fun label => [label]) labels)))).

(** ["gestures_supported"] of the health check [root()]. *)
Definition gestures_supported : list string :=
  [ "FIST"; "OPEN"; "POINT"; "VICTORY"; "THUMBS_UP";
    "THREE"; "PINKY"; "ROCK"; "PINCH" ].

(** * Properties *)

(** ** Indexing *)

Lemma getitem_landmark_at (landmarks : list Landmark) (i : nat) :
  (i < List.length landmarks)%nat ->
  getitem landmarks i = Ok (landmark_at landmarks i).
Proof.
  intro Hi. unfold getitem, landmark_at.
  rewrite (nth_error_nth' landmarks no_landmark Hi). reflexivity.
Qed.

(** ** Gesture classifier *)

Example flat_hand_fist {libm : Libm} : recognize_gesture flat_hand = Ok "FIST".
Proof. reflexivity. Qed.

(** With 21 landmarks or more every lookup of the classifier succeeds, and
    the code is the flags followed by its chain of tests. *)
Lemma recognize_gesture_unfold {libm : Libm} (landmarks : list Landmark) :
  (21 <= List.length landmarks)%nat ->
  recognize_gesture landmarks =
    let e := extended_of landmarks in
    if negb (any [index e; middle e; ring e; pinky e]) then
      if thumb e then Ok "THUMBS_UP" else Ok "FIST"
    else if index e && middle e && negb (ring e) && negb (pinky e)
    then Ok "VICTORY"
    else if index e && negb (middle e) && negb (ring e) && negb (pinky e)
    then Ok "POINT"
    else if all [thumb e; index e; middle e; ring e; pinky e] then Ok "OPEN"
    else if index e && middle e && ring e && negb (pinky e) then Ok "THREE"
    else if negb (index e) && negb (middle e) && negb (ring e) && pinky e
    then Ok "PINKY"
    else if thumb e && pinky e && negb (index e) && negb (middle e)
            && negb (ring e)
    then Ok "ROCK"
    else pinch_branch landmarks.
Proof.
  intro Hlen. unfold recognize_gesture.
  assert (Hlt : (List.length landmarks <? 21)%nat = false)
    by (apply Nat.ltb_ge; exact Hlen).
  rewrite Hlt.
  unfold is_thumb_extended, is_finger_extended, pinch_branch.
  repeat (rewrite getitem_landmark_at by lia).
  cbn [bind]. unfold extended_of, tip_above_base.
  cbn [thumb index middle ring pinky].
  repeat match goal with
         | |- context [if ?c then _ else _] => destruct c
         end; try reflexivity;
    destruct (calculate_distance _ _) as [d|]; cbn [bind]; try reflexivity;
    destruct (num_lt d _) as [[|]|]; reflexivity.
Qed.

(** The code is rules 1 to 7 in order, then its own pinch branch. *)
Lemma recognize_gesture_rule_chain {libm : Libm} (landmarks : list Landmark) :
  (21 <= List.length landmarks)%nat ->
  recognize_gesture landmarks = rule_chain landmarks.
Proof.
  intro Hlen. rewrite (recognize_gesture_unfold landmarks Hlen).
  unfold rule_chain, rules. cbv zeta.
  destruct (extended_of landmarks) as [t i m r p].
  cbn [thumb index middle ring pinky any all existsb forallb first_match].
  destruct t, i, m, r, p; reflexivity.
Qed.

Lemma recognize_gesture_short {libm : Libm} (landmarks : list Landmark) :
  (List.length landmarks < 21)%nat ->
  recognize_gesture landmarks = Ok "UNKNOWN".
Proof.
  intro Hlen. unfold recognize_gesture.
  replace (List.length landmarks <? 21)%nat with true
    by (symmetry; apply Nat.ltb_lt; exact Hlen).
  reflexivity.
Qed.

(** ** Signs of squares and of their sums

    The radicand of [calculate_distance] is a sum of squares; in binary64 it
    is a NaN, a zero or carries a clear sign bit, so it never compares below
    zero. *)

Lemma binary_round_aux_nonneg (p e' : Z) (m e : Z) (l : location) :
  sf_nonneg (binary_round_aux p e' false m e l) = true.
Proof.
  unfold binary_round_aux.
  destruct (shr_fexp p e' m e l) as [mrs1 e1].
  destruct (shr_fexp p e' _ e1 loc_Exact) as [mrs2 e2].
  destruct (shr_m mrs2); [reflexivity | | reflexivity].
  destruct (Z.leb e2 (Z.sub e' p)); reflexivity.
Qed.

Lemma SFadd_nonneg (p e' : Z) (x y : spec_float) :
  sf_nonneg x = true -> sf_nonneg y = true ->
  sf_nonneg (SFadd p e' x y) = true.
Proof.
  destruct x as [[|]|[|]| |[|] mx ex]; destruct y as [[|]|[|]| |[|] my ey];
    cbn [sf_nonneg negb]; intros Hx Hy; try discriminate; try reflexivity.
  cbn [SFadd cond_Zopp]. cbn [Z.add binary_normalize].
  unfold binary_round.
  destruct (shl_align _ _ _) as [mz ez].
  apply binary_round_aux_nonneg.
Qed.

Lemma SFltb_nonneg_zero (x : spec_float) :
  sf_nonneg x = true -> SFltb x (S754_zero false) = false.
Proof.
  destruct x as [[|]|[|]| |[|] m e]; cbn; intro H; try discriminate; reflexivity.
Qed.

Lemma not_negative (s : float) :
  sf_nonneg (Prim2SF s) = true -> (s <? 0) = false.
Proof.
  intro H. rewrite ltb_spec.
  change (Prim2SF 0) with (S754_zero false).
  apply SFltb_nonneg_zero. exact H.
Qed.

Lemma sum_nonneg (a b c : float) :
  sf_nonneg (Prim2SF a) = true -> sf_nonneg (Prim2SF b) = true ->
  sf_nonneg (Prim2SF c) = true ->
  sf_nonneg (Prim2SF (a + b + c)) = true.
Proof.
  intros Ha Hb Hc. rewrite !add_spec. unfold SF64add.
  repeat apply SFadd_nonneg; assumption.
Qed.

(** ** Python's [**] *)

Lemma SFeqb_refl (s : spec_float) : s <> S754_nan -> SFeqb s s = true.
Proof.
  destruct s as [[|]|[|]| |[|] m e]; intro H; try reflexivity;
    try (exfalso; apply H; reflexivity);
    unfold SFeqb, SFcompare; rewrite Z.compare_refl, Pos.compare_cont_refl;
    reflexivity.
Qed.

Lemma is_nan_true (v : float) : is_nan v = true -> Prim2SF v = S754_nan.
Proof.
  unfold is_nan. rewrite FloatAxioms.eqb_spec. intro H.
  destruct (Prim2SF v) as [s|s| |s m e] eqn:Hv; try reflexivity;
    rewrite SFeqb_refl in H by discriminate; discriminate H.
Qed.

(** A float that is neither a NaN nor a zero has a positive magnitude. *)
Lemma abs_positive (v : float) :
  is_nan v = false -> is_zero v = false -> (0 <? abs v) = true.
Proof.
  unfold is_nan, is_zero.
  rewrite !FloatAxioms.eqb_spec, ltb_spec, abs_spec.
  change (Prim2SF 0) with (S754_zero false).
  destruct (Prim2SF v) as [[|]|[|]| |[|] m e]; cbn; intros Hn Hz;
    try discriminate; reflexivity.
Qed.

Lemma libm_pow_nonneg {libm : Libm} (b y r : float) :
  (0 <? b) = true -> libm_pow b y = Ok r -> sf_nonneg (Prim2SF r) = true.
Proof.
  intros Hb. unfold libm_pow. cbv zeta.
  destruct (range_error (pow b y)); intro H; [discriminate H|].
  injection H as <-. apply pow_sign. exact Hb.
Qed.

Lemma libm_pow_error {libm : Libm} (b y : float) (e : exn) :
  libm_pow b y = Raise e -> e = OverflowError.
Proof.
  unfold libm_pow. cbv zeta.
  destruct (range_error (pow b y)); congruence.
Qed.

(** A square is never negative. *)
Lemma float_pow_2_nonneg {libm : Libm} (v r : float) :
  float_pow_2 v = Ok r -> sf_nonneg (Prim2SF r) = true.
Proof.
  unfold float_pow_2.
  destruct (is_nan v) eqn:Hnan.
  { intro H. injection H as <-. rewrite (is_nan_true v Hnan). reflexivity. }
  destruct (is_infinity v).
  { intro H. injection H as <-. rewrite abs_spec.
    destruct (Prim2SF v) as [s|s| |s m e]; reflexivity. }
  destruct (is_zero v) eqn:Hzero.
  { intro H. injection H as <-. reflexivity. }
  destruct (abs v =? 1).
  { intro H. injection H as <-. reflexivity. }
  apply libm_pow_nonneg. apply abs_positive; assumption.
Qed.

Lemma float_pow_2_error {libm : Libm} (v : float) (e : exn) :
  float_pow_2 v = Raise e -> e = OverflowError.
Proof.
  unfold float_pow_2.
  destruct (is_nan v); [discriminate|].
  destruct (is_infinity v); [discriminate|].
  destruct (is_zero v); [discriminate|].
  destruct (abs v =? 1); [discriminate|].
  apply libm_pow_error.
Qed.

(** The root of a float that is not negative is a float, or a range error
    of the C library; it is never a [complex]. *)
Lemma float_pow_half_real {libm : Libm} (s : float) :
  sf_nonneg (Prim2SF s) = true ->
  (exists f, float_pow_half s = Ok (PyFloat f))
  \/ float_pow_half s = Raise OverflowError.
Proof.
  intro Hs. unfold float_pow_half.
  rewrite (not_negative s Hs).
  destruct (is_nan s); [left; eexists; reflexivity|].
  destruct (is_infinity s); [left; eexists; reflexivity|].
  destruct (is_zero s); [left; eexists; reflexivity|].
  destruct (s =? 1); [left; eexists; reflexivity|].
  destruct (libm_pow s 0.5) as [r|e] eqn:Hr; cbn [bind].
  - left. eexists. reflexivity.
  - right. f_equal. eapply libm_pow_error. eassumption.
Qed.

(** The distance is a float, or the computation overflowed; it is never a
    [complex] and nothing else is raised. *)
Lemma calculate_distance_cases {libm : Libm} (p1 p2 : Landmark) :
  (exists f, calculate_distance p1 p2 = Ok (PyFloat f))
  \/ calculate_distance p1 p2 = Raise OverflowError.
Proof.
  unfold calculate_distance.
  destruct (float_pow_2 (lm_x p1 - lm_x p2)) as [dx|e] eqn:Hx; cbn [bind];
    [|right; f_equal; eapply float_pow_2_error; eassumption].
  destruct (float_pow_2 (lm_y p1 - lm_y p2)) as [dy|e] eqn:Hy; cbn [bind];
    [|right; f_equal; eapply float_pow_2_error; eassumption].
  destruct (float_pow_2 (get_z p1 - get_z p2)) as [dz|e] eqn:Hz; cbn [bind];
    [|right; f_equal; eapply float_pow_2_error; eassumption].
  apply float_pow_half_real.
  apply sum_nonneg; eapply float_pow_2_nonneg; eassumption.
Qed.

(** Where Python's [**] rounds correctly the code's distance is the
    Euclidean one. *)
Lemma calculate_distance_euclidean {libm : Libm} (p1 p2 : Landmark) :
  python_power_rounds p1 p2 ->
  calculate_distance p1 p2 = Ok (PyFloat (euclidean_distance p1 p2)).
Proof.
  unfold python_power_rounds, calculate_distance, euclidean_distance.
  cbv zeta. intros (Hx & Hy & Hz & Hroot).
  rewrite Hx, Hy, Hz. cbn [bind]. exact Hroot.
Qed.

(** Labels the table can produce. *)
Lemma first_match_rules_label (e : Extended) (label : string) :
  first_match (rules e) = Some label -> In label gesture_labels.
Proof.
  destruct e as [t i m r p]. unfold rules.
  cbn [thumb index middle ring pinky first_match].
  destruct t, i, m, r, p; cbn; intro H; inversion H; subst; cbn; tauto.
Qed.

Lemma pinch_branch_cases {libm : Libm} (landmarks : list Landmark) :
  pinch_branch landmarks = Ok "PINCH"
  \/ pinch_branch landmarks = Ok "OPEN"
  \/ (pinch_branch landmarks = Raise OverflowError
      /\ calculate_distance (landmark_at landmarks 4) (landmark_at landmarks 8)
         = Raise OverflowError).
Proof.
  unfold pinch_branch.
  destruct (calculate_distance_cases (landmark_at landmarks 4)
              (landmark_at landmarks 8)) as [[f Hf]|Hraise].
  - rewrite Hf. cbn [bind num_lt]. destruct (f <? 0.05); auto.
  - rewrite Hraise. cbn [bind]. auto.
Qed.

(** [v ** 2] at a float the interpreter hands to the C library. *)
Lemma float_pow_2_libm {libm : Libm} (v : float) :
  is_nan v = false -> is_infinity v = false -> is_zero v = false ->
  (abs v =? 1) = false ->
  float_pow_2 v = libm_pow (abs v) 2.
Proof.
  intros Hn Hi Hz H1. unfold float_pow_2. rewrite Hn, Hi, Hz, H1. reflexivity.
Qed.

Lemma float_pow_half_libm {libm : Libm} (v : float) :
  is_nan v = false -> is_infinity v = false -> is_zero v = false ->
  (v <? 0) = false -> (v =? 1) = false ->
  float_pow_half v = (r <- libm_pow v 0.5 ;; Ok (PyFloat r)).
Proof.
  intros Hn Hi Hz Hneg H1. unfold float_pow_half.
  rewrite Hn, Hi, Hz, Hneg, H1. reflexivity.
Qed.

(** C1, as stated, fails.  With only the middle finger extended the pinch
    check is reached; a thumb tip at x = 1e200 makes the square in
    [calculate_distance] a range error, and the classifier raises where the
    table says OPEN.  And with the index tip at
    (0.004301461922125085, 0.04981463063531143) the C library's squares sum
    to 0.0025, whose root is 0.05: the classifier says OPEN where the
    Euclidean distance, 0.049999999999999996, says PINCH. *)
Lemma recognize_gesture_leaves_the_table :
  ((21 <= List.length far_thumb_hand)%nat
   /\ decision_table far_thumb_hand = "OPEN"
   /\ recognize_gesture (libm := rounded_libm) far_thumb_hand
      = Raise OverflowError
   /\ forall libm : Libm,
        range_error (pow 1e200 2) = true ->
        recognize_gesture far_thumb_hand = Raise OverflowError)
  /\ ((21 <= List.length last_bit_hand)%nat
      /\ euclidean_distance (landmark_at last_bit_hand 4)
                            (landmark_at last_bit_hand 8)
         = 0.049999999999999996
      /\ decision_table last_bit_hand = "PINCH"
      /\ forall libm : Libm,
           libm_pow 0.004301461922125085 2 = Ok 1.850257466749203e-05 ->
           libm_pow 0.04981463063531143 2 = Ok 0.002481497425332508 ->
           libm_pow 0.0025 0.5 = Ok 0.05 ->
           recognize_gesture last_bit_hand = Ok "OPEN").
Proof.
  split; [split; [|split; [|split]]|split; [|split; [|split]]].
  - vm_compute. lia.
  - vm_compute. reflexivity.
  - vm_compute. reflexivity.
  - intros libm Hrange.
    rewrite recognize_gesture_rule_chain by (vm_compute; lia).
    unfold rule_chain.
    replace (first_match (rules (extended_of far_thumb_hand)))
      with (@None string) by (vm_compute; reflexivity).
    unfold pinch_branch, calculate_distance.
    replace (lm_x (landmark_at far_thumb_hand 4)
             - lm_x (landmark_at far_thumb_hand 8)) with 1e200
      by (vm_compute; reflexivity).
    rewrite float_pow_2_libm by (vm_compute; reflexivity).
    replace (abs 1e200) with 1e200 by (vm_compute; reflexivity).
    unfold libm_pow. cbv zeta. rewrite Hrange. reflexivity.
  - vm_compute. lia.
  - vm_compute. reflexivity.
  - vm_compute. reflexivity.
  - intros libm Hx Hy Hroot.
    rewrite recognize_gesture_rule_chain by (vm_compute; lia).
    unfold rule_chain.
    replace (first_match (rules (extended_of last_bit_hand)))
      with (@None string) by (vm_compute; reflexivity).
    unfold pinch_branch, calculate_distance.
    replace (lm_x (landmark_at last_bit_hand 4)
             - lm_x (landmark_at last_bit_hand 8))
      with (-0.004301461922125085) by (vm_compute; reflexivity).
    replace (lm_y (landmark_at last_bit_hand 4)
             - lm_y (landmark_at last_bit_hand 8))
      with (-0.04981463063531143) by (vm_compute; reflexivity).
    replace (get_z (landmark_at last_bit_hand 4)
             - get_z (landmark_at last_bit_hand 8))
      with 0 by (vm_compute; reflexivity).
    rewrite (float_pow_2_libm (-0.004301461922125085))
      by (vm_compute; reflexivity).
    rewrite (float_pow_2_libm (-0.04981463063531143))
      by (vm_compute; reflexivity).
    replace (abs (-0.004301461922125085)) with 0.004301461922125085
      by (vm_compute; reflexivity).
    replace (abs (-0.04981463063531143)) with 0.04981463063531143
      by (vm_compute; reflexivity).
    rewrite Hx, Hy. cbn [bind].
    replace (float_pow_2 0) with (Ok 0) by reflexivity. cbn [bind].
    replace (1.850257466749203e-05 + 0.002481497425332508 + 0)
      with 0.0025 by (vm_compute; reflexivity).
    rewrite float_pow_half_libm by (vm_compute; reflexivity).
    rewrite Hroot. reflexivity.
Qed.

(** C1, amended: on 21 landmarks or more [recognize_gesture] returns the
    label of the specification's ordered decision table, first match
    winning (a non-thumb finger is extended iff its tip's y is strictly below
    its base's, the thumb iff |x[4] - x[2]| > 0.05, rules 1 to 7 in order,
    and otherwise PINCH when the Euclidean distance of landmarks 4 and 8 is
    below 0.05, else OPEN), whenever one of rules 1 to 7 applies, or Python's
    [**] returns the correctly rounded squares of the three coordinate
    differences of landmarks 4 and 8 and the correctly rounded root of their
    sum. *)
Theorem recognize_gesture_decision_table {libm : Libm}
  (landmarks : list Landmark) :
  (21 <= List.length landmarks)%nat ->
  rules_decide landmarks
  \/ python_power_rounds (landmark_at landmarks 4) (landmark_at landmarks 8) ->
  recognize_gesture landmarks = Ok (decision_table landmarks).
Proof.
  intros Hlen Hcase.
  rewrite (recognize_gesture_rule_chain landmarks Hlen).
  unfold rule_chain, decision_table.
  destruct Hcase as [[label Hrule]|Hrounds].
  - rewrite Hrule. reflexivity.
  - destruct (first_match (rules (extended_of landmarks))); [reflexivity|].
    unfold pinch_branch, pinch_or_open.
    rewrite (calculate_distance_euclidean _ _ Hrounds).
    cbn [bind num_lt].
    destruct (euclidean_distance _ _ <? 0.05); reflexivity.
Qed.

Lemma recognize_gesture_decision_table_witness :
  recognize_gesture (libm := rounded_libm) open_pinch_hand
  = Ok (decision_table open_pinch_hand).
Proof.
  apply (recognize_gesture_decision_table (libm := rounded_libm)
           open_pinch_hand).
  - vm_compute. lia.
  - right. vm_compute. repeat split; reflexivity.
Defined.

(** C6: on fewer than 21 landmarks [recognize_gesture] returns UNKNOWN; it
    returns, it does not raise. *)
Theorem recognize_gesture_too_few_landmarks {libm : Libm}
  (landmarks : list Landmark) :
  (List.length landmarks < 21)%nat ->
  recognize_gesture landmarks = Ok "UNKNOWN".
Proof.
  intro Hlen. unfold recognize_gesture.
  apply Nat.ltb_lt in Hlen. rewrite Hlen. reflexivity.
Qed.

Lemma recognize_gesture_too_few_landmarks_witness :
  recognize_gesture (libm := rounded_libm) short_hand = Ok "UNKNOWN".
Proof.
  apply (recognize_gesture_too_few_landmarks (libm := rounded_libm) short_hand).
  vm_compute. lia.
Defined.

(** ** The classifier on int and float coordinates *)

Lemma getitem_nth {A : Type} (l : list A) (d : A) (i : nat) :
  (i < List.length l)%nat -> getitem l i = Ok (nth i l d).
Proof.
  intro Hi. unfold getitem. rewrite (nth_error_nth' l d Hi). reflexivity.
Qed.

Lemma binary_round_nonneg (p e' : Z) (m : positive) (e : Z) :
  sf_nonneg (binary_round p e' false m e) = true.
Proof.
  unfold binary_round. destruct (shl_align _ _ _) as [mz ez].
  apply binary_round_aux_nonneg.
Qed.

Lemma binary_normalize_nonneg (p e' : Z) (z e : Z) :
  (0 <= z)%Z -> sf_nonneg (binary_normalize p e' z e false) = true.
Proof.
  destruct z as [|m|m]; intro Hz; cbn [binary_normalize].
  - reflexivity.
  - apply binary_round_nonneg.
  - lia.
Qed.

Lemma SFldexp_nonneg (p e' : Z) (s : spec_float) (e : Z) :
  sf_nonneg s = true -> sf_nonneg (SFldexp p e' s e) = true.
Proof.
  destruct s as [[|]|[|]| |[|] m ex]; cbn [sf_nonneg SFldexp]; intro H;
    try discriminate; try reflexivity.
  apply binary_round_nonneg.
Qed.

(** A binary64 value that is not negative stays so as a float. *)
Lemma SF2Prim_nonneg (s : spec_float) :
  sf_nonneg s = true -> sf_nonneg (Prim2SF (SF2Prim s)) = true.
Proof.
  destruct s as [[|]|[|]| |[|] m e]; cbn [sf_nonneg]; intro H;
    try discriminate; try reflexivity.
  unfold SF2Prim. rewrite Z_ldexp_spec, of_uint63_spec.
  apply SFldexp_nonneg, binary_normalize_nonneg.
  apply Uint63.to_Z_bounded.
Qed.

Lemma float_of_int_nonneg (n : Z) (f : float) :
  (0 <= n)%Z -> float_of_int n = Ok f -> sf_nonneg (Prim2SF f) = true.
Proof.
  intro Hn. unfold float_of_int. cbv zeta.
  destruct (is_infinity _); intro H; [discriminate H|].
  injection H as <-.
  apply SF2Prim_nonneg, binary_normalize_nonneg. exact Hn.
Qed.

Lemma float_of_int_error (n : Z) (e : exn) :
  float_of_int n = Raise e -> e = OverflowError.
Proof.
  unfold float_of_int. cbv zeta. destruct (is_infinity _); congruence.
Qed.

Lemma as_float_nonneg (a : number) (f : float) :
  number_nonneg a = true -> as_float a = Ok f -> sf_nonneg (Prim2SF f) = true.
Proof.
  destruct a as [n|x]; cbn [number_nonneg as_float]; intros Ha H.
  - apply (float_of_int_nonneg n f); [apply Z.leb_le; exact Ha | exact H].
  - injection H as <-. exact Ha.
Qed.

Lemma as_float_error (a : number) (e : exn) :
  as_float a = Raise e -> e = OverflowError.
Proof.
  destruct a as [n|x]; cbn [as_float]; [apply float_of_int_error|discriminate].
Qed.

Lemma float_binop_error (op : float -> float -> float) (a b : number)
  (e : exn) :
  (x <- as_float a ;; y <- as_float b ;; Ok (NFloat (op x y))) = Raise e ->
  e = OverflowError.
Proof.
  destruct (as_float a) as [x|ea] eqn:Ha; cbn [bind].
  - destruct (as_float b) as [y|eb] eqn:Hb; cbn [bind]; intro H.
    + discriminate H.
    + injection H as <-. eapply as_float_error. eassumption.
  - intro H. injection H as <-. eapply as_float_error. eassumption.
Qed.

Lemma num_sub_error (a b : number) (e : exn) :
  num_sub a b = Raise e -> e = OverflowError.
Proof.
  destruct a as [m|x], b as [n|y]; unfold num_sub;
    try apply (float_binop_error PrimFloat.sub).
  discriminate.
Qed.

Lemma num_add_error (a b : number) (e : exn) :
  num_add a b = Raise e -> e = OverflowError.
Proof.
  destruct a as [m|x], b as [n|y]; unfold num_add;
    try apply (float_binop_error PrimFloat.add).
  discriminate.
Qed.

Lemma add_nonneg (x y : float) :
  sf_nonneg (Prim2SF x) = true -> sf_nonneg (Prim2SF y) = true ->
  sf_nonneg (Prim2SF (x + y)) = true.
Proof.
  intros Hx Hy. rewrite add_spec. apply SFadd_nonneg; assumption.
Qed.

Lemma num_add_nonneg (a b c : number) :
  number_nonneg a = true -> number_nonneg b = true ->
  num_add a b = Ok c -> number_nonneg c = true.
Proof.
  intros Ha Hb.
  assert (Hfloat :
    (x <- as_float a ;; y <- as_float b ;; Ok (NFloat (x + y))) = Ok c ->
    number_nonneg c = true).
  { destruct (as_float a) as [x|] eqn:Hx; cbn [bind]; [|discriminate].
    destruct (as_float b) as [y|] eqn:Hy; cbn [bind]; [|discriminate].
    intro H. injection H as <-. cbn [number_nonneg].
    apply add_nonneg;
      [apply (as_float_nonneg a)|apply (as_float_nonneg b)]; assumption. }
  destruct a as [m|x], b as [n|y]; unfold num_add; try exact Hfloat.
  intro H. injection H as <-. cbn [number_nonneg] in *.
  apply Z.leb_le. apply Z.leb_le in Ha, Hb. lia.
Qed.

Lemma num_pow_2_error {libm : Libm} (a : number) (e : exn) :
  num_pow_2 a = Raise e -> e = OverflowError.
Proof.
  destruct a as [n|v]; cbn [num_pow_2]; [discriminate|].
  destruct (float_pow_2 v) as [r|e'] eqn:Hr; cbn [bind]; [discriminate|].
  intro H. injection H as <-. eapply float_pow_2_error. eassumption.
Qed.

Lemma num_pow_2_nonneg {libm : Libm} (a r : number) :
  num_pow_2 a = Ok r -> number_nonneg r = true.
Proof.
  destruct a as [n|v]; cbn [num_pow_2].
  - intro H. injection H as <-. cbn [number_nonneg].
    apply Z.leb_le. apply Z.square_nonneg.
  - destruct (float_pow_2 v) as [x|] eqn:Hx; cbn [bind]; [|discriminate].
    intro H. injection H as <-. cbn [number_nonneg].
    eapply float_pow_2_nonneg. eassumption.
Qed.

Lemma num_pow_half_real {libm : Libm} (a : number) :
  number_nonneg a = true ->
  (exists f, num_pow_half a = Ok (PyFloat f))
  \/ num_pow_half a = Raise OverflowError.
Proof.
  intro Ha. unfold num_pow_half.
  destruct (as_float a) as [x|e] eqn:Hx; cbn [bind].
  - apply float_pow_half_real. eapply as_float_nonneg; eassumption.
  - right. f_equal. eapply as_float_error. eassumption.
Qed.

(** On ints and floats too the distance is a float or an overflow. *)
Lemma numeric_distance_cases {libm : Libm} (p1 p2 : Numeric.Landmark) :
  (exists f, Numeric.calculate_distance p1 p2 = Ok (PyFloat f))
  \/ Numeric.calculate_distance p1 p2 = Raise OverflowError.
Proof.
  unfold Numeric.calculate_distance.
  destruct (num_sub (Numeric.lm_x p1) (Numeric.lm_x p2)) as [x|e] eqn:Hx;
    cbn [bind]; [|right; f_equal; eapply num_sub_error; eassumption].
  destruct (num_pow_2 x) as [dx|e] eqn:Hdx;
    cbn [bind]; [|right; f_equal; eapply num_pow_2_error; eassumption].
  destruct (num_sub (Numeric.lm_y p1) (Numeric.lm_y p2)) as [y|e] eqn:Hy;
    cbn [bind]; [|right; f_equal; eapply num_sub_error; eassumption].
  destruct (num_pow_2 y) as [dy|e] eqn:Hdy;
    cbn [bind]; [|right; f_equal; eapply num_pow_2_error; eassumption].
  destruct (num_add dx dy) as [dxy|e] eqn:Hdxy;
    cbn [bind]; [|right; f_equal; eapply num_add_error; eassumption].
  destruct (num_sub (Numeric.get_z p1) (Numeric.get_z p2)) as [z|e] eqn:Hz;
    cbn [bind]; [|right; f_equal; eapply num_sub_error; eassumption].
  destruct (num_pow_2 z) as [dz|e] eqn:Hdz;
    cbn [bind]; [|right; f_equal; eapply num_pow_2_error; eassumption].
  destruct (num_add dxy dz) as [total|e] eqn:Htotal;
    cbn [bind]; [|right; f_equal; eapply num_add_error; eassumption].
  apply num_pow_half_real.
  eapply num_add_nonneg; [| |exact Htotal].
  - eapply num_add_nonneg; [| |exact Hdxy];
      eapply num_pow_2_nonneg; eassumption.
  - eapply num_pow_2_nonneg; eassumption.
Qed.

(** What the classifier returns on ints and floats. *)
Lemma numeric_recognize_gesture_cases {libm : Libm}
  (landmarks : list Numeric.Landmark) :
  (exists label,
     Numeric.recognize_gesture landmarks = Ok label /\ In label gesture_labels)
  \/ (Numeric.recognize_gesture landmarks = Raise OverflowError
      /\ (21 <= List.length landmarks)%nat).
Proof.
  unfold Numeric.recognize_gesture.
  destruct (List.length landmarks <? 21)%nat eqn:Hlen.
  { left. exists "UNKNOWN". split; [reflexivity|cbn; tauto]. }
  apply Nat.ltb_ge in Hlen.
  pose (d := Numeric.mkLandmark (NInt 0) (NInt 0) None).
  unfold Numeric.is_thumb_extended, Numeric.is_finger_extended.
  repeat (rewrite (getitem_nth landmarks d) by lia).
  cbn [bind].
  destruct (num_sub _ _) as [dx|e] eqn:Hdx; cbn [bind];
    [|right; split; [f_equal; eapply num_sub_error; eassumption|exact Hlen]].
  repeat match goal with
         | |- context [if ?c then _ else _] => destruct c
         end;
    try (left; eexists; split; [reflexivity|cbn; tauto]).
  all: destruct (numeric_distance_cases (nth 4 landmarks d) (nth 8 landmarks d))
         as [[f Hf]|Hraise];
    [ rewrite Hf; cbn [bind num_lt]; destruct (f <? 0.05);
      left; eexists; (split; [reflexivity|cbn; tauto])
    | rewrite Hraise; cbn [bind]; right; split; [reflexivity|exact Hlen] ].
Qed.

(** On float coordinates the two readings of [calculate_distance] agree. *)
Lemma calculate_distance_float_coordinates {libm : Libm} (p1 p2 : Landmark) :
  Numeric.calculate_distance (float_coordinates p1) (float_coordinates p2)
  = calculate_distance p1 p2.
Proof.
  unfold Numeric.calculate_distance, calculate_distance, float_coordinates,
    Numeric.get_z, get_z.
  cbn [Numeric.lm_x Numeric.lm_y Numeric.lm_z num_sub as_float bind num_pow_2].
  destruct (float_pow_2 (lm_x p1 - lm_x p2)) as [dx|e]; cbn [bind];
    [|reflexivity].
  destruct (float_pow_2 (lm_y p1 - lm_y p2)) as [dy|e];
    cbn [bind num_add as_float]; [|reflexivity].
  destruct (lm_z p1) as [z1|], (lm_z p2) as [z2|]; cbn [option_map].
  - cbn [num_sub as_float bind num_pow_2].
    destruct (float_pow_2 (z1 - z2)) as [dz|e]; cbn [bind num_add as_float];
      reflexivity.
  - cbn [num_sub as_float]. change (float_of_int 0) with (Ok 0).
    cbn [bind num_pow_2].
    destruct (float_pow_2 (z1 - 0)) as [dz|e]; cbn [bind num_add as_float];
      reflexivity.
  - cbn [num_sub as_float]. change (float_of_int 0) with (Ok 0).
    cbn [bind num_pow_2].
    destruct (float_pow_2 (0 - z2)) as [dz|e]; cbn [bind num_add as_float];
      reflexivity.
  - cbn [num_sub bind num_pow_2 num_add as_float].
    change (float_of_int ((0 - 0) * (0 - 0))) with (Ok 0).
    change (float_pow_2 (0 - 0)) with (Ok 0).
    cbn [bind]. reflexivity.
Qed.

Lemma getitem_float_coordinates (landmarks : list Landmark) (i : nat) :
  (i < List.length landmarks)%nat ->
  getitem (map float_coordinates landmarks) i
  = Ok (float_coordinates (landmark_at landmarks i)).
Proof.
  intro Hi. unfold getitem, landmark_at.
  rewrite nth_error_map, (nth_error_nth' landmarks no_landmark Hi).
  reflexivity.
Qed.

(** On float coordinates the two readings of [recognize_gesture] agree. *)
Lemma recognize_gesture_float_coordinates {libm : Libm}
  (landmarks : list Landmark) :
  Numeric.recognize_gesture (map float_coordinates landmarks)
  = recognize_gesture landmarks.
Proof.
  unfold Numeric.recognize_gesture, recognize_gesture.
  rewrite length_map.
  destruct (List.length landmarks <? 21)%nat eqn:Hlen; [reflexivity|].
  apply Nat.ltb_ge in Hlen.
  unfold Numeric.is_thumb_extended, Numeric.is_finger_extended,
    is_thumb_extended, is_finger_extended.
  repeat (rewrite getitem_float_coordinates by lia).
  repeat (rewrite getitem_landmark_at by lia).
  cbn [bind float_coordinates Numeric.lm_x Numeric.lm_y num_sub as_float
       num_abs num_ltb].
  rewrite calculate_distance_float_coordinates.
  reflexivity.
Qed.

(** When [v ** 2] raises: [v] is handed to the C library and comes back as
    a range error. *)
Lemma float_pow_2_raises {libm : Libm} (v : float) :
  raises (float_pow_2 v) = square_out_of_range v.
Proof.
  unfold float_pow_2, square_out_of_range, libm_pow. cbv zeta.
  destruct (is_nan v); [reflexivity|].
  destruct (is_infinity v); [reflexivity|].
  destruct (is_zero v); [reflexivity|].
  destruct (abs v =? 1); [reflexivity|].
  destruct (range_error _); reflexivity.
Qed.

Lemma float_pow_half_raises {libm : Libm} (s : float) :
  raises (float_pow_half s) = root_out_of_range s.
Proof.
  unfold float_pow_half, root_out_of_range, libm_pow. cbv zeta.
  destruct (is_nan s); [reflexivity|].
  destruct (is_infinity s); [reflexivity|].
  destruct (is_zero s); [reflexivity|].
  destruct (s <? 0); [reflexivity|].
  destruct (s =? 1); [reflexivity|].
  destruct (range_error _); reflexivity.
Qed.

(** When the distance raises. *)
Lemma calculate_distance_raises {libm : Libm} (p1 p2 : Landmark) :
  raises (calculate_distance p1 p2) = true <-> power_out_of_range p1 p2.
Proof.
  unfold calculate_distance, power_out_of_range. cbv zeta.
  rewrite <- !float_pow_2_raises.
  destruct (float_pow_2 (lm_x p1 - lm_x p2)) as [dx|e]; cbn [bind raises].
  2: { split; [intros _; left; reflexivity | reflexivity]. }
  destruct (float_pow_2 (lm_y p1 - lm_y p2)) as [dy|e]; cbn [bind raises].
  2: { split; [intros _; right; left; reflexivity | reflexivity]. }
  destruct (float_pow_2 (get_z p1 - get_z p2)) as [dz|e]; cbn [bind raises].
  2: { split; [intros _; right; right; left; reflexivity | reflexivity]. }
  rewrite float_pow_half_raises. split.
  - intro H. right; right; right. exists dx, dy, dz. auto.
  - intros [H|[H|[H|(a & b & c & Ha & Hb & Hc & H)]]]; try discriminate H.
    injection Ha as <-. injection Hb as <-. injection Hc as <-. exact H.
Qed.

(** C10, as stated, fails.  With only the middle finger extended the pinch
    check is reached, and a thumb tip at x = 1e200 makes the square in
    [calculate_distance] a range error, which Python raises as
    OverflowError.  And an int thumb tip of 10 ** 400 next to a float cannot
    even be subtracted from. *)
Lemma recognize_gesture_can_raise :
  recognize_gesture (libm := rounded_libm) far_thumb_hand = Raise OverflowError
  /\ (forall libm : Libm,
        range_error (pow 1e200 2) = true ->
        recognize_gesture far_thumb_hand = Raise OverflowError)
  /\ (forall libm : Libm,
        Numeric.recognize_gesture huge_int_hand = Raise OverflowError)
  /\ ~ (forall landmarks : list Landmark,
          exists label,
            recognize_gesture (libm := rounded_libm) landmarks = Ok label
            /\ In label gesture_labels).
Proof.
  assert (H : recognize_gesture (libm := rounded_libm) far_thumb_hand
              = Raise OverflowError)
    by (vm_compute; reflexivity).
  split; [exact H|]. split; [|split].
  - intros libm Hrange.
    rewrite recognize_gesture_rule_chain by (vm_compute; lia).
    unfold rule_chain.
    replace (first_match (rules (extended_of far_thumb_hand)))
      with (@None string) by (vm_compute; reflexivity).
    unfold pinch_branch, calculate_distance.
    replace (lm_x (landmark_at far_thumb_hand 4)
             - lm_x (landmark_at far_thumb_hand 8)) with 1e200
      by (vm_compute; reflexivity).
    rewrite float_pow_2_libm by (vm_compute; reflexivity).
    replace (abs 1e200) with 1e200 by (vm_compute; reflexivity).
    unfold libm_pow. cbv zeta. rewrite Hrange. reflexivity.
  - intro libm. vm_compute. reflexivity.
  - intro Hall. destruct (Hall far_thumb_hand) as [label [Hok _]].
    rewrite H in Hok. discriminate Hok.
Qed.

(** C10, amended: on any list of landmark dictionaries with int or float x
    and y (z possibly absent, then 0) [recognize_gesture] returns one of the
    ten labels or raises OverflowError, nothing else, and it does not raise
    on fewer than 21 landmarks.  On float coordinates it raises when, and
    only when, there are at least 21 landmarks, none of rules 1 to 7 applies
    and the square of the x, y or z difference of landmarks 4 and 8, or the
    root of the squares' sum, is a range error of the C library's [pow]. *)
Theorem recognize_gesture_label_or_overflow {libm : Libm} :
  (forall landmarks : list Numeric.Landmark,
     match Numeric.recognize_gesture landmarks with
     | Ok label => In label gesture_labels
     | Raise e => e = OverflowError /\ (21 <= List.length landmarks)%nat
     end)
  /\ (forall landmarks : list Landmark,
        Numeric.recognize_gesture (map float_coordinates landmarks)
        = recognize_gesture landmarks)
  /\ forall landmarks : list Landmark,
       raises (recognize_gesture landmarks) = true
       <-> (21 <= List.length landmarks)%nat
           /\ first_match (rules (extended_of landmarks)) = None
           /\ power_out_of_range (landmark_at landmarks 4)
                                 (landmark_at landmarks 8).
Proof.
  split; [|split].
  - intro landmarks.
    destruct (numeric_recognize_gesture_cases landmarks)
      as [(label & Hok & Hin)|[Hraise Hlen]].
    + rewrite Hok. exact Hin.
    + rewrite Hraise. split; [reflexivity|exact Hlen].
  - apply recognize_gesture_float_coordinates.
  - intro landmarks.
    destruct (Nat.lt_ge_cases (List.length landmarks) 21) as [Hshort|Hlen].
    { rewrite (recognize_gesture_short landmarks Hshort). cbn [raises].
      split; [discriminate|]. intros (Hlen & _). lia. }
    rewrite (recognize_gesture_rule_chain landmarks Hlen). unfold rule_chain.
    destruct (first_match (rules (extended_of landmarks))) as [label|].
    { cbn [raises]. split; [discriminate|]. intros (_ & Hnone & _).
      discriminate Hnone. }
    rewrite <- calculate_distance_raises. unfold pinch_branch.
    destruct (calculate_distance_cases (landmark_at landmarks 4)
                (landmark_at landmarks 8)) as [[f Hf]|Hraise].
    + rewrite Hf. cbn [bind num_lt raises]. split; [discriminate|].
      intros (_ & _ & H). discriminate H.
    + rewrite Hraise. cbn [bind raises]. split; auto.
Qed.

(** C4, as stated, fails: with no finger extended rule 1 answers before the
    pinch check is reached.  A hand whose thumb and index tips are 0.01
    apart, and one whose tips coincide, are both answered FIST. *)
Lemma pinch_needs_another_finger :
  (euclidean_distance (landmark_at closed_pinch_hand 4)
                      (landmark_at closed_pinch_hand 8) = 0.01
   /\ (0.01 <? 0.05) = true
   /\ middle (extended_of closed_pinch_hand) = false
   /\ ring (extended_of closed_pinch_hand) = false
   /\ pinky (extended_of closed_pinch_hand) = false
   /\ forall libm : Libm, recognize_gesture closed_pinch_hand = Ok "FIST")
  /\ (middle (extended_of flat_hand) = false
      /\ ring (extended_of flat_hand) = false
      /\ pinky (extended_of flat_hand) = false
      /\ (0 <? 0.05) = true
      /\ forall libm : Libm,
           calculate_distance (landmark_at flat_hand 4)
                              (landmark_at flat_hand 8)
           = Ok (PyFloat 0)
           /\ recognize_gesture flat_hand = Ok "FIST").
Proof.
  split.
  - repeat split; try (vm_compute; reflexivity).
  - repeat split; try (vm_compute; reflexivity).
Qed.

(** C4, amended: the Euclidean distance between a thumb tip at (0,0,0) and
    an index tip at (0.03,0.04,0) is exactly 0.05, and so is the distance
    [calculate_distance] computes where the C library's [pow] gives 0.0009
    for 0.03 squared, 0.0016 for 0.04 squared and 0.05 for the root of
    0.0025; and on 21 landmarks or more, when none of rules 1 to 7 applies
    and the distance computed for landmarks 4 and 8 is below 0.05, the
    classifier returns PINCH. *)
Theorem pinch_distance_and_fallback {libm : Libm} :
  (forall thumb_tip index_tip : Landmark,
     at_point thumb_tip 0 0 0 ->
     at_point index_tip 0.03 0.04 0 ->
     euclidean_distance thumb_tip index_tip = 0.05
     /\ (libm_pow 0.03 2 = Ok 0.0009 ->
         libm_pow 0.04 2 = Ok 0.0016 ->
         libm_pow 0.0025 0.5 = Ok 0.05 ->
         calculate_distance thumb_tip index_tip = Ok (PyFloat 0.05)))
  /\ forall (landmarks : list Landmark) (d : float),
       (21 <= List.length landmarks)%nat ->
       first_match (rules (extended_of landmarks)) = None ->
       calculate_distance (landmark_at landmarks 4) (landmark_at landmarks 8)
         = Ok (PyFloat d) ->
       (d <? 0.05) = true ->
       recognize_gesture landmarks = Ok "PINCH".
Proof.
  split.
  { intros [i4 x4 y4 z4 v4] [i8 x8 y8 z8 v8].
    unfold at_point. cbn [lm_x lm_y lm_z].
    intros (-> & -> & ->) (-> & -> & ->). split.
    - vm_compute. reflexivity.
    - intros Hx Hy Hroot.
      unfold calculate_distance, get_z. cbn [lm_x lm_y lm_z].
      replace (0 - 0.03) with (-0.03) by (vm_compute; reflexivity).
      replace (0 - 0.04) with (-0.04) by (vm_compute; reflexivity).
      replace (0 - 0) with 0 by (vm_compute; reflexivity).
      rewrite (float_pow_2_libm (-0.03)) by (vm_compute; reflexivity).
      rewrite (float_pow_2_libm (-0.04)) by (vm_compute; reflexivity).
      replace (abs (-0.03)) with 0.03 by (vm_compute; reflexivity).
      replace (abs (-0.04)) with 0.04 by (vm_compute; reflexivity).
      rewrite Hx, Hy. cbn [bind].
      replace (float_pow_2 0) with (Ok 0) by reflexivity. cbn [bind].
      replace (0.0009 + 0.0016 + 0) with 0.0025 by (vm_compute; reflexivity).
      rewrite float_pow_half_libm by (vm_compute; reflexivity).
      rewrite Hroot. reflexivity. }
  intros landmarks d Hlen Hrules Hd Hlt.
  rewrite (recognize_gesture_rule_chain landmarks Hlen).
  unfold rule_chain, pinch_branch.
  rewrite Hrules, Hd. cbn [bind num_lt]. rewrite Hlt. reflexivity.
Qed.

Lemma pinch_distance_and_fallback_witness :
  calculate_distance (libm := rounded_libm)
                     (landmark_at three_four_five_hand 4)
                     (landmark_at three_four_five_hand 8) = Ok (PyFloat 0.05)
  /\ recognize_gesture (libm := rounded_libm) middle_pinch_hand = Ok "PINCH".
Proof.
  split.
  - refine (proj2 (proj1 (pinch_distance_and_fallback (libm := rounded_libm))
                     _ _ _ _) _ _ _);
      vm_compute; repeat split.
  - apply (proj2 (pinch_distance_and_fallback (libm := rounded_libm))
             middle_pinch_hand 0).
    + vm_compute. lia.
    + vm_compute. reflexivity.
    + vm_compute. reflexivity.
    + vm_compute. reflexivity.
Defined.

(** ** Detector facades *)

Lemma enumerate_from_length {A : Type} (l : list A) (i : nat) :
  List.length (enumerate_from i l) = List.length l.
Proof.
  revert i. induction l as [|a l IH]; intro i; cbn; [reflexivity|].
  rewrite IH. reflexivity.
Qed.

Lemma dicts_length {A : Type} (f : nat * A -> Landmark) (l : list A) :
  List.length (map f (enumerate l)) = List.length l.
Proof. unfold enumerate. rewrite length_map. apply enumerate_from_length. Qed.

Lemma getitem_out_of_range {A : Type} (l : list A) (i : nat) :
  (List.length l <= i)%nat -> getitem l i = Raise IndexError.
Proof.
  intro H. unfold getitem.
  replace (nth_error l i) with (@None A)
    by (symmetry; apply nth_error_None; exact H).
  reflexivity.
Qed.

Lemma item_y_out_of_range (l : list Landmark) (i : nat) :
  (List.length l <= i)%nat -> item_y l i = Raise IndexError.
Proof.
  intro H. unfold item_y. rewrite (getitem_out_of_range l i H). reflexivity.
Qed.

Lemma for_each_raises {A B : Type} (f : A -> res B) (l : list A) :
  Exists (fun a => raises (f a) = true) l -> raises (for_each f l) = true.
Proof.
  induction 1 as [a l Ha | a l _ IH]; cbn [for_each].
  - destruct (f a); [discriminate Ha | reflexivity].
  - destruct (f a); cbn [bind]; [|reflexivity].
    destruct (for_each f l); [discriminate IH | reflexivity].
Qed.

Lemma Exists_enumerate_from {A : Type} (P : A -> Prop) (l : list A) (i : nat) :
  Exists P l -> Exists (fun e => P (snd e)) (enumerate_from i l).
Proof.
  intro H. revert i.
  induction H as [a l Ha | a l _ IH]; intro i; cbn [enumerate_from].
  - left. exact Ha.
  - right. apply IH.
Qed.

(** A hand without an index tip makes its entry raise. *)
Lemma hand_entry_short {libm : Libm} (results : HandsOutput)
  (e : nat * list RawLandmark) :
  (List.length (snd e) < 9)%nat -> raises (hand_entry results e) = true.
Proof.
  destruct e as [hand_idx hand]. cbn [snd]. intro Hlen. unfold hand_entry.
  assert (Hn := dicts_length xyz_dict hand).
  set (landmarks := map xyz_dict (enumerate hand)) in *.
  rewrite (recognize_gesture_short landmarks) by lia. cbn [bind].
  destruct (out_multi_handedness results); cbn [bind]; [|reflexivity].
  match goal with
  | |- raises (bind ?m _) = true => destruct m; cbn [bind]; [|reflexivity]
  end.
  destruct (getitem landmarks 0); cbn [bind]; [|reflexivity].
  rewrite (getitem_out_of_range landmarks 8) by lia. reflexivity.
Qed.

Section FacadeFailures.

Context {libm : Libm}.

Variable Image : Type.
Variable cvtColor : Image -> res Image.
Variable image : Image.

Lemma analyze_emotion_unavailable :
  analyze_emotion Image cvtColor None image = unknown_emotion.
Proof. reflexivity. Qed.

Lemma analyze_emotion_failed detector e :
  capability cvtColor detector image = Failed e ->
  analyze_emotion Image cvtColor detector image = neutral_emotion.
Proof.
  unfold capability, analyze_emotion.
  destruct detector as [call|]; [|discriminate].
  destruct (cvtColor image) as [rgb|]; cbn [bind]; [|reflexivity].
  destruct (call rgb); [discriminate|reflexivity].
Qed.

Lemma analyze_emotion_malformed detector result :
  capability cvtColor detector image = Returned result ->
  malformed_emotions result \/ result = [] ->
  analyze_emotion Image cvtColor detector image = neutral_emotion.
Proof.
  unfold capability, analyze_emotion.
  destruct detector as [call|]; [|discriminate].
  destruct (cvtColor image) as [rgb|]; cbn [bind]; [|discriminate].
  destruct (call rgb) as [r|]; [|discriminate].
  intros Hr. injection Hr as Hr. subst r.
  intros [(face & rest & -> & Hface)| ->]; [|reflexivity].
  cbn. destruct Hface as [-> | ->]; reflexivity.
Qed.

Lemma analyze_pose_failed detector :
  (capability cvtColor detector image = Unavailable
   \/ exists e, capability cvtColor detector image = Failed e) ->
  analyze_pose Image cvtColor detector image = empty_pose.
Proof.
  unfold capability, analyze_pose.
  destruct detector as [call|]; [|reflexivity].
  destruct (cvtColor image) as [rgb|]; cbn [bind]; [|reflexivity].
  destruct (call rgb); [|reflexivity].
  intros [H|[e H]]; discriminate H.
Qed.

Lemma analyze_pose_malformed detector results :
  capability cvtColor detector image = Returned results ->
  malformed_pose results ->
  analyze_pose Image cvtColor detector image = empty_pose.
Proof.
  unfold capability, analyze_pose.
  destruct detector as [call|]; [|discriminate].
  destruct (cvtColor image) as [rgb|]; cbn [bind]; [|discriminate].
  destruct (call rgb) as [r|]; [|discriminate].
  intros Hr. injection Hr as Hr. subst r. cbn [bind].
  intros (e & Hraise). rewrite Hraise. reflexivity.
Qed.

(** Landmarks short of the shoulders: a lookup raises and the whole pose is
    given up. *)
Lemma analyze_pose_short detector results :
  capability cvtColor detector image = Returned results ->
  short_pose results ->
  analyze_pose Image cvtColor detector image = empty_pose.
Proof.
  unfold capability, analyze_pose.
  destruct detector as [call|]; [|discriminate].
  destruct (cvtColor image) as [rgb|]; cbn [bind]; [|discriminate].
  destruct (call rgb) as [r|]; [|discriminate].
  intros Hr. injection Hr as Hr. subst r. cbn [bind].
  intros (landmark & Hsome & Hlen). rewrite Hsome. cbn [bind].
  assert (Hn := dicts_length pose_dict landmark).
  set (landmarks := map pose_dict (enumerate landmark)) in *.
  cbv zeta. rewrite Hn.
  replace (15 <? List.length landmark)%nat with false
    by (symmetry; apply Nat.ltb_ge; lia).
  replace (16 <? List.length landmark)%nat with false
    by (symmetry; apply Nat.ltb_ge; lia).
  destruct (getitem landmarks 0); cbn [bind when_]; [|reflexivity].
  destruct (getitem landmarks 11) eqn:H11; cbn [bind]; [|reflexivity].
  rewrite (getitem_out_of_range landmarks 12); [reflexivity|].
  rewrite Hn. lia.
Qed.

Lemma analyze_face_mesh_failed detector :
  (capability cvtColor detector image = Unavailable
   \/ exists e, capability cvtColor detector image = Failed e) ->
  analyze_face_mesh Image cvtColor detector image = empty_face_mesh.
Proof.
  unfold capability, analyze_face_mesh.
  destruct detector as [call|]; [|reflexivity].
  destruct (cvtColor image) as [rgb|]; cbn [bind]; [|reflexivity].
  destruct (call rgb); [|reflexivity].
  intros [H|[e H]]; discriminate H.
Qed.

Lemma analyze_face_mesh_malformed detector results :
  capability cvtColor detector image = Returned results ->
  malformed_face_mesh results ->
  analyze_face_mesh Image cvtColor detector image = empty_face_mesh.
Proof.
  unfold capability, analyze_face_mesh.
  destruct detector as [call|]; [|discriminate].
  destruct (cvtColor image) as [rgb|]; cbn [bind]; [|discriminate].
  destruct (call rgb) as [r|]; [|discriminate].
  intros Hr. injection Hr as Hr. subst r. cbn [bind].
  intros [(e & Hraise)|(face_landmarks & rest & Hsome & Hlen)];
    [rewrite Hraise; reflexivity|].
  rewrite Hsome. cbn [bind].
  assert (Hn := dicts_length xyz_dict face_landmarks).
  set (landmarks := map xyz_dict (enumerate face_landmarks)) in *.
  cbv zeta.
  destruct (item_y landmarks 13); cbn [bind]; [|reflexivity].
  destruct (item_y landmarks 14); cbn [bind]; [|reflexivity].
  destruct (item_y landmarks 159); cbn [bind]; [|reflexivity].
  destruct (item_y landmarks 145); cbn [bind]; [|reflexivity].
  rewrite (item_y_out_of_range landmarks 386) by lia. reflexivity.
Qed.

Lemma analyze_hands_failed detector :
  (capability cvtColor detector image = Unavailable
   \/ exists e, capability cvtColor detector image = Failed e) ->
  analyze_hands Image cvtColor detector image = empty_hands.
Proof.
  unfold capability, analyze_hands.
  destruct detector as [call|]; [|reflexivity].
  destruct (cvtColor image) as [rgb|]; cbn [bind]; [|reflexivity].
  destruct (call rgb); [|reflexivity].
  intros [H|[e H]]; discriminate H.
Qed.

Lemma analyze_hands_malformed detector results :
  capability cvtColor detector image = Returned results ->
  malformed_hands results ->
  analyze_hands Image cvtColor detector image = empty_hands.
Proof.
  unfold capability, analyze_hands.
  destruct detector as [call|]; [|discriminate].
  destruct (cvtColor image) as [rgb|]; cbn [bind]; [|discriminate].
  destruct (call rgb) as [r|]; [|discriminate].
  intros Hr. injection Hr as Hr. subst r. cbn [bind].
  intros [(e & Hraise)|(multi & Hsome & Hshort)];
    [rewrite Hraise; reflexivity|].
  rewrite Hsome. cbn [bind].
  assert (Hraise : raises (for_each (hand_entry results) (enumerate multi))
                   = true).
  { apply for_each_raises. unfold enumerate.
    apply (Exists_enumerate_from (fun hand => (List.length hand < 9)%nat))
      with (i := 0%nat) in Hshort.
    eapply Exists_impl; [|exact Hshort].
    intros e He. apply hand_entry_short. exact He. }
  destruct (for_each (hand_entry results) (enumerate multi));
    [discriminate Hraise | reflexivity].
Qed.

End FacadeFailures.

(** With the shoulders in range the pose result carries the keypoints, the
    hands and hips each under its own length guard. *)
Lemma analyze_pose_keypoints (Image : Type) (cvtColor : Image -> res Image)
  (detector : option (Image -> res PoseOutput)) (image : Image)
  (landmark : list RawLandmark) :
  capability cvtColor detector image
    = Returned (mkPoseOutput (Ok (Some landmark))) ->
  (13 <= List.length landmark)%nat ->
  let landmarks := map pose_dict (enumerate landmark) in
  let n := List.length landmark in
  let guarded (i : nat) :=
    if (i <? n)%nat then Some (point_of (landmark_at landmarks i)) else None in
  analyze_pose Image cvtColor detector image
  = mkPose true landmarks
      (Some (mkPoseKeypoints
               (point_of (landmark_at landmarks 0))
               (guarded 15%nat) (guarded 16%nat)
               (point_of (landmark_at landmarks 11))
               (point_of (landmark_at landmarks 12))
               (guarded 23%nat) (guarded 24%nat))).
Proof.
  unfold capability, analyze_pose.
  destruct detector as [call|]; [|discriminate].
  destruct (cvtColor image) as [rgb|]; cbn [bind]; [|discriminate].
  destruct (call rgb) as [r|]; [|discriminate].
  intros Hr Hlen. injection Hr as Hr. subst r. cbn [bind out_pose_landmarks].
  assert (Hn := dicts_length pose_dict landmark).
  set (landmarks := map pose_dict (enumerate landmark)) in *.
  cbv beta zeta. rewrite Hn. unfold when_.
  destruct (15 <? List.length landmark)%nat eqn:H15;
    [apply Nat.ltb_lt in H15|];
    (destruct (16 <? List.length landmark)%nat eqn:H16;
     [apply Nat.ltb_lt in H16|]);
    (destruct (23 <? List.length landmark)%nat eqn:H23;
     [apply Nat.ltb_lt in H23|]);
    (destruct (24 <? List.length landmark)%nat eqn:H24;
     [apply Nat.ltb_lt in H24|]);
    repeat (rewrite getitem_landmark_at by lia);
    reflexivity.
Qed.

(** Sixteen landmarks: the left hand (index 15) is there, the right hand
    (index 16) and the hips are not. *)
Example sixteen_landmarks_keypoints :
  option_map (fun k => (is_some (left_hand k), is_some (right_hand k),
                        is_some (left_hip k), is_some (right_hip k)))
    (pose_keypoints (analyze_pose unit same_image (Some sixteen_landmark_pose) tt))
  = Some (true, false, false, false).
Proof. reflexivity. Qed.

(** C3, as stated, fails: with the emotion detector unavailable the facade
    answers "unknown", not the neutral result. *)
Lemma unavailable_emotion_is_unknown :
  capability same_image (@None (unit -> res (list FerFace))) tt = Unavailable
  /\ analyze_emotion unit same_image None tt
     = mkEmotion "unknown" 0 (Some [])
  /\ analyze_emotion unit same_image None tt <> neutral_emotion.
Proof.
  split; [reflexivity|]. split; [reflexivity|].
  cbn. unfold unknown_emotion, neutral_emotion. intro H. inversion H.
Qed.

(** C3, amended: on every frame, an unavailable emotion detector yields
    {"emotion": "unknown", "confidence": 0.0, "all_emotions": {}}; an emotion
    call that raises or returns a malformed result yields the neutral result
    {"emotion": "neutral", "confidence": 0.0, "all_emotions": {}}; and the
    pose, face-mesh and hand facades return their detected:false empty result
    whenever their capability is unavailable, raises or returns a malformed
    result (one that cannot be read; for faces and hands also one with too
    few landmarks for the indices read).  No facade raises. *)
Theorem facade_failure_results {libm : Libm} (Image : Type)
  (cvtColor : Image -> res Image) (image : Image) :
  (forall detector,
     capability cvtColor detector image = Unavailable ->
     analyze_emotion Image cvtColor detector image = unknown_emotion)
  /\ (forall detector,
        (exists e, capability cvtColor detector image = Failed e)
        \/ (exists result, capability cvtColor detector image = Returned result
                           /\ malformed_emotions result) ->
        analyze_emotion Image cvtColor detector image = neutral_emotion)
  /\ (forall detector,
        capability_failure cvtColor detector image malformed_pose ->
        analyze_pose Image cvtColor detector image = empty_pose)
  /\ (forall detector,
        capability_failure cvtColor detector image malformed_face_mesh ->
        analyze_face_mesh Image cvtColor detector image = empty_face_mesh)
  /\ (forall detector,
        capability_failure cvtColor detector image malformed_hands ->
        analyze_hands Image cvtColor detector image = empty_hands).
Proof.
  repeat split.
  - intros [call|] H; [|reflexivity].
    unfold capability in H.
    destruct (rgb_image <- cvtColor image ;; call rgb_image); discriminate H.
  - intros detector [[e H]|[result [H Hbad]]].
    + eapply analyze_emotion_failed; eassumption.
    + eapply analyze_emotion_malformed; eauto.
  - intros detector [H|[H|[r [H Hbad]]]].
    + apply analyze_pose_failed; auto.
    + apply analyze_pose_failed; auto.
    + eapply analyze_pose_malformed; eassumption.
  - intros detector [H|[H|[r [H Hbad]]]].
    + apply analyze_face_mesh_failed; auto.
    + apply analyze_face_mesh_failed; auto.
    + eapply analyze_face_mesh_malformed; eassumption.
  - intros detector [H|[H|[r [H Hbad]]]].
    + apply analyze_hands_failed; auto.
    + apply analyze_hands_failed; auto.
    + eapply analyze_hands_malformed; eassumption.
Qed.

Lemma facade_failure_results_witness :
  analyze_emotion unit same_image (Some failing_detector) tt = neutral_emotion.
Proof.
  apply (proj1 (proj2 (facade_failure_results (libm := rounded_libm) unit
                                 same_image tt))
           (Some failing_detector)).
  left. exists DetectorError. reflexivity.
Defined.

(** C8: the code at a pose of 10 landmarks.  The lookup of landmark 11 raises
    inside the [try], so the facade returns the empty not-detected result:
    no keypoint at all, the nose included although index 0 is there, and the
    landmarks themselves are dropped. *)
Theorem ten_landmarks_lose_every_keypoint :
  capability same_image (Some ten_landmark_pose) tt
    = Returned (mkPoseOutput (Ok (Some (repeat raw_origin 10))))
  /\ analyze_pose unit same_image (Some ten_landmark_pose) tt = empty_pose
  /\ pose_keypoints (analyze_pose unit same_image (Some ten_landmark_pose) tt)
     = None
  /\ pose_landmarks (analyze_pose unit same_image (Some ten_landmark_pose) tt)
     = [].
Proof. repeat split. Qed.

(** ** Broadcast *)

(** The loop never raises: it hands the message to every connection in
    order, the healthy ones receive it, and a failing one is stepped over. *)
Lemma broadcast_to_run (connections : list WebSocket) (message : Message)
  (m : ConnectionManager) (tried log : list (WebSocket * Message))
  (naps : list float) (err : WebSocket -> option exn) :
  broadcast_to connections message (mkWorld m tried log naps err)
  = (Ok tt,
     mkWorld m (tried ++ attempts connections message)%list
             (log ++ deliveries (mkWorld m tried log naps err)
                                connections message)%list
             naps err).
Proof.
  revert tried log.
  induction connections as [|c rest IH]; intros tried log.
  - cbn. rewrite !app_nil_r. reflexivity.
  - cbn [broadcast_to]. unfold io_bind, io_try, send_json, deliveries, healthy.
    cbn [send_error manager attempted sent slept filter attempts map].
    destruct (err c) as [e|] eqn:Herr; cbn [is_some negb ret].
    + rewrite IH. unfold deliveries, healthy, attempts. cbn [send_error].
      rewrite <- app_assoc. reflexivity.
    + rewrite IH. unfold deliveries, healthy, attempts. cbn [send_error map].
      rewrite <- !app_assoc. reflexivity.
Qed.

Lemma broadcast_run (message : Message) (w : World) :
  broadcast message w
  = (Ok tt,
     mkWorld (manager w)
             (attempted w
              ++ attempts (active_connections (manager w)) message)%list
             (sent w ++ deliveries w (active_connections (manager w)) message)%list
             (slept w) (send_error w)).
Proof.
  destruct w as [m tried log naps err]. unfold broadcast.
  cbn [manager attempted sent slept send_error]. apply broadcast_to_run.
Qed.

Lemma delivered_to_healthy (w : World) (connections : list WebSocket)
  (message : Message) (c : WebSocket) :
  In c connections -> send_error w c = None ->
  In (c, message) (deliveries w connections message).
Proof.
  intros Hin Hok. unfold deliveries.
  apply (in_map (fun c => (c, message))).
  apply filter_In. split; [exact Hin|].
  unfold healthy. rewrite Hok. reflexivity.
Qed.

(** C5: [broadcast] never raises; it attempts the send on every registered
    session, in order, and the message reaches every registered session
    whose send does not fail, whatever happens on the others; with s1, s2,
    s3 registered and s2 failing, s1 and s3 are both sent the message. *)
Theorem broadcast_best_effort (message : Message) (w : World) :
  fst (broadcast message w) = Ok tt
  /\ attempted (snd (broadcast message w))
     = (attempted w
        ++ attempts (active_connections (manager w)) message)%list
  /\ sent (snd (broadcast message w))
     = (sent w ++ deliveries w (active_connections (manager w)) message)%list
  /\ (forall c, In c (active_connections (manager w)) ->
                send_error w c = None ->
                In (c, message) (sent (snd (broadcast message w))))
  /\ (forall s1 s2 s3 e,
        active_connections (manager w) = [s1; s2; s3] ->
        send_error w s1 = None ->
        send_error w s2 = Some e ->
        send_error w s3 = None ->
        attempted (snd (broadcast message w))
        = (attempted w ++ [(s1, message); (s2, message); (s3, message)])%list
        /\ sent (snd (broadcast message w))
           = (sent w ++ [(s1, message); (s3, message)])%list).
Proof.
  rewrite (broadcast_run message w). cbn [fst snd attempted sent].
  split; [reflexivity|]. split; [reflexivity|]. split; [reflexivity|]. split.
  - intros c Hin Hok. apply in_or_app. right.
    apply delivered_to_healthy; assumption.
  - intros s1 s2 s3 e Hconn H1 H2 H3. rewrite Hconn.
    unfold deliveries, healthy, attempts. cbn [filter map].
    rewrite H1, H2, H3. split; reflexivity.
Qed.

Lemma broadcast_best_effort_witness :
  attempted (snd (broadcast MsgPong three_sessions))
  = (attempted three_sessions
     ++ [(1%nat, MsgPong); (2%nat, MsgPong); (3%nat, MsgPong)])%list
  /\ sent (snd (broadcast MsgPong three_sessions))
     = (sent three_sessions ++ [(1%nat, MsgPong); (3%nat, MsgPong)])%list.
Proof.
  apply (proj2 (proj2 (proj2 (proj2
           (broadcast_best_effort MsgPong three_sessions))))
           1%nat 2%nat 3%nat WebSocketDisconnect); reflexivity.
Defined.

(** ** The session loop *)

Section Handler.

Variable Image : Type.
Variable cvtColor : Image -> res Image.
Variable emotion_detector : option (Image -> res (list FerFace)).
Variable pose_detector : option (Image -> res PoseOutput).
Variable face_mesh_detector : option (Image -> res FaceMeshOutput).
Variable hand_detector : option (Image -> res HandsOutput).
Variable image_of_base64 : string -> res Image.
Context {libm : Libm}.

(** C9, amended: a JSON object whose type is absent, or is neither "frame"
    nor "ping", falls through both branches: nothing is sent, no error
    response either, nothing changes, and the connection stays open, the
    handler going on to the subsequent messages as if this one had not
    come. *)
Theorem receive_loop_other_kind (websocket : WebSocket)
  (fields : list (string * json)) (inbox : list (res json)) (w : World) :
  json_is_str "frame" (dict_get fields "type" JNull) = false ->
  json_is_str "ping" (dict_get fields "type" JNull) = false ->
  receive_loop Image cvtColor emotion_detector pose_detector
    face_mesh_detector hand_detector image_of_base64
    websocket (Ok (JObj fields) :: inbox) w
  = receive_loop Image cvtColor emotion_detector pose_detector
    face_mesh_detector hand_detector image_of_base64
      websocket inbox w.
Proof.
  intros Hframe Hping. cbn [receive_loop].
  unfold io_bind, lift. cbn [json_get].
  rewrite Hframe, Hping. reflexivity.
Qed.

(** A message that is not a dict has no [get]: the loop raises. *)
Lemma receive_loop_not_a_dict (websocket : WebSocket) (data : json)
  (inbox : list (res json)) (w : World) :
  (forall fields, data <> JObj fields) ->
  receive_loop Image cvtColor emotion_detector pose_detector
    face_mesh_detector hand_detector image_of_base64
    websocket (Ok data :: inbox) w
  = (Raise AttributeError, w).
Proof.
  intro Hnot. cbn [receive_loop]. unfold io_bind, lift.
  destruct data; try reflexivity.
  exfalso. eapply Hnot. reflexivity.
Qed.

(** C2, amended: the cached last_emotion and last_pose hold the result of
    the most recent frame analysis that requested the modality, be it a
    detection or a failure placeholder: after a frame whose payload decodes,
    last_emotion is what [analyze_emotion] returned if the frame asked for
    emotion and is unchanged otherwise, and likewise last_pose; a frame that
    does not decode leaves the manager as it was. *)
Theorem handle_frame_manager (websocket : WebSocket)
  (fields : list (string * json)) (w : World) :
  let w' :=
    snd (handle_frame Image cvtColor emotion_detector pose_detector
           face_mesh_detector hand_detector image_of_base64
           websocket (JObj fields) w) in
  match decode_base64_image Image image_of_base64
          (dict_get fields "data" (JStr EmptyString)) with
  | Raise _ => manager w' = manager w
  | Ok image =>
      active_connections (manager w') = active_connections (manager w)
      /\ last_beat (manager w') = last_beat (manager w)
      /\ last_emotion (manager w')
         = (if truthy (dict_get fields "analyze_emotion" (JBool false))
            then analyze_emotion Image cvtColor emotion_detector image
            else last_emotion (manager w))
      /\ last_pose (manager w')
         = (if truthy (dict_get fields "analyze_pose" (JBool false))
            then Some (analyze_pose Image cvtColor pose_detector image)
            else last_pose (manager w))
  end.
Proof.
  unfold handle_frame. cbv zeta.
  unfold io_bind, lift. cbn [json_get].
  destruct (decode_base64_image Image image_of_base64
              (dict_get fields "data" (JStr EmptyString))) as [image|e];
    [|reflexivity].
  destruct w as [m tried log naps err].
  destruct (truthy (dict_get fields "analyze_emotion" (JBool false)));
    destruct (truthy (dict_get fields "analyze_pose" (JBool false)));
    unfold set_last_emotion, set_last_pose, modify_manager, with_manager, ret,
      send_json;
    cbn [manager attempted sent slept send_error];
    destruct (err websocket); cbn; repeat split; reflexivity.
Qed.

End Handler.

(** The whole endpoint on an unhandled kind followed by a ping: the greeting
    and the pong are all that is sent, the socket stays registered and the
    handler awaits the next message. *)
Example endpoint_ignores_audio_chunk :
  let w := snd (moody_endpoint 1%nat [Ok audio_chunk; Ok ping] quiet_world) in
  fst (moody_endpoint 1%nat [Ok audio_chunk; Ok ping] quiet_world) = Ok Awaiting
  /\ sent w = [(1%nat, MsgConnected true false false); (1%nat, MsgPong)]
  /\ active_connections (manager w) = [1%nat].
Proof. repeat split. Qed.

(** A message that is not a JSON object ends the handler and unregisters
    the socket. *)
Example endpoint_closes_on_non_object :
  let w := snd (moody_endpoint 1%nat [Ok (JArr []); Ok ping] quiet_world) in
  fst (moody_endpoint 1%nat [Ok (JArr []); Ok ping] quiet_world) = Ok Closed
  /\ sent w = [(1%nat, MsgConnected true false false)]
  /\ active_connections (manager w) = [].
Proof. repeat split. Qed.

Lemma receive_loop_other_kind_witness :
  moody_loop 1%nat [Ok audio_chunk; Ok ping] quiet_world
  = moody_loop 1%nat [Ok ping] quiet_world.
Proof.
  apply (receive_loop_other_kind (libm := rounded_libm) string
           (fun i => Ok i) (Some moody_detector)
           None None None (fun payload => Ok payload) 1%nat
           [("type", JStr "audio_chunk"); ("data", JStr "AAAA")]
           [Ok ping] quiet_world); reflexivity.
Defined.

(** C9, as stated, fails: an "audio_chunk" message gets no response at all;
    the handler is left awaiting the next message with nothing sent. *)
Lemma unknown_kind_gets_no_reply :
  moody_loop 1%nat [Ok audio_chunk] quiet_world = (Ok Awaiting, quiet_world)
  /\ attempted (snd (moody_loop 1%nat [Ok audio_chunk] quiet_world)) = []
  /\ sent (snd (moody_loop 1%nat [Ok audio_chunk] quiet_world)) = []
  /\ (forall e, ~ In (1%nat, MsgError e)
                   (sent (snd (moody_loop 1%nat [Ok audio_chunk] quiet_world)))).
Proof.
  split; [reflexivity|]. split; [reflexivity|]. split; [reflexivity|].
  intros e H. exact H.
Qed.

(** C2, as stated, fails: a frame on which the emotion detector raises
    replaces the cached detection by the neutral placeholder, and an
    unavailable pose detector stores the empty pose. *)
Lemma failure_overwrites_cache :
  last_emotion
    (manager (snd (moody_loop 1%nat [Ok (emotion_frame "smile")] quiet_world)))
  = happy
  /\ capability (fun i => Ok i) (Some moody_detector) "blank"
     = Failed DetectorError
  /\ last_emotion
       (manager (snd (moody_loop 1%nat [Ok (emotion_frame "smile");
                                        Ok (emotion_frame "blank")]
                                 quiet_world)))
     = neutral_emotion
  /\ neutral_emotion <> happy
  /\ last_pose
       (manager (snd (moody_loop 1%nat [Ok (pose_frame "smile")] quiet_world)))
     = Some empty_pose.
Proof.
  split; [vm_compute; reflexivity|]. split; [vm_compute; reflexivity|].
  split; [vm_compute; reflexivity|].
  split; [|vm_compute; reflexivity].
  unfold neutral_emotion, happy. intro H. inversion H.
Qed.

(** ** Beat streaming *)

Lemma beat_setup_present (fields : list (string * json)) (tempo : json) :
  assoc "tempo" fields = Some tempo ->
  beat_setup (JObj fields)
  = (beat_interval <- float_60_div tempo ;; Ok (tempo, beat_interval)).
Proof.
  intro H. unfold beat_setup. cbn [json_get bind]. unfold dict_get.
  rewrite H. reflexivity.
Qed.

(** A first message whose setup raises ends the session before any pulse. *)
Lemma beats_websocket_setup_raises (websocket : WebSocket) (data : json)
  (e : exn) (pulses : nat) (w : World) :
  beat_setup data = Raise e ->
  beats_websocket websocket (Ok tt) (Ok data) pulses w = (Ok Closed, w).
Proof.
  intro H. unfold beats_websocket, io_try, io_bind, lift. rewrite H.
  reflexivity.
Qed.

(** C7, as stated, fails: an invalid tempo is not replaced by 120, the
    division raises and the session ends with no pulse; and a negative tempo
    is used as it is. *)
Lemma invalid_tempo_is_not_defaulted :
  beat_setup (tempo_message (JStr "fast")) = Raise TypeError
  /\ beat_setup (tempo_message (JInt 0)) = Raise ZeroDivisionError
  /\ beats_websocket 1%nat (Ok tt) (Ok (tempo_message (JStr "fast"))) 3
       quiet_world
     = (Ok Closed, quiet_world)
  /\ beat_setup (tempo_message (JInt (-60))) = Ok (JInt (-60), (-1)%float).
Proof. repeat split; vm_compute; reflexivity. Qed.

(** C7, amended: the tempo defaults to 120 BPM only when the first message
    has no "tempo" entry; an entry that is present is used as it is, with no
    check that it is a positive number, and the inter-pulse interval is
    60 / tempo seconds, so tempo 120 gives 0.5 and tempo 60 gives 1.0; a
    tempo that is not a number, or is zero, makes the division raise and the
    session ends before any pulse. *)
Theorem beat_setup_tempo :
  (forall fields,
     assoc "tempo" fields = None ->
     beat_setup (JObj fields) = Ok (JInt 120, 0.5))
  /\ (forall fields tempo,
        assoc "tempo" fields = Some tempo ->
        beat_setup (JObj fields)
        = (beat_interval <- float_60_div tempo ;; Ok (tempo, beat_interval)))
  /\ (forall f, is_zero f = false -> float_60_div (JFloat f) = Ok (60 / f))
  /\ float_60_div (JInt 120) = Ok 0.5
  /\ float_60_div (JInt 60) = Ok 1
  /\ float_60_div (JFloat 120) = Ok 0.5
  /\ float_60_div (JFloat 60) = Ok 1
  /\ (forall tempo,
        match tempo with
        | JNull | JStr _ | JArr _ | JObj _ => float_60_div tempo = Raise TypeError
        | JInt 0 | JBool false => float_60_div tempo = Raise ZeroDivisionError
        | JFloat f => is_zero f = true ->
                      float_60_div tempo = Raise ZeroDivisionError
        | _ => True
        end)
  /\ (forall websocket data e pulses w,
        beat_setup data = Raise e ->
        beats_websocket websocket (Ok tt) (Ok data) pulses w = (Ok Closed, w)).
Proof.
  split.
  { intros fields H. unfold beat_setup. cbn [json_get bind]. unfold dict_get.
    rewrite H. vm_compute. reflexivity. }
  split; [exact beat_setup_present|].
  split.
  { intros f Hf. unfold float_60_div. rewrite Hf. reflexivity. }
  do 4 (split; [vm_compute; reflexivity|]).
  split.
  { intros [ |[|]|[|p|p]|f|s|l|d]; try exact I; try reflexivity.
    intro Hf. unfold float_60_div. rewrite Hf. reflexivity. }
  exact beats_websocket_setup_raises.
Qed.

Lemma beat_setup_tempo_witness :
  beat_setup (JObj [("bpm", JInt 90)]) = Ok (JInt 120, 0.5).
Proof.
  apply (proj1 beat_setup_tempo [("bpm", JInt 90)]). reflexivity.
Defined.

(** * Further properties *)

(** ** Gesture classifier *)

(** X1: no landmark list is answered ROCK: thumb-and-pinky-only is caught by
    the pinky-only test that precedes it, which does not look at the thumb;
    every answer is one of the nine other labels, or the overflow error of
    the pinch check. *)
Theorem recognize_gesture_never_rock {libm : Libm} (landmarks : list Landmark) :
  match recognize_gesture landmarks with
  | Ok label => In label reachable_labels
  | Raise e => e = OverflowError
  end.
Proof.
  destruct (Nat.lt_ge_cases (List.length landmarks) 21) as [Hshort|Hlen].
  - rewrite (recognize_gesture_short landmarks Hshort). cbn. tauto.
  - rewrite (recognize_gesture_unfold landmarks Hlen). cbv zeta.
    destruct (extended_of landmarks) as [t i m r p].
    cbn [thumb index middle ring pinky any all existsb forallb].
    destruct t, i, m, r, p; cbn [negb andb orb]; try (cbn; tauto);
      destruct (pinch_branch_cases landmarks) as [H|[H|[H _]]];
      rewrite H; cbn; tauto.
Qed.

(** X2: with none of index, middle, ring and pinky extended the answer turns
    on the thumb alone: THUMBS_UP when |x[4] - x[2]| > 0.05, FIST otherwise
    (also at exactly 0.05, and when the difference is a NaN). *)
Theorem fist_or_thumbs_up {libm : Libm} (landmarks : list Landmark) :
  (21 <= List.length landmarks)%nat ->
  index (extended_of landmarks) = false ->
  middle (extended_of landmarks) = false ->
  ring (extended_of landmarks) = false ->
  pinky (extended_of landmarks) = false ->
  recognize_gesture landmarks
  = Ok (if 0.05 <? abs (lm_x (landmark_at landmarks 4)
                        - lm_x (landmark_at landmarks 2))
        then "THUMBS_UP" else "FIST").
Proof.
  intros Hlen Hi Hm Hr Hp.
  rewrite (recognize_gesture_unfold landmarks Hlen). cbv zeta.
  rewrite Hi, Hm, Hr, Hp. cbn [any existsb negb orb].
  unfold extended_of. cbn [thumb].
  destruct (0.05 <? _); reflexivity.
Qed.

Lemma fist_or_thumbs_up_witness :
  recognize_gesture (libm := rounded_libm) flat_hand
  = Ok (if 0.05 <? abs (lm_x (landmark_at flat_hand 4)
                        - lm_x (landmark_at flat_hand 2))
        then "THUMBS_UP" else "FIST").
Proof.
  apply (fist_or_thumbs_up (libm := rounded_libm) flat_hand);
    [vm_compute; lia | reflexivity ..].
Defined.

Lemma calculate_distance_reading {libm : Libm} (a a' b b' : Landmark) :
  same_reading a a' -> same_reading b b' ->
  calculate_distance a b = calculate_distance a' b'.
Proof.
  intros (Hx & Hy & Hz) (Hx' & Hy' & Hz'). unfold calculate_distance.
  rewrite Hx, Hy, Hz, Hx', Hy', Hz'. reflexivity.
Qed.

(** X3: the answer depends on nothing but the x, y and z of landmarks 2, 4,
    5, 8, 9, 12, 13, 16, 17 and 20: two lists of at least 21 landmarks that
    read alike there get the same answer, whatever their ids, visibilities,
    other landmarks and lengths. *)
Theorem recognize_gesture_reads_ten_landmarks {libm : Libm}
  (l1 l2 : list Landmark) :
  (21 <= List.length l1)%nat ->
  (21 <= List.length l2)%nat ->
  (forall i, In i read_indices ->
             same_reading (landmark_at l1 i) (landmark_at l2 i)) ->
  recognize_gesture l1 = recognize_gesture l2.
Proof.
  intros H1 H2 Hsame.
  rewrite (recognize_gesture_rule_chain l1 H1),
    (recognize_gesture_rule_chain l2 H2).
  assert (Hat : forall i, In i read_indices ->
                          same_reading (landmark_at l1 i) (landmark_at l2 i))
    by exact Hsame.
  unfold rule_chain, pinch_branch, extended_of, tip_above_base.
  rewrite (calculate_distance_reading (landmark_at l1 4) (landmark_at l2 4)
             (landmark_at l1 8) (landmark_at l2 8))
    by (apply Hat; cbn; tauto).
  repeat match goal with
         | |- context [lm_x (landmark_at l1 ?i)] =>
             rewrite (proj1 (Hat i ltac:(cbn; tauto)))
         | |- context [lm_y (landmark_at l1 ?i)] =>
             rewrite (proj1 (proj2 (Hat i ltac:(cbn; tauto))))
         end.
  reflexivity.
Qed.

Lemma recognize_gesture_reads_ten_landmarks_witness :
  recognize_gesture (libm := rounded_libm) flat_hand
  = recognize_gesture (libm := rounded_libm) padded_hand.
Proof.
  apply (recognize_gesture_reads_ten_landmarks (libm := rounded_libm)
           flat_hand padded_hand).
  - vm_compute. lia.
  - vm_compute. lia.
  - intros i Hi. cbn in Hi.
    repeat (destruct Hi as [<-|Hi]; [vm_compute; repeat split|]).
    destruct Hi.
Defined.

(** ** Float facts behind the distance *)

Lemma binary_round_aux_abs (p e' : Z) (s : bool) (m e : Z) (l : location) :
  SFabs (binary_round_aux p e' s m e l)
  = SFabs (binary_round_aux p e' false m e l).
Proof.
  unfold binary_round_aux.
  destruct (shr_fexp p e' m e l) as [mrs1 e1].
  destruct (shr_fexp p e' _ e1 loc_Exact) as [mrs2 e2].
  destruct (shr_m mrs2); [reflexivity | | reflexivity].
  destruct (Z.leb e2 (Z.sub e' p)); reflexivity.
Qed.

Lemma binary_normalize_abs_opp (p e' : Z) (z e : Z) :
  SFabs (binary_normalize p e' (- z) e false)
  = SFabs (binary_normalize p e' z e false).
Proof.
  destruct z as [|m|m]; cbn [Z.opp binary_normalize]; [reflexivity| |];
    unfold binary_round; destruct (shl_align _ _ _) as [mz ez];
    rewrite (binary_round_aux_abs p e' true); reflexivity.
Qed.

Lemma SFsub_abs_sym (p e' : Z) (x y : spec_float) :
  SFabs (SFsub p e' x y) = SFabs (SFsub p e' y x).
Proof.
  destruct x as [[|]|[|]| |sx mx ex]; destruct y as [[|]|[|]| |sy my ey];
    try reflexivity.
  cbn [SFsub]. rewrite (Z.min_comm ey ex).
  rewrite <- binary_normalize_abs_opp. f_equal. f_equal. lia.
Qed.

Lemma abs_sub_sym (a b : float) : abs (a - b) = abs (b - a).
Proof.
  apply Prim2SF_inj. rewrite !abs_spec, !sub_spec. apply SFsub_abs_sym.
Qed.

(** [v ** 2] looks at the magnitude of [v] only. *)
Lemma float_pow_2_abs {libm : Libm} (u v : float) :
  abs u = abs v -> float_pow_2 u = float_pow_2 v.
Proof.
  intro H.
  assert (Hs : SFabs (Prim2SF u) = SFabs (Prim2SF v))
    by (rewrite <- !abs_spec, H; reflexivity).
  assert (Hnan : is_nan u = is_nan v /\ (is_nan u = true -> u = v)).
  { split.
    - unfold is_nan. rewrite !FloatAxioms.eqb_spec.
      destruct (Prim2SF u) as [su|su| |su mu eu];
        destruct (Prim2SF v) as [sv|sv| |sv mv ev];
        try discriminate Hs; try reflexivity;
        rewrite !SFeqb_refl by discriminate; reflexivity.
    - intro Hu. apply Prim2SF_inj.
      rewrite (is_nan_true u Hu) in *.
      destruct (Prim2SF v) as [sv|sv| |sv mv ev];
        try discriminate Hs; reflexivity. }
  assert (Hzero : is_zero u = is_zero v).
  { unfold is_zero. rewrite !FloatAxioms.eqb_spec.
    change (Prim2SF 0) with (S754_zero false).
    destruct (Prim2SF u) as [su|su| |su mu eu];
      destruct (Prim2SF v) as [sv|sv| |sv mv ev];
      try discriminate Hs; try reflexivity;
      destruct su, sv; reflexivity. }
  destruct Hnan as [Hnan Hsame].
  unfold float_pow_2, is_infinity. rewrite <- Hnan, <- Hzero, <- H.
  destruct (is_nan u); [rewrite Hsame; reflexivity|reflexivity].
Qed.

Lemma float_pow_2_sub_sym {libm : Libm} (a b : float) :
  float_pow_2 (a - b) = float_pow_2 (b - a).
Proof. apply float_pow_2_abs, abs_sub_sym. Qed.

Lemma sub_self (a : float) : is_finite a = true -> a - a = 0.
Proof.
  intro Hfin. apply Prim2SF_inj. rewrite sub_spec.
  change (Prim2SF 0) with (S754_zero false).
  unfold is_finite, is_nan, is_infinity in Hfin.
  rewrite !FloatAxioms.eqb_spec, abs_spec in Hfin.
  change (Prim2SF infinity) with (S754_infinity false) in Hfin.
  destruct (Prim2SF a) as [[|]|[|]| |s m e];
    try discriminate Hfin; try reflexivity.
  unfold SF64sub. cbn [SFsub]. rewrite Z.sub_diag. reflexivity.
Qed.

(** X4: the distance does not depend on the order of its two points, raised
    overflow included, whatever the C library's [pow] returns: in binary64
    [a - b] and [b - a] differ by sign at most, and [** 2] looks at the
    magnitude only. *)
Theorem calculate_distance_symmetric {libm : Libm} (p1 p2 : Landmark) :
  calculate_distance p1 p2 = calculate_distance p2 p1.
Proof.
  unfold calculate_distance.
  rewrite (float_pow_2_sub_sym (lm_x p1) (lm_x p2)).
  rewrite (float_pow_2_sub_sym (lm_y p1) (lm_y p2)).
  rewrite (float_pow_2_sub_sym (get_z p1) (get_z p2)).
  reflexivity.
Qed.

(** X5: a landmark with finite coordinates is at distance exactly 0.0 from
    itself, "z" present or not. *)
Theorem calculate_distance_to_itself {libm : Libm} (p : Landmark) :
  finite_point p -> calculate_distance p p = Ok (PyFloat 0).
Proof.
  intros (Hx & Hy & Hz). unfold calculate_distance.
  rewrite (sub_self _ Hx), (sub_self _ Hy), (sub_self _ Hz).
  vm_compute. reflexivity.
Qed.

Lemma calculate_distance_to_itself_witness :
  calculate_distance (libm := rounded_libm) (mkLandmark 8 0.3 0.4 None None)
                     (mkLandmark 8 0.3 0.4 None None) = Ok (PyFloat 0).
Proof.
  apply (calculate_distance_to_itself (libm := rounded_libm)
           (mkLandmark 8 0.3 0.4 None None)).
  repeat split.
Defined.

(** ** The order of scores *)

Lemma SFltb_rank (x y : spec_float) :
  SFltb x y = true <->
  sf_is_nan x = false /\ sf_is_nan y = false
  /\ lex_lt (sf_rank x) (sf_rank y).
Proof.
  unfold SFltb.
  destruct x as [[|]|[|]| |[|] m1 e1]; destruct y as [[|]|[|]| |[|] m2 e2];
    cbn [SFcompare sf_is_nan sf_rank lex_lt];
    try (split; [discriminate | intros (? & ? & ?); try discriminate; lia]);
    try (split; [intros _; repeat split; lia | reflexivity]).
  - change (Pos.compare_cont Eq m1 m2) with (Pos.compare m1 m2).
    destruct (Z.compare_spec e1 e2); destruct (Pos.compare_spec m1 m2);
      cbn [CompOpp];
      (split; [try discriminate; intros _; repeat split; lia
              | intros (_ & _ & Hlex); try reflexivity; lia]).
  - change (Pos.compare_cont Eq m1 m2) with (Pos.compare m1 m2).
    destruct (Z.compare_spec e1 e2); destruct (Pos.compare_spec m1 m2);
      (split; [try discriminate; intros _; repeat split; lia
              | intros (_ & _ & Hlex); try reflexivity; lia]).
Qed.

Lemma ltb_trans (a b c : float) :
  (a <? b) = true -> (b <? c) = true -> (a <? c) = true.
Proof.
  rewrite !ltb_spec, !SFltb_rank.
  intros (Ha & _ & Hab) (_ & Hc & Hbc). repeat split; try assumption.
  destruct (sf_rank (Prim2SF a)) as [[a1 a2] a3].
  destruct (sf_rank (Prim2SF b)) as [[b1 b2] b3].
  destruct (sf_rank (Prim2SF c)) as [[c1 c2] c3].
  cbn [lex_lt] in *. lia.
Qed.

(** The running maximum is an entry seen so far, it is the start or lies
    above it, and no entry seen lies above it. *)
Lemma max_from_spec (l : list (string * float)) (best : string * float) :
  In (max_from best l) (best :: l)
  /\ (max_from best l = best \/ (snd best <? snd (max_from best l)) = true)
  /\ (forall kv, In kv (best :: l) ->
                 (snd (max_from best l) <? snd kv) = false).
Proof.
  revert best. induction l as [|kv l IH]; intro best; cbn [max_from].
  - split; [left; reflexivity|]. split; [left; reflexivity|].
    intros kv [<-|[]].
    destruct (snd best <? snd best) eqn:H; [|reflexivity].
    rewrite ltb_spec, SFltb_rank in H. destruct H as (_ & _ & H).
    destruct (sf_rank (Prim2SF (snd best))) as [[a1 a2] a3].
    cbn [lex_lt] in H. lia.
  - destruct (snd best <? snd kv) eqn:Hlt.
    + destruct (IH kv) as (Hin & Hup & Hmax).
      split; [right; exact Hin|].
      assert (Hbest : (snd best <? snd (max_from kv l)) = true).
      { destruct Hup as [->|Hup]; [exact Hlt|].
        eapply ltb_trans; eassumption. }
      split; [right; exact Hbest|].
      intros kv' [<-|Hin'].
      * destruct (snd (max_from kv l) <? snd best) eqn:H; [|reflexivity].
        pose proof (ltb_trans _ _ _ Hbest H) as Hrefl.
        rewrite ltb_spec, SFltb_rank in Hrefl. destruct Hrefl as (_ & _ & Hr).
        destruct (sf_rank (Prim2SF (snd best))) as [[a1 a2] a3].
        cbn [lex_lt] in Hr. lia.
      * apply Hmax. exact Hin'.
    + destruct (IH best) as (Hin & Hup & Hmax).
      split; [destruct Hin as [Hin|Hin]; [left; exact Hin | right; right; exact Hin]|].
      split; [exact Hup|].
      intros kv' [<-|[<-|Hin']].
      * apply Hmax. left. reflexivity.
      * destruct Hup as [->|Hup]; [exact Hlt|].
        destruct (snd (max_from best l) <? snd kv) eqn:H; [|reflexivity].
        rewrite (ltb_trans _ _ _ Hup H) in Hlt. discriminate Hlt.
      * apply Hmax. right. exact Hin'.
Qed.

(** X6: when the detector reports a first face with scores, the emotion
    returned is an entry of those scores, its confidence is that entry's
    score, no score of the face lies above that confidence, and all_emotions
    is the face's score map. *)
Theorem analyze_emotion_dominant (Image : Type) (cvtColor : Image -> res Image)
  (detector : option (Image -> res (list FerFace))) (image : Image)
  (face : FerFace) (rest : list FerFace)
  (first : string * float) (others : list (string * float)) :
  capability cvtColor detector image = Returned (face :: rest) ->
  fer_emotions face = Some (first :: others) ->
  let r := analyze_emotion Image cvtColor detector image in
  all_emotions r = Some (first :: others)
  /\ In (emotion r, confidence r) (first :: others)
  /\ (forall label score, In (label, score) (first :: others) ->
                          (confidence r <? score) = false).
Proof.
  unfold capability, analyze_emotion.
  destruct detector as [call|]; [|discriminate].
  destruct (cvtColor image) as [rgb|]; cbn [bind]; [|discriminate].
  destruct (call rgb) as [result|]; [|discriminate].
  intros Hr Hface. injection Hr as Hr. subst result.
  cbn. rewrite Hface. cbn.
  destruct (max_from_spec others first) as (Hin & _ & Hmax).
  split; [reflexivity|]. split.
  - destruct (max_from first others) as [k v]. exact Hin.
  - intros label score Hls. apply (Hmax (label, score)). exact Hls.
Qed.

Lemma analyze_emotion_dominant_witness :
  let r := analyze_emotion unit same_image (Some (one_face tied_scores)) tt in
  all_emotions r = Some tied_scores
  /\ In (emotion r, confidence r) tied_scores
  /\ (forall label score, In (label, score) tied_scores ->
                          (confidence r <? score) = false).
Proof.
  apply (analyze_emotion_dominant unit same_image
           (Some (one_face tied_scores)) tt
           (mkFerFace (Some tied_scores)) []
           ("sad", 0.2) [("happy", 0.4); ("angry", 0.4); ("fear", 0.1)]);
    reflexivity.
Defined.

(** Among equal top scores the first in the face's order is reported. *)
Example analyze_emotion_first_of_ties :
  emotion (analyze_emotion unit same_image (Some (one_face tied_scores)) tt)
  = "happy".
Proof. reflexivity. Qed.

(** ** What a session handler may touch *)

Lemma handler_step_refl (websocket : WebSocket) (w : World) :
  handler_step websocket w w.
Proof.
  repeat split; exists []; rewrite app_nil_r; split; constructor.
Qed.

Lemma handler_step_trans (websocket : WebSocket) (w1 w2 w3 : World) :
  handler_step websocket w1 w2 -> handler_step websocket w2 w3 ->
  handler_step websocket w1 w3.
Proof.
  intros (Ha & Hb & Hs & He & (l1 & Hl1 & Ho1) & (m1 & Hm1 & Hp1))
         (Ha' & Hb' & Hs' & He' & (l2 & Hl2 & Ho2) & (m2 & Hm2 & Hp2)).
  repeat split; try congruence.
  - exists (l1 ++ l2)%list. split.
    + rewrite Hl2, Hl1, app_assoc. reflexivity.
    + apply Forall_app. split; assumption.
  - exists (m1 ++ m2)%list. split.
    + rewrite Hm2, Hm1, app_assoc. reflexivity.
    + apply Forall_app. split; assumption.
Qed.

Lemma keeps_ret {A : Type} (websocket : WebSocket) (a : A) :
  keeps websocket (ret a).
Proof. intro w. apply handler_step_refl. Qed.

Lemma keeps_lift {A : Type} (websocket : WebSocket) (m : res A) :
  keeps websocket (lift m).
Proof. intro w. apply handler_step_refl. Qed.

Lemma keeps_bind {A B : Type} (websocket : WebSocket) (m : io A)
  (k : A -> io B) :
  keeps websocket m -> (forall a, keeps websocket (k a)) ->
  keeps websocket (io_bind m k).
Proof.
  intros Hm Hk w. unfold io_bind. specialize (Hm w).
  destruct (m w) as [[a|e] w']; cbn [snd] in *; [|exact Hm].
  eapply handler_step_trans; [exact Hm | apply Hk].
Qed.

Lemma keeps_try {A : Type} (websocket : WebSocket) (body : io A)
  (handler : exn -> io A) :
  keeps websocket body -> (forall e, keeps websocket (handler e)) ->
  keeps websocket (io_try body handler).
Proof.
  intros Hm Hk w. unfold io_try. specialize (Hm w).
  destruct (body w) as [[a|e] w']; cbn [snd] in *; [exact Hm|].
  eapply handler_step_trans; [exact Hm | apply Hk].
Qed.

Lemma keeps_send_json (websocket : WebSocket) (message : Message) :
  keeps websocket (send_json websocket message).
Proof.
  intro w. unfold send_json.
  destruct (send_error w websocket); cbn [snd];
    repeat split; cbn [attempted sent];
    try (exists [(websocket, message)]; split;
         [reflexivity | repeat constructor]);
    exists []; rewrite app_nil_r; split; constructor.
Qed.

Lemma keeps_set_last_emotion (websocket : WebSocket) (r : EmotionResult) :
  keeps websocket (set_last_emotion r).
Proof.
  intro w. unfold set_last_emotion, modify_manager, with_manager.
  cbn [snd]. repeat split; exists []; rewrite app_nil_r; split; constructor.
Qed.

Lemma keeps_set_last_pose (websocket : WebSocket) (r : PoseResult) :
  keeps websocket (set_last_pose r).
Proof.
  intro w. unfold set_last_pose, modify_manager, with_manager.
  cbn [snd]. repeat split; exists []; rewrite app_nil_r; split; constructor.
Qed.

Section HandlerFrame.

Variable Image : Type.
Variable cvtColor : Image -> res Image.
Variable emotion_detector : option (Image -> res (list FerFace)).
Variable pose_detector : option (Image -> res PoseOutput).
Variable face_mesh_detector : option (Image -> res FaceMeshOutput).
Variable hand_detector : option (Image -> res HandsOutput).
Variable image_of_base64 : string -> res Image.
Context {libm : Libm}.

Lemma keeps_handle_frame (websocket : WebSocket) (data : json) :
  keeps websocket
    (handle_frame Image cvtColor emotion_detector pose_detector
       face_mesh_detector hand_detector image_of_base64 websocket data).
Proof.
  unfold handle_frame.
  repeat (apply keeps_bind; [|intro]);
    try apply keeps_lift; try apply keeps_send_json.
  - destruct (truthy _); [|apply keeps_ret].
    apply keeps_bind; [apply keeps_set_last_emotion | intro; apply keeps_ret].
  - destruct (truthy _); [|apply keeps_ret].
    apply keeps_bind; [apply keeps_set_last_pose | intro; apply keeps_ret].
Qed.

Lemma keeps_receive_loop (websocket : WebSocket) (inbox : list (res json)) :
  keeps websocket
    (receive_loop Image cvtColor emotion_detector pose_detector
       face_mesh_detector hand_detector image_of_base64 websocket inbox).
Proof.
  induction inbox as [|event inbox IH]; cbn [receive_loop].
  - apply keeps_ret.
  - apply keeps_bind; [apply keeps_lift | intro data].
    apply keeps_bind; [apply keeps_lift | intro msg_type].
    destruct (json_is_str "frame" msg_type).
    + apply keeps_bind; [|intro; exact IH].
      apply keeps_try; [apply keeps_handle_frame|].
      intro e. apply keeps_send_json.
    + destruct (json_is_str "ping" msg_type); [|exact IH].
      apply keeps_bind; [apply keeps_send_json | intro; exact IH].
Qed.

(** X7: whatever arrives and whatever the detectors do, the receive loop of
    a socket leaves the registered connections, the beat field and the other
    sockets alone: every message it hands to [send_json] is addressed to its
    own socket. *)
Theorem receive_loop_own_socket_only (websocket : WebSocket)
  (inbox : list (res json)) (w : World) :
  let w' :=
    snd (receive_loop Image cvtColor emotion_detector pose_detector
           face_mesh_detector hand_detector image_of_base64
           websocket inbox w) in
  active_connections (manager w') = active_connections (manager w)
  /\ last_beat (manager w') = last_beat (manager w)
  /\ (exists l, attempted w' = (attempted w ++ l)%list
                /\ Forall (fun a => fst a = websocket) l)
  /\ (exists l, sent w' = (sent w ++ l)%list
                /\ Forall (fun a => fst a = websocket) l).
Proof.
  cbv zeta.
  destruct (keeps_receive_loop websocket inbox w)
    as (Ha & Hb & _ & _ & Hatt & Hsent).
  repeat split; assumption.
Qed.

(** On a healthy socket the answer to a frame always goes out: what the
    [try] body raises is reported by the [except], whose send succeeds. *)
Lemma frame_branch_returns (websocket : WebSocket) (data : json) (w : World) :
  send_error w websocket = None ->
  fst (io_try (handle_frame Image cvtColor emotion_detector pose_detector
                 face_mesh_detector hand_detector image_of_base64
                 websocket data)
              (fun e => send_json websocket (MsgError e)) w) = Ok tt.
Proof.
  intro Hok. unfold io_try.
  pose proof (keeps_handle_frame websocket data w) as (_ & _ & _ & He & _).
  destruct (handle_frame _ _ _ _ _ _ _ _ _ w) as [[[]|e] w'];
    cbn [snd fst] in *; [reflexivity|].
  unfold send_json. rewrite He, Hok. reflexivity.
Qed.

(** One turn of the loop on a JSON object, branch by branch. *)
Lemma receive_loop_dict (websocket : WebSocket) (fields : list (string * json))
  (inbox : list (res json)) (w : World) :
  receive_loop Image cvtColor emotion_detector pose_detector
    face_mesh_detector hand_detector image_of_base64
    websocket (Ok (JObj fields) :: inbox) w
  = (if json_is_str "frame" (dict_get fields "type" JNull) then
       io_try (handle_frame Image cvtColor emotion_detector pose_detector
                 face_mesh_detector hand_detector image_of_base64
                 websocket (JObj fields))
              (fun e => send_json websocket (MsgError e)) ;;;
       receive_loop Image cvtColor emotion_detector pose_detector
         face_mesh_detector hand_detector image_of_base64 websocket inbox
     else if json_is_str "ping" (dict_get fields "type" JNull) then
       send_json websocket MsgPong ;;;
       receive_loop Image cvtColor emotion_detector pose_detector
         face_mesh_detector hand_detector image_of_base64 websocket inbox
     else
       receive_loop Image cvtColor emotion_detector pose_detector
         face_mesh_detector hand_detector image_of_base64 websocket inbox) w.
Proof. reflexivity. Qed.

Lemma receive_loop_healthy (websocket : WebSocket) (inbox : list (res json))
  (w : World) :
  send_error w websocket = None ->
  if forallb is_dict inbox
  then fst (receive_loop Image cvtColor emotion_detector pose_detector
              face_mesh_detector hand_detector image_of_base64
              websocket inbox w) = Ok Awaiting
  else exists e,
      fst (receive_loop Image cvtColor emotion_detector pose_detector
             face_mesh_detector hand_detector image_of_base64
             websocket inbox w) = Raise e.
Proof.
  revert w. induction inbox as [|event inbox IH]; intros w Hok;
    cbn [forallb]; [reflexivity|].
  destruct event as [data|e]; cbn [is_dict andb];
    [|exists e; reflexivity].
  destruct data; cbn [is_dict andb];
    try (exists AttributeError; reflexivity).
  rewrite receive_loop_dict.
  destruct (json_is_str "frame" (dict_get fields "type" JNull)).
  - unfold io_bind.
    pose proof (frame_branch_returns websocket (JObj fields) w Hok) as Hret.
    pose proof (keeps_try websocket _ _
                  (keeps_handle_frame websocket (JObj fields))
                  (fun e => keeps_send_json websocket (MsgError e)) w)
      as (_ & _ & _ & He & _).
    destruct (io_try _ _ w) as [[[]|e] w']; cbn [fst snd] in *;
      [|discriminate Hret].
    apply IH. rewrite He. exact Hok.
  - destruct (json_is_str "ping" (dict_get fields "type" JNull));
      [|apply IH; exact Hok].
    unfold io_bind, send_json. rewrite Hok. apply IH. exact Hok.
Qed.

Lemma remove_first_added (x : WebSocket) (l : list WebSocket) :
  ~ In x l -> remove_first x (l ++ [x]) = l.
Proof.
  induction l as [|y l IH]; intro Hnot; cbn [app remove_first].
  - rewrite Nat.eqb_refl. reflexivity.
  - destruct (Nat.eqb_spec x y) as [->|Hne].
    + exfalso. apply Hnot. left. reflexivity.
    + f_equal. apply IH. intro Hin. apply Hnot. right. exact Hin.
Qed.

(** Past a greeting that went out, the endpoint is its guarded loop. *)
Lemma websocket_endpoint_greeted (fer mediapipe librosa : bool)
  (websocket : WebSocket) (inbox : list (res json)) (w : World) :
  send_error w websocket = None ->
  websocket_endpoint Image cvtColor emotion_detector pose_detector
    face_mesh_detector hand_detector fer mediapipe librosa image_of_base64
    websocket inbox w
  = io_try (receive_loop Image cvtColor emotion_detector pose_detector
              face_mesh_detector hand_detector image_of_base64
              websocket inbox)
           (fun _ => disconnect websocket ;;; ret Closed)
           (after_send websocket
              (MsgConnected (fer && is_some emotion_detector)
                            (mediapipe && is_some pose_detector) librosa)
              (after_connect websocket w)).
Proof.
  intro Hok. unfold websocket_endpoint, io_bind, connect, modify_manager.
  unfold send_json at 1. cbn [send_error with_manager]. rewrite Hok.
  reflexivity.
Qed.

(** X8: on a socket whose sends go through, the endpoint never lets an
    exception out.  While every inbound event is a JSON object it stays
    registered, awaiting the next one; the first event that is a disconnect,
    a receive error or a message that is not an object ends it, and the
    socket is unregistered: for a socket that was not registered before, the
    registrations are back to what they were. *)
Theorem websocket_endpoint_lifecycle (fer mediapipe librosa : bool)
  (websocket : WebSocket) (inbox : list (res json)) (w : World) :
  send_error w websocket = None ->
  let run :=
    websocket_endpoint Image cvtColor emotion_detector pose_detector
      face_mesh_detector hand_detector fer mediapipe librosa image_of_base64
      websocket inbox w in
  fst run = Ok (if forallb is_dict inbox then Awaiting else Closed)
  /\ registered (snd run)
     = (if forallb is_dict inbox
        then (registered w ++ [websocket])%list
        else remove_first websocket (registered w ++ [websocket]))
  /\ (~ In websocket (registered w) ->
      forallb is_dict inbox = false -> registered (snd run) = registered w).
Proof.
  intro Hok. cbv zeta.
  rewrite (websocket_endpoint_greeted fer mediapipe librosa websocket inbox w Hok).
  set (w1 := after_send websocket _ (after_connect websocket w)).
  assert (Hok1 : send_error w1 websocket = None) by exact Hok.
  assert (Hreg1 : registered w1 = (registered w ++ [websocket])%list)
    by reflexivity.
  pose proof (receive_loop_healthy websocket inbox w1 Hok1) as Hloop.
  pose proof (keeps_receive_loop websocket inbox w1) as (Ha & _).
  fold (registered w1) in Ha.
  unfold io_try.
  destruct (receive_loop _ _ _ _ _ _ _ _ inbox w1) as [[st|e] w2];
    cbn [fst snd] in *; fold (registered w2) in Ha.
  - destruct (forallb is_dict inbox).
    + rewrite Ha, Hreg1. repeat split; [exact Hloop | discriminate].
    + destruct Hloop as [e He]. discriminate He.
  - destruct (forallb is_dict inbox); [discriminate Hloop|].
    assert (Hreg2 : registered
                      (snd ((disconnect websocket ;;; ret Closed) w2))
                    = remove_first websocket (registered w ++ [websocket])).
    { unfold io_bind, disconnect, modify_manager, with_manager, ret.
      cbn [fst snd]. unfold registered in *. cbn [manager].
      rewrite Ha, Hreg1.
      replace (existsb (Nat.eqb websocket)
                 (active_connections (manager w) ++ [websocket]))
        with true; [reflexivity|].
      symmetry. apply existsb_exists. exists websocket.
      split; [apply in_or_app; right; left; reflexivity | apply Nat.eqb_refl]. }
    split; [reflexivity|]. split; [exact Hreg2|].
    intros Hnot _. rewrite Hreg2. apply remove_first_added. exact Hnot.
Qed.

(** X9: when the greeting cannot be sent, its exception leaves the endpoint:
    the receive loop is never entered and the socket, registered just
    before, stays registered. *)
Theorem websocket_endpoint_greeting_fails (fer mediapipe librosa : bool)
  (websocket : WebSocket) (inbox : list (res json)) (w : World) (e : exn) :
  send_error w websocket = Some e ->
  let run :=
    websocket_endpoint Image cvtColor emotion_detector pose_detector
      face_mesh_detector hand_detector fer mediapipe librosa image_of_base64
      websocket inbox w in
  fst run = Raise e
  /\ registered (snd run) = (registered w ++ [websocket])%list
  /\ sent (snd run) = sent w.
Proof.
  intro Herr. cbv zeta.
  unfold websocket_endpoint, io_bind, connect, modify_manager, send_json.
  cbn [with_manager send_error]. rewrite Herr. repeat split.
Qed.

(** X10: a frame whose payload decodes is answered, on a healthy socket, by
    exactly one analysis message to the sender, holding an entry for each
    modality whose flag is true and for no other; the hands flag counts as
    true when absent, the other three as false.  The loop then goes on. *)
Theorem frame_gets_one_analysis (websocket : WebSocket)
  (fields : list (string * json)) (inbox : list (res json)) (w : World)
  (image : Image) :
  send_error w websocket = None ->
  json_is_str "frame" (dict_get fields "type" JNull) = true ->
  decode_base64_image Image image_of_base64
    (dict_get fields "data" (JStr EmptyString)) = Ok image ->
  let reply :=
    MsgAnalysis
      (requested fields "analyze_emotion" false
         (analyze_emotion Image cvtColor emotion_detector image))
      (requested fields "analyze_pose" false
         (analyze_pose Image cvtColor pose_detector image))
      (requested fields "analyze_face_mesh" false
         (analyze_face_mesh Image cvtColor face_mesh_detector image))
      (requested fields "analyze_hands" true
         (analyze_hands Image cvtColor hand_detector image)) in
  exists w1,
    receive_loop Image cvtColor emotion_detector pose_detector
      face_mesh_detector hand_detector image_of_base64
      websocket (Ok (JObj fields) :: inbox) w
    = receive_loop Image cvtColor emotion_detector pose_detector
        face_mesh_detector hand_detector image_of_base64
        websocket inbox w1
    /\ sent w1 = (sent w ++ [(websocket, reply)])%list
    /\ attempted w1 = (attempted w ++ [(websocket, reply)])%list.
Proof.
  intros Hok Hframe Himage. cbv zeta.
  cbn [receive_loop]. unfold io_bind at 1 2. cbn [lift json_get].
  rewrite Hframe. unfold io_bind at 1, io_try, handle_frame.
  unfold io_bind, lift. cbn [json_get]. rewrite Himage.
  unfold requested.
  destruct w as [m tried log naps err]. cbn [send_error] in Hok.
  destruct (truthy (dict_get fields "analyze_emotion" (JBool false)));
    destruct (truthy (dict_get fields "analyze_pose" (JBool false)));
    unfold set_last_emotion, set_last_pose, modify_manager, with_manager, ret,
      send_json;
    cbn [manager attempted sent slept send_error]; rewrite Hok;
    eexists; (split; [reflexivity|]); split; reflexivity.
Qed.

(** X11: a frame whose payload does not decode is answered, on a healthy
    socket, by exactly one error message carrying the exception; no analysis
    runs, the manager is untouched and the loop goes on. *)
Theorem frame_decode_error_reported (websocket : WebSocket)
  (fields : list (string * json)) (inbox : list (res json)) (w : World)
  (e : exn) :
  send_error w websocket = None ->
  json_is_str "frame" (dict_get fields "type" JNull) = true ->
  decode_base64_image Image image_of_base64
    (dict_get fields "data" (JStr EmptyString)) = Raise e ->
  receive_loop Image cvtColor emotion_detector pose_detector
    face_mesh_detector hand_detector image_of_base64
    websocket (Ok (JObj fields) :: inbox) w
  = receive_loop Image cvtColor emotion_detector pose_detector
      face_mesh_detector hand_detector image_of_base64
      websocket inbox (after_send websocket (MsgError e) w).
Proof.
  intros Hok Hframe Himage.
  cbn [receive_loop]. unfold io_bind at 1 2. cbn [lift json_get].
  rewrite Hframe. unfold io_bind at 1, io_try, handle_frame.
  unfold io_bind, lift. cbn [json_get]. rewrite Himage.
  unfold send_json. rewrite Hok. reflexivity.
Qed.

(** X12: a ping is answered, on a healthy socket, by exactly one pong to the
    sender; nothing else changes and the loop goes on. *)
Theorem ping_gets_one_pong (websocket : WebSocket)
  (fields : list (string * json)) (inbox : list (res json)) (w : World) :
  send_error w websocket = None ->
  json_is_str "ping" (dict_get fields "type" JNull) = true ->
  receive_loop Image cvtColor emotion_detector pose_detector
    face_mesh_detector hand_detector image_of_base64
    websocket (Ok (JObj fields) :: inbox) w
  = receive_loop Image cvtColor emotion_detector pose_detector
      face_mesh_detector hand_detector image_of_base64
      websocket inbox (after_send websocket MsgPong w).
Proof.
  intros Hok Hping.
  cbn [receive_loop]. unfold io_bind at 1 2. cbn [lift json_get].
  destruct (json_is_str "frame" (dict_get fields "type" JNull)) eqn:Hframe.
  - destruct (dict_get fields "type" JNull); try discriminate Hframe.
    cbn [json_is_str] in *. apply String.eqb_eq in Hframe, Hping.
    congruence.
  - rewrite Hping. unfold io_bind, send_json. rewrite Hok. reflexivity.
Qed.

End HandlerFrame.

Lemma websocket_endpoint_lifecycle_witness :
  fst (moody_endpoint 1%nat [Ok audio_chunk; Raise WebSocketDisconnect; Ok ping]
         quiet_world) = Ok Closed
  /\ registered (snd (moody_endpoint 1%nat
                        [Ok audio_chunk; Raise WebSocketDisconnect; Ok ping]
                        quiet_world))
     = remove_first 1%nat (registered quiet_world ++ [1%nat])
  /\ (~ In 1%nat (registered quiet_world) ->
      forallb is_dict [Ok audio_chunk; Raise WebSocketDisconnect; Ok ping]
      = false ->
      registered (snd (moody_endpoint 1%nat
                         [Ok audio_chunk; Raise WebSocketDisconnect; Ok ping]
                         quiet_world))
      = registered quiet_world).
Proof.
  apply (websocket_endpoint_lifecycle (libm := rounded_libm) string
           (fun i => Ok i)
           (Some moody_detector) None None None (fun payload => Ok payload)
           true false false 1%nat
           [Ok audio_chunk; Raise WebSocketDisconnect; Ok ping] quiet_world).
  reflexivity.
Defined.

Lemma websocket_endpoint_greeting_fails_witness :
  fst (moody_endpoint 2%nat [Ok ping] three_sessions)
  = Raise WebSocketDisconnect
  /\ registered (snd (moody_endpoint 2%nat [Ok ping] three_sessions))
     = (registered three_sessions ++ [2%nat])%list
  /\ sent (snd (moody_endpoint 2%nat [Ok ping] three_sessions))
     = sent three_sessions.
Proof.
  apply (websocket_endpoint_greeting_fails (libm := rounded_libm) string
           (fun i => Ok i)
           (Some moody_detector) None None None (fun payload => Ok payload)
           true false false 2%nat [Ok ping] three_sessions WebSocketDisconnect).
  reflexivity.
Defined.

Lemma frame_gets_one_analysis_witness :
  exists w1,
    moody_loop 1%nat [Ok (emotion_frame "smile"); Ok ping] quiet_world
    = moody_loop 1%nat [Ok ping] w1
    /\ sent w1
       = (sent quiet_world
          ++ [(1%nat, MsgAnalysis (Some happy) None None None)])%list
    /\ attempted w1
       = (attempted quiet_world
          ++ [(1%nat, MsgAnalysis (Some happy) None None None)])%list.
Proof.
  apply (frame_gets_one_analysis (libm := rounded_libm) string (fun i => Ok i)
           (Some moody_detector) None None None (fun payload => Ok payload)
           1%nat
           [("type", JStr "frame"); ("data", JStr "smile");
            ("analyze_emotion", JBool true); ("analyze_hands", JBool false)]
           [Ok ping] quiet_world "smile"); reflexivity.
Defined.

Lemma frame_decode_error_reported_witness :
  moody_loop 1%nat [Ok bad_frame; Ok ping] quiet_world
  = moody_loop 1%nat [Ok ping]
      (after_send 1%nat (MsgError TypeError) quiet_world).
Proof.
  apply (frame_decode_error_reported (libm := rounded_libm) string
           (fun i => Ok i)
           (Some moody_detector) None None None (fun payload => Ok payload)
           1%nat [("type", JStr "frame"); ("data", JNull)]
           [Ok ping] quiet_world TypeError); reflexivity.
Defined.

Lemma ping_gets_one_pong_witness :
  moody_loop 1%nat [Ok ping; Ok audio_chunk] quiet_world
  = moody_loop 1%nat [Ok audio_chunk] (after_send 1%nat MsgPong quiet_world).
Proof.
  apply (ping_gets_one_pong (libm := rounded_libm) string (fun i => Ok i)
           (Some moody_detector) None None None (fun payload => Ok payload)
           1%nat [("type", JStr "ping")] [Ok audio_chunk] quiet_world);
    reflexivity.
Defined.

(** ** Registrations *)

Lemma remove_first_absent (x : WebSocket) (l : list WebSocket) :
  ~ In x l -> remove_first x l = l.
Proof.
  induction l as [|y l IH]; intro Hnot; cbn [remove_first]; [reflexivity|].
  destruct (Nat.eqb_spec x y) as [->|Hne].
  - exfalso. apply Hnot. left. reflexivity.
  - f_equal. apply IH. intro Hin. apply Hnot. right. exact Hin.
Qed.

Lemma existsb_registered (x : WebSocket) (l : list WebSocket) :
  existsb (Nat.eqb x) l = true <-> In x l.
Proof.
  rewrite existsb_exists. split.
  - intros (y & Hin & Heq). apply Nat.eqb_eq in Heq. subst y. exact Hin.
  - intro Hin. exists x. split; [exact Hin | apply Nat.eqb_refl].
Qed.

Lemma count_remove_first (x c : WebSocket) (l : list WebSocket) :
  count_occ Nat.eq_dec (remove_first x l) c
  = if Nat.eqb c x then pred (count_occ Nat.eq_dec l c)
    else count_occ Nat.eq_dec l c.
Proof.
  induction l as [|y l IH]; cbn [remove_first count_occ].
  - destruct (Nat.eqb c x); reflexivity.
  - destruct (Nat.eqb_spec x y) as [->|Hxy].
    + destruct (Nat.eq_dec y c) as [->|Hyc].
      * rewrite Nat.eqb_refl. reflexivity.
      * destruct (Nat.eqb_spec c y) as [->|_]; [contradiction|reflexivity].
    + cbn [count_occ]. rewrite IH.
      destruct (Nat.eq_dec y c) as [->|Hyc]; [|reflexivity].
      destruct (Nat.eqb_spec c x) as [->|_]; [contradiction|reflexivity].
Qed.

(** X13: [disconnect] never raises and takes away exactly one registration
    of its socket, if there is one, and none of any other socket; a socket
    registered twice stays registered once. *)
Theorem disconnect_removes_one (websocket : WebSocket) (w : World) :
  fst (disconnect websocket w) = Ok tt
  /\ forall c,
       count_occ Nat.eq_dec (registered (snd (disconnect websocket w))) c
       = if Nat.eqb c websocket
         then pred (count_occ Nat.eq_dec (registered w) c)
         else count_occ Nat.eq_dec (registered w) c.
Proof.
  split; [reflexivity|]. intro c.
  unfold disconnect, modify_manager, with_manager, registered.
  cbn [snd manager].
  destruct (existsb (Nat.eqb websocket) (active_connections (manager w)))
    eqn:Hin; cbn [active_connections].
  - apply count_remove_first.
  - destruct (Nat.eqb_spec c websocket) as [->|_]; [|reflexivity].
    replace (count_occ Nat.eq_dec (active_connections (manager w)) websocket)
      with 0%nat; [reflexivity|].
    symmetry. apply count_occ_not_In. intro H.
    apply existsb_registered in H. congruence.
Qed.

(** X14: unregistering a socket that is not registered changes nothing, and
    registering a new socket then unregistering it gives back the world as
    it was. *)
Theorem disconnect_round_trip (websocket : WebSocket) (w : World) :
  ~ In websocket (registered w) ->
  disconnect websocket w = (Ok tt, w)
  /\ (connect websocket ;;; disconnect websocket) w = (Ok tt, w).
Proof.
  intro Hnot. destruct w as [[conns emo pose beat] tried log naps err].
  unfold registered in Hnot. cbn [manager active_connections] in Hnot.
  split.
  - unfold disconnect, modify_manager, with_manager.
    cbn [manager active_connections attempted sent slept send_error].
    destruct (existsb (Nat.eqb websocket) conns) eqn:Hin; [|reflexivity].
    apply existsb_registered in Hin. contradiction.
  - unfold io_bind, connect, disconnect, modify_manager, with_manager.
    cbn [manager active_connections last_emotion last_pose last_beat
         attempted sent slept send_error].
    replace (existsb (Nat.eqb websocket) (conns ++ [websocket])) with true
      by (symmetry; apply existsb_registered, in_or_app; right; left;
          reflexivity).
    rewrite (remove_first_added websocket conns Hnot). reflexivity.
Qed.

Lemma disconnect_round_trip_witness :
  disconnect 9%nat three_sessions = (Ok tt, three_sessions)
  /\ (connect 9%nat ;;; disconnect 9%nat) three_sessions
     = (Ok tt, three_sessions).
Proof.
  apply (disconnect_round_trip 9%nat three_sessions).
  vm_compute. intuition discriminate.
Defined.

(** ** Beat sessions *)

Lemma beat_loop_healthy (pulses : nat) (websocket : WebSocket) (tempo : json)
  (beat_interval : float) (beat_count : nat)
  (m : ConnectionManager) (tried log : list (WebSocket * Message))
  (naps : list float) (err : WebSocket -> option exn) :
  err websocket = None ->
  beat_loop pulses websocket tempo beat_interval beat_count
    (mkWorld m tried log naps err)
  = (Ok Awaiting,
     mkWorld m
       (tried ++ pulses_from websocket tempo beat_count pulses)%list
       (log ++ pulses_from websocket tempo beat_count pulses)%list
       (naps ++ repeat beat_interval pulses)%list err).
Proof.
  intro Hok. revert beat_count tried log naps.
  induction pulses as [|n IH]; intros beat_count tried log naps.
  - cbn. rewrite !app_nil_r. reflexivity.
  - cbn [beat_loop]. unfold io_bind, send_json, sleep.
    cbn [send_error manager attempted sent slept]. rewrite Hok.
    cbn [send_error manager attempted sent slept].
    rewrite Nat.add_1_r, IH. unfold pulses_from.
    cbn [seq map repeat]. rewrite <- !app_assoc. reflexivity.
Qed.

(** X15: on a healthy socket a session whose first message sets up pulses
    the beats in order: after n turns the sender has received exactly the n
    messages counted 0, 1, ..., n-1, each with the tempo as the client gave
    it, the handler has slept n times the interval, and it is still
    pulsing. *)
Theorem beats_websocket_pulses (websocket : WebSocket) (data tempo : json)
  (beat_interval : float) (n : nat) (w : World) :
  beat_setup data = Ok (tempo, beat_interval) ->
  send_error w websocket = None ->
  beats_websocket websocket (Ok tt) (Ok data) n w
  = (Ok Awaiting,
     mkWorld (manager w)
       (attempted w ++ pulses_from websocket tempo 0 n)%list
       (sent w ++ pulses_from websocket tempo 0 n)%list
       (slept w ++ repeat beat_interval n)%list (send_error w)).
Proof.
  intros Hsetup Hok. destruct w as [m tried log naps err].
  cbn [send_error] in Hok.
  unfold beats_websocket, io_try, io_bind, lift. rewrite Hsetup.
  cbn [fst snd manager attempted sent slept send_error].
  rewrite (beat_loop_healthy n websocket tempo beat_interval 0 m tried log
             naps err Hok).
  reflexivity.
Qed.

Lemma beats_websocket_pulses_witness :
  beats_websocket 1%nat (Ok tt) (Ok (tempo_message (JInt 120))) 3 quiet_world
  = (Ok Awaiting,
     mkWorld (manager quiet_world)
       (attempted quiet_world ++ pulses_from 1%nat (JInt 120) 0 3)%list
       (sent quiet_world ++ pulses_from 1%nat (JInt 120) 0 3)%list
       (slept quiet_world ++ repeat 0.5 3)%list (send_error quiet_world)).
Proof.
  apply (beats_websocket_pulses 1%nat (tempo_message (JInt 120)) (JInt 120)
           0.5 3 quiet_world); reflexivity.
Defined.

Lemma beat_loop_manager (pulses : nat) (websocket : WebSocket) (tempo : json)
  (beat_interval : float) (beat_count : nat) (w : World) :
  manager (snd (beat_loop pulses websocket tempo beat_interval beat_count w))
  = manager w.
Proof.
  revert beat_count w. induction pulses as [|n IH]; intros beat_count w;
    [reflexivity|].
  cbn [beat_loop]. unfold io_bind, send_json, sleep.
  destruct (send_error w websocket); cbn [fst snd manager]; [reflexivity|].
  rewrite IH. reflexivity.
Qed.

(** X16: a beat session never touches the manager: it is not counted among
    the connections, and no accept, first message, tempo or transport
    failure changes a cached result.  Once the socket is accepted no
    exception leaves the handler; a failing accept, the one statement ahead
    of the [try], is let out as it is, before anything is sent or slept. *)
Theorem beats_websocket_leaves_manager (websocket : WebSocket)
  (accepted : res unit) (first : res json) (pulses : nat) (w : World) :
  manager (snd (beats_websocket websocket accepted first pulses w)) = manager w
  /\ match accepted with
     | Ok _ =>
         exists st,
           fst (beats_websocket websocket accepted first pulses w) = Ok st
     | Raise e =>
         beats_websocket websocket accepted first pulses w = (Raise e, w)
     end.
Proof.
  unfold beats_websocket, io_try, io_bind, lift.
  destruct accepted as [[]|e]; [|split; reflexivity].
  destruct first as [data|e]; [|split; [|eexists]; reflexivity].
  destruct (beat_setup data) as [setup|e]; [|split; [|eexists]; reflexivity].
  pose proof (beat_loop_manager pulses websocket (fst setup) (snd setup) 0 w)
    as Hm.
  destruct (beat_loop pulses websocket (fst setup) (snd setup) 0 w)
    as [[st|e] w']; cbn [fst snd] in *.
  - split; [exact Hm | eexists; reflexivity].
  - split; [exact Hm | eexists; reflexivity].
Qed.

(** X17: when the first pulse cannot be sent the session is over at once:
    the handler returns, nothing was delivered and nothing was slept. *)
Theorem beats_websocket_broken_socket (websocket : WebSocket) (data : json)
  (setup : json * float) (n : nat) (w : World) (e : exn) :
  beat_setup data = Ok setup ->
  send_error w websocket = Some e ->
  let run := beats_websocket websocket (Ok tt) (Ok data) (S n) w in
  fst run = Ok Closed
  /\ sent (snd run) = sent w
  /\ slept (snd run) = slept w
  /\ attempted (snd run)
     = (attempted w ++ [(websocket, MsgBeat 0 (fst setup))])%list.
Proof.
  intros Hsetup Herr. cbv zeta.
  unfold beats_websocket, io_try, io_bind, lift. rewrite Hsetup.
  cbn [beat_loop]. unfold io_bind, send_json. rewrite Herr.
  repeat split.
Qed.

Lemma beats_websocket_broken_socket_witness :
  fst (beats_websocket 2%nat (Ok tt) (Ok (tempo_message (JInt 60))) 4
         three_sessions)
  = Ok Closed
  /\ sent (snd (beats_websocket 2%nat (Ok tt) (Ok (tempo_message (JInt 60))) 4
                  three_sessions)) = sent three_sessions
  /\ slept (snd (beats_websocket 2%nat (Ok tt) (Ok (tempo_message (JInt 60))) 4
                   three_sessions)) = slept three_sessions
  /\ attempted (snd (beats_websocket 2%nat (Ok tt)
                       (Ok (tempo_message (JInt 60))) 4 three_sessions))
     = (attempted three_sessions ++ [(2%nat, MsgBeat 0 (JInt 60))])%list.
Proof.
  apply (beats_websocket_broken_socket 2%nat (tempo_message (JInt 60))
           (JInt 60, 1) 3 three_sessions WebSocketDisconnect); reflexivity.
Defined.

(** ** Frame payloads *)

Lemma split_comma_not_nil (s : string) : split_comma s <> [].
Proof.
  destruct s as [|c s]; cbn [split_comma]; [discriminate|].
  destruct (Ascii.eqb c ","); [discriminate|].
  destruct (split_comma s); discriminate.
Qed.

(** Splitting at the commas loses nothing: joining the pieces with commas
    gives the text back. *)
Lemma join_split_comma (s : string) : join "," (split_comma s) = s.
Proof.
  induction s as [|c s IH]; [reflexivity|].
  cbn [split_comma].
  destruct (Ascii.eqb_spec c ",") as [->|Hc].
  - pose proof (split_comma_not_nil s) as Hne.
    destruct (split_comma s) as [|piece pieces] eqn:Hs; [contradiction|].
    change (String "," (join "," (piece :: pieces)) = String "," s).
    rewrite IH. reflexivity.
  - pose proof (split_comma_not_nil s) as Hne.
    destruct (split_comma s) as [|piece pieces] eqn:Hs; [contradiction|].
    destruct pieces as [|piece' pieces].
    + cbn [join] in *. rewrite IH. reflexivity.
    + change (String c (join "," (piece :: piece' :: pieces)) = String c s).
      rewrite IH. reflexivity.
Qed.

Lemma split_comma_plain (b : string) :
  contains_comma b = false -> split_comma b = [b].
Proof.
  induction b as [|c b IH]; cbn [contains_comma split_comma];
    [reflexivity|].
  destruct (Ascii.eqb c ","); cbn [orb]; [discriminate|].
  intro Hb. rewrite (IH Hb). reflexivity.
Qed.

Lemma split_comma_prefix (a r : string) :
  contains_comma a = false ->
  split_comma (a ++ String "," r) = a :: split_comma r.
Proof.
  induction a as [|c a IH]; cbn [contains_comma append split_comma].
  - intros _. cbn. reflexivity.
  - destruct (Ascii.eqb c ","); cbn [orb]; [discriminate|].
    intro Ha. rewrite (IH Ha). reflexivity.
Qed.

Lemma contains_comma_app (a r : string) :
  contains_comma (a ++ String "," r) = true.
Proof.
  induction a as [|c a IH]; cbn [append contains_comma].
  - reflexivity.
  - rewrite IH. apply orb_true_r.
Qed.

Section Payloads.

Variable Image : Type.
Variable image_of_base64 : string -> res Image.

(** X19: a data-URL prefix is stripped before decoding: of "prefix,payload"
    only the payload is decoded, a payload without a comma is decoded whole,
    and whatever follows a second comma is dropped unread. *)
Theorem decode_base64_image_prefix (prefix payload rest : string) :
  contains_comma prefix = false ->
  contains_comma payload = false ->
  decode_base64_image Image image_of_base64 (JStr payload)
  = image_of_base64 payload
  /\ decode_base64_image Image image_of_base64
       (JStr (prefix ++ String "," payload))
     = image_of_base64 payload
  /\ decode_base64_image Image image_of_base64
       (JStr (prefix ++ String "," (payload ++ String "," rest)))
     = image_of_base64 payload.
Proof.
  intros Hprefix Hpayload. unfold decode_base64_image.
  rewrite Hpayload, !contains_comma_app.
  rewrite !(split_comma_prefix prefix) by exact Hprefix.
  rewrite (split_comma_plain payload Hpayload).
  rewrite (split_comma_prefix payload rest Hpayload).
  repeat split.
Qed.

End Payloads.

Lemma decode_base64_image_prefix_witness :
  decode_base64_image string (fun payload => Ok payload) (JStr "aGk=")
  = Ok "aGk="
  /\ decode_base64_image string (fun payload => Ok payload)
       (JStr ("data:image/png;base64" ++ String "," "aGk="))
     = Ok "aGk="
  /\ decode_base64_image string (fun payload => Ok payload)
       (JStr ("data:image/png;base64"
              ++ String "," ("aGk=" ++ String "," "tail")))
     = Ok "aGk=".
Proof.
  apply (decode_base64_image_prefix string (fun payload => Ok payload)
           "data:image/png;base64" "aGk=" "tail"); reflexivity.
Defined.

(** ** What the landmark facades report *)

Lemma item_y_landmark_at (landmarks : list Landmark) (i : nat) :
  (i < List.length landmarks)%nat ->
  item_y landmarks i = Ok (lm_y (landmark_at landmarks i)).
Proof.
  intro Hi. unfold item_y. rewrite (getitem_landmark_at landmarks i Hi).
  reflexivity.
Qed.

Lemma item_xy_landmark_at (landmarks : list Landmark) (i : nat) :
  (i < List.length landmarks)%nat ->
  item_xy landmarks i = Ok (point_of (landmark_at landmarks i)).
Proof.
  intro Hi. unfold item_xy. rewrite (getitem_landmark_at landmarks i Hi).
  reflexivity.
Qed.

Lemma enumerate_from_ids {A : Type} (f : nat * A -> Landmark)
  (l : list A) (i : nat) :
  (forall e, lm_id (f e) = fst e) ->
  map lm_id (map f (enumerate_from i l)) = seq i (List.length l).
Proof.
  intro Hf. revert i. induction l as [|a l IH]; intro i; [reflexivity|].
  cbn [enumerate_from map List.length seq]. rewrite Hf, IH. reflexivity.
Qed.

(** X20: the dictionaries built for a pose, a face or a hand carry as "id"
    their position in the detector's list, 0, 1, 2, ... in order, one
    dictionary per raw landmark. *)
Theorem landmark_ids_are_positions (raw : list RawLandmark) :
  map lm_id (map pose_dict (enumerate raw)) = seq 0 (List.length raw)
  /\ map lm_id (map xyz_dict (enumerate raw)) = seq 0 (List.length raw)
  /\ List.length (map pose_dict (enumerate raw)) = List.length raw
  /\ List.length (map xyz_dict (enumerate raw)) = List.length raw.
Proof.
  repeat split.
  - apply enumerate_from_ids. intros [i l]. reflexivity.
  - apply enumerate_from_ids. intros [i l]. reflexivity.
  - apply dicts_length.
  - apply dicts_length.
Qed.

(** X21: a first face of at least 387 landmarks is reported as detected,
    with the true landmark count, only the first 50 landmark dictionaries,
    and the features computed from the fixed indices and thresholds
    (mouth 0.03, eyes 0.015, brows 0.25); further faces are not looked
    at. *)
Theorem analyze_face_mesh_detected (Image : Type)
  (cvtColor : Image -> res Image)
  (detector : option (Image -> res FaceMeshOutput)) (image : Image)
  (results : FaceMeshOutput) (face : list RawLandmark)
  (others : list (list RawLandmark)) :
  capability cvtColor detector image = Returned results ->
  out_multi_face_landmarks results = Ok (Some (face :: others)) ->
  (387 <= List.length face)%nat ->
  let landmarks := map xyz_dict (enumerate face) in
  analyze_face_mesh Image cvtColor detector image
  = mkFaceMesh true (Some (List.length face)) (firstn 50 landmarks)
               (Some (face_features landmarks))
  /\ List.length
       (face_landmarks (analyze_face_mesh Image cvtColor detector image))
     = 50%nat.
Proof.
  intros Hcap Hfaces Hlen. cbv zeta.
  assert (Hn := dicts_length xyz_dict face).
  assert (Heq : analyze_face_mesh Image cvtColor detector image
                = mkFaceMesh true (Some (List.length face))
                    (firstn 50 (map xyz_dict (enumerate face)))
                    (Some (face_features (map xyz_dict (enumerate face))))).
  { unfold capability in Hcap. unfold analyze_face_mesh.
    destruct detector as [call|]; [|discriminate].
    destruct (cvtColor image) as [rgb|]; cbn [bind] in *; [|discriminate].
    destruct (call rgb) as [r|]; [|discriminate].
    injection Hcap as Hcap. subst r. cbn [bind]. rewrite Hfaces. cbn [bind].
    set (landmarks := map xyz_dict (enumerate face)) in *.
    cbv zeta.
    repeat (rewrite item_y_landmark_at by lia; cbn [bind]).
    repeat (rewrite item_xy_landmark_at by lia; cbn [bind]).
    rewrite Hn. reflexivity. }
  split; [exact Heq|].
  rewrite Heq. cbn [face_landmarks]. rewrite length_firstn, Hn. lia.
Qed.

Lemma analyze_face_mesh_detected_witness :
  analyze_face_mesh unit same_image (Some (flat_face 400)) tt
  = mkFaceMesh true (Some (List.length (repeat raw_origin 400)))
      (firstn 50 (map xyz_dict (enumerate (repeat raw_origin 400))))
      (Some (face_features (map xyz_dict (enumerate (repeat raw_origin 400)))))
  /\ List.length
       (face_landmarks
          (analyze_face_mesh unit same_image (Some (flat_face 400)) tt))
     = 50%nat.
Proof.
  apply (analyze_face_mesh_detected unit same_image (Some (flat_face 400)) tt
           (mkFaceMeshOutput (Ok (Some [repeat raw_origin 400])))
           (repeat raw_origin 400) []).
  - reflexivity.
  - reflexivity.
  - rewrite repeat_length. lia.
Defined.

Lemma recognize_gesture_label {libm : Libm} (landmarks : list Landmark)
  (label : string) :
  recognize_gesture landmarks = Ok label -> In label gesture_labels.
Proof.
  destruct (Nat.lt_ge_cases (List.length landmarks) 21) as [Hshort|Hlen].
  - rewrite (recognize_gesture_short landmarks Hshort).
    intro H. injection H as <-. cbn. tauto.
  - rewrite (recognize_gesture_rule_chain landmarks Hlen). unfold rule_chain.
    destruct (first_match (rules (extended_of landmarks))) as [l|] eqn:Hm.
    + intro H. injection H as <-.
      eapply first_match_rules_label; eassumption.
    + destruct (pinch_branch_cases landmarks) as [H|[H|[H _]]]; rewrite H;
        intro Hl; try discriminate Hl; injection Hl as <-; cbn; tauto.
Qed.

Lemma for_each_ok {A B : Type} (f : A -> res B) (l : list A) (bs : list B) :
  for_each f l = Ok bs -> Forall2 (fun a b => f a = Ok b) l bs.
Proof.
  revert bs. induction l as [|a l IH]; intros bs; cbn [for_each].
  - intro H. injection H as <-. constructor.
  - destruct (f a) as [b|] eqn:Hb; cbn [bind]; [|discriminate].
    destruct (for_each f l) as [bs'|]; cbn [bind]; [|discriminate].
    intro H. injection H as <-. constructor; [exact Hb | apply IH; reflexivity].
Qed.

Lemma Forall2_enumerate_from {A B : Type} (Q : A -> B -> Prop)
  (l : list A) (bs : list B) (i : nat) :
  Forall2 (fun e b => Q (snd e) b) (enumerate_from i l) bs -> Forall2 Q l bs.
Proof.
  revert bs i. induction l as [|a l IH]; intros bs i H;
    cbn [enumerate_from] in H; inversion H; subst; constructor.
  - assumption.
  - eapply IH. eassumption.
Qed.

Lemma getitem_Ok {A : Type} (l : list A) (i : nat) (a : A) :
  getitem l i = Ok a -> nth_error l i = Some a.
Proof.
  unfold getitem. destruct (nth_error l i); congruence.
Qed.

Lemma getitem_Some {A : Type} (l : list A) (i : nat) (a : A) :
  nth_error l i = Some a -> getitem l i = Ok a.
Proof. unfold getitem. intros ->. reflexivity. Qed.

(** The handedness lookup of [hand_entry], against [handedness_of]. *)
Lemma handedness_lookup (multi_handedness : option (list (list string)))
  (hand_idx : nat) (label : string) :
  match multi_handedness with
  | Some ((_ :: _) as labels) =>
      classification <- getitem labels hand_idx ;; getitem classification 0
  | Some [] | None => Ok "Unknown"
  end = Ok label
  <-> handedness_of multi_handedness hand_idx label.
Proof.
  unfold handedness_of.
  destruct multi_handedness as [[|c labels]|].
  - split; [intro H; injection H as <-; reflexivity | intros ->; reflexivity].
  - split.
    + destruct (getitem (c :: labels) hand_idx) as [classification|] eqn:Hc;
        cbn [bind]; [|discriminate].
      intro H. exists classification.
      split; apply getitem_Ok; assumption.
    + intros (classification & Hc & Hl).
      rewrite (getitem_Some _ _ _ Hc). cbn [bind].
      apply getitem_Some. exact Hl.
  - split; [intro H; injection H as <-; reflexivity | intros ->; reflexivity].
Qed.

Lemma hand_entry_observes {libm : Libm} (results : HandsOutput)
  (multi_handedness : option (list (list string)))
  (e : nat * list RawLandmark) (h : HandObservation) :
  out_multi_handedness results = Ok multi_handedness ->
  hand_entry results e = Ok h ->
  observes multi_handedness (fst e) (snd e) h.
Proof.
  destruct e as [hand_idx raw]. cbn [fst snd]. intro Hmh.
  unfold hand_entry, observes.
  assert (Hn := dicts_length xyz_dict raw).
  set (landmarks := map xyz_dict (enumerate raw)) in *. cbv zeta.
  destruct (recognize_gesture landmarks) as [g|] eqn:Hg; cbn [bind];
    [|discriminate].
  rewrite Hmh. cbn [bind].
  match goal with
  | |- bind ?m _ = _ -> _ => destruct m as [label|] eqn:Hlabel; cbn [bind];
                              [|discriminate]
  end.
  apply handedness_lookup in Hlabel.
  destruct (getitem landmarks 0) as [l0|] eqn:H0; cbn [bind]; [|discriminate].
  destruct (getitem landmarks 8) as [l8|] eqn:H8; cbn [bind]; [|discriminate].
  destruct (getitem landmarks 4) as [l4|] eqn:H4; cbn [bind]; [|discriminate].
  assert (Hlen : (8 < List.length landmarks)%nat).
  { unfold getitem in H8. destruct (nth_error landmarks 8) eqn:Hnth;
      [|discriminate]. apply nth_error_Some. congruence. }
  rewrite (getitem_landmark_at landmarks 0) in H0 by lia.
  rewrite (getitem_landmark_at landmarks 8) in H8 by lia.
  rewrite (getitem_landmark_at landmarks 4) in H4 by lia.
  injection H0 as <-. injection H8 as <-. injection H4 as <-.
  destruct (calculate_distance_cases (landmark_at landmarks 4)
              (landmark_at landmarks 8)) as [[d Hd]|Hraise];
    rewrite ?Hd, ?Hraise; cbn [bind]; [|discriminate].
  intro H. injection H as <-.
  cbn [handedness hand_landmarks gesture palm_center index_tip thumb_tip
       pinch_distance].
  repeat split; try reflexivity.
  - exact Hlabel.
  - lia.
  - eapply recognize_gesture_label. exact Hg.
  - exists d. reflexivity.
Qed.

(** A reportable hand does get its entry. *)
Lemma hand_entry_reportable {libm : Libm} (results : HandsOutput)
  (multi_handedness : option (list (list string)))
  (e : nat * list RawLandmark) :
  out_multi_handedness results = Ok multi_handedness ->
  reportable multi_handedness (fst e) (snd e) ->
  raises (hand_entry results e) = false.
Proof.
  destruct e as [hand_idx raw]. cbn [fst snd]. intro Hmh.
  unfold hand_entry, reportable.
  assert (Hn := dicts_length xyz_dict raw).
  set (landmarks := map xyz_dict (enumerate raw)) in *. cbv zeta.
  intros (Hlen & (label & Hlabel) & Hg & Hd).
  destruct (recognize_gesture landmarks) as [g|]; [|discriminate Hg].
  cbn [bind]. rewrite Hmh. cbn [bind].
  apply handedness_lookup in Hlabel. rewrite Hlabel. cbn [bind].
  repeat (rewrite getitem_landmark_at by lia). cbn [bind].
  destruct (calculate_distance _ _) as [d|]; [reflexivity|discriminate Hd].
Qed.

Lemma for_each_returns {A B : Type} (f : A -> res B) (l : list A) :
  Forall (fun a => raises (f a) = false) l -> raises (for_each f l) = false.
Proof.
  induction 1 as [|a l Ha _ IH]; cbn [for_each]; [reflexivity|].
  destruct (f a); [|discriminate Ha]. cbn [bind].
  destruct (for_each f l); [reflexivity|discriminate IH].
Qed.

(** X22: the hands facade is all or nothing.  When the detector reports
    hands and a readable handedness channel, either every hand has an
    entry, in order, with hand_count their number and detected set iff there
    is at least one, or the result is the empty one; and the entries are
    there whenever every hand reaches the index tip, has a label in the
    channel (or the channel is absent or empty) and makes neither the
    classifier nor the pinch distance overflow.  Each entry holds the
    dictionaries of its hand (at least 9), as handedness the first
    classification at the hand's own index in the channel, or "Unknown"
    without a channel, the gesture the classifier gives the dictionaries,
    one of the ten labels, the palm, index-tip and thumb-tip of landmarks 0,
    8 and 4, and as pinch_distance the float distance between landmarks 4
    and 8. *)
Theorem analyze_hands_observations {libm : Libm} (Image : Type)
  (cvtColor : Image -> res Image)
  (detector : option (Image -> res HandsOutput)) (image : Image)
  (results : HandsOutput) (multi : list (list RawLandmark))
  (multi_handedness : option (list (list string))) :
  capability cvtColor detector image = Returned results ->
  out_multi_hand_landmarks results = Ok (Some multi) ->
  out_multi_handedness results = Ok multi_handedness ->
  let r := analyze_hands Image cvtColor detector image in
  let reported :=
    hands_detected r = (0 <? List.length multi)%nat
    /\ hand_count r = Some (List.length multi)
    /\ Forall2 (fun e h => observes multi_handedness (fst e) (snd e) h)
               (enumerate multi) (hands r) in
  (r = empty_hands \/ reported)
  /\ (Forall (fun e => reportable multi_handedness (fst e) (snd e))
             (enumerate multi) ->
      reported).
Proof.
  intros Hcap Hmulti Hmh. cbv zeta.
  unfold capability in Hcap. unfold analyze_hands.
  destruct detector as [call|]; [|discriminate].
  destruct (cvtColor image) as [rgb|]; cbn [bind] in *; [|discriminate].
  destruct (call rgb) as [r|]; [|discriminate].
  injection Hcap as Hcap. subst r. cbn [bind]. rewrite Hmulti. cbn [bind].
  assert (Hlen : List.length (enumerate multi) = List.length multi)
    by apply enumerate_from_length.
  destruct (for_each (hand_entry results) (enumerate multi)) as [hs|] eqn:Hfor;
    cbn [bind try_or].
  - apply for_each_ok in Hfor.
    assert (Hobs : Forall2 (fun e h => observes multi_handedness (fst e)
                                                (snd e) h)
                           (enumerate multi) hs).
    { eapply Forall2_impl; [|exact Hfor].
      intros entry h He. eapply hand_entry_observes; eassumption. }
    cbn [hands_detected hand_count hands].
    rewrite <- (Forall2_length Hobs), Hlen.
    split; [right|intros _]; repeat split; exact Hobs.
  - split; [left; reflexivity|].
    intro Hall. exfalso.
    assert (Hret : raises (for_each (hand_entry results) (enumerate multi))
                   = false).
    { apply for_each_returns. eapply Forall_impl; [|exact Hall].
      intros entry He. eapply hand_entry_reportable; eassumption. }
    rewrite Hfor in Hret. discriminate Hret.
Qed.

Lemma analyze_hands_observations_witness :
  let r := analyze_hands (libm := rounded_libm) unit same_image
             (Some (labelled_hands [21; 21]%nat ["Left"; "Right"])) tt in
  hands_detected r
  = (0 <? List.length (map (repeat raw_origin) [21; 21]%nat))%nat
  /\ hand_count r = Some (List.length (map (repeat raw_origin) [21; 21]%nat))
  /\ Forall2 (fun e h => observes (libm := rounded_libm)
                           (Some [["Left"]; ["Right"]]) (fst e) (snd e) h)
             (enumerate (map (repeat raw_origin) [21; 21]%nat)) (hands r).
Proof.
  apply (analyze_hands_observations (libm := rounded_libm) unit same_image
           (Some (labelled_hands [21; 21]%nat ["Left"; "Right"])) tt
           (mkHandsOutput (Ok (Some (map (repeat raw_origin) [21; 21]%nat)))
                          (Ok (Some [["Left"]; ["Right"]])))
           (map (repeat raw_origin) [21; 21]%nat)
           (Some [["Left"]; ["Right"]])); try reflexivity.
  repeat constructor; try (cbn; lia);
    try (eexists; cbn; eexists; split; reflexivity);
    vm_compute; reflexivity.
Defined.

(** Each hand is reported under the label at its own index. *)
Example two_labelled_hands :
  map (fun h => (handedness h, gesture h))
      (hands (analyze_hands (libm := rounded_libm) unit same_image
                (Some (labelled_hands [21; 21]%nat ["Left"; "Right"])) tt))
  = [("Left", "FIST"); ("Right", "FIST")].
Proof. vm_compute. reflexivity. Qed.

(** A channel shorter than the hands drops them all. *)
Example missing_label_drops_both :
  analyze_hands (libm := rounded_libm) unit same_image
    (Some (labelled_hands [21; 21]%nat ["Left"])) tt
  = empty_hands.
Proof. vm_compute. reflexivity. Qed.

(** Two flat hands are both reported, as fists of unknown handedness. *)
Example two_flat_hands :
  map (fun h => (handedness h, gesture h))
      (hands (analyze_hands (libm := rounded_libm) unit same_image
                (Some (flat_hands [21; 21]%nat)) tt))
  = [("Unknown", "FIST"); ("Unknown", "FIST")].
Proof. vm_compute. reflexivity. Qed.

(** One hand too short for its index tip, and neither hand is reported. *)
Example short_hand_drops_both :
  analyze_hands (libm := rounded_libm) unit same_image
    (Some (flat_hands [21; 5]%nat)) tt
  = empty_hands.
Proof. vm_compute. reflexivity. Qed.

(** ** The advertised vocabulary *)

(** X23: UNKNOWN is the answer exactly on fewer than 21 landmarks; on 21 or
    more, every answer is one of the gestures the health check advertises as
    supported. *)
Theorem recognize_gesture_vocabulary {libm : Libm} (landmarks : list Landmark) :
  match recognize_gesture landmarks with
  | Ok label =>
      if (List.length landmarks <? 21)%nat then label = "UNKNOWN"
      else In label gestures_supported
  | Raise _ => (List.length landmarks <? 21)%nat = false
  end.
Proof.
  destruct (List.length landmarks <? 21)%nat eqn:Hlen.
  - apply Nat.ltb_lt in Hlen.
    rewrite (recognize_gesture_short landmarks Hlen). reflexivity.
  - apply Nat.ltb_ge in Hlen.
    rewrite (recognize_gesture_unfold landmarks Hlen). cbv zeta.
    destruct (extended_of landmarks) as [t i m r p].
    cbn [thumb index middle ring pinky any all existsb forallb].
    destruct t, i, m, r, p; cbn [negb andb orb]; try (cbn; tauto);
      destruct (pinch_branch_cases landmarks) as [H|[H|[H _]]];
      rewrite H; cbn; tauto.
Qed.

(** ** Sequences of inbound events *)

Section Inbox.

Variable Image : Type.
Variable cvtColor : Image -> res Image.
Variable emotion_detector : option (Image -> res (list FerFace)).
Variable pose_detector : option (Image -> res PoseOutput).
Variable face_mesh_detector : option (Image -> res FaceMeshOutput).
Variable hand_detector : option (Image -> res HandsOutput).
Variable image_of_base64 : string -> res Image.
Context {libm : Libm}.

(** X24: events are handled strictly in order, each from the world its
    predecessors left: a loop that is still awaiting after a first batch
    handles a second batch as a fresh loop would from there, and once an
    event has made the loop raise no later event is read. *)
Theorem receive_loop_app (websocket : WebSocket)
  (inbox1 inbox2 : list (res json)) (w : World) :
  receive_loop Image cvtColor emotion_detector pose_detector
    face_mesh_detector hand_detector image_of_base64
    websocket (inbox1 ++ inbox2) w
  = match receive_loop Image cvtColor emotion_detector pose_detector
            face_mesh_detector hand_detector image_of_base64
            websocket inbox1 w with
    | (Ok Awaiting, w1) =>
        receive_loop Image cvtColor emotion_detector pose_detector
          face_mesh_detector hand_detector image_of_base64
          websocket inbox2 w1
    | stopped => stopped
    end.
Proof.
  revert w. induction inbox1 as [|event inbox1 IH]; intro w; [reflexivity|].
  cbn [app receive_loop]. unfold io_bind at 1 2 5 6. unfold lift at 1 3.
  destruct event as [data|e]; [|reflexivity].
  unfold lift. destruct (json_get data "type" JNull) as [msg_type|e];
    [|reflexivity].
  destruct (json_is_str "frame" msg_type).
  - unfold io_bind.
    destruct (io_try _ _ w) as [[[]|e] w']; [apply IH | reflexivity].
  - destruct (json_is_str "ping" msg_type); [|apply IH].
    unfold io_bind.
    destruct (send_json websocket MsgPong w) as [[[]|e] w'];
      [apply IH | reflexivity].
Qed.

End Inbox.

(** X18: a pose of at least 13 landmarks is reported as detected with all
    its landmark dictionaries and the nose and both shoulders; the left hand
    is there exactly when there are more than 15 landmarks, the right hand
    more than 16, the left hip more than 23 and the right hip more than 24,
    each absent one being None. *)
Theorem analyze_pose_guards (Image : Type) (cvtColor : Image -> res Image)
  (detector : option (Image -> res PoseOutput)) (image : Image)
  (landmark : list RawLandmark) :
  capability cvtColor detector image
    = Returned (mkPoseOutput (Ok (Some landmark))) ->
  (13 <= List.length landmark)%nat ->
  let r := analyze_pose Image cvtColor detector image in
  pose_detected r = true
  /\ pose_landmarks r = map pose_dict (enumerate landmark)
  /\ exists k,
       pose_keypoints r = Some k
       /\ nose k = point_of (landmark_at (pose_landmarks r) 0)
       /\ left_shoulder k = point_of (landmark_at (pose_landmarks r) 11)
       /\ right_shoulder k = point_of (landmark_at (pose_landmarks r) 12)
       /\ is_some (left_hand k) = (15 <? List.length landmark)%nat
       /\ is_some (right_hand k) = (16 <? List.length landmark)%nat
       /\ is_some (left_hip k) = (23 <? List.length landmark)%nat
       /\ is_some (right_hip k) = (24 <? List.length landmark)%nat.
Proof.
  intros Hcap Hlen. cbv zeta.
  rewrite (analyze_pose_keypoints Image cvtColor detector image landmark
             Hcap Hlen).
  cbn [pose_detected pose_landmarks pose_keypoints].
  split; [reflexivity|]. split; [reflexivity|].
  eexists. split; [reflexivity|].
  cbn [nose left_shoulder right_shoulder left_hand right_hand left_hip
       right_hip].
  repeat split;
    match goal with
    | |- is_some (if ?c then _ else _) = _ => destruct c; reflexivity
    end.
Qed.

Lemma analyze_pose_guards_witness :
  let r := analyze_pose unit same_image (Some sixteen_landmark_pose) tt in
  pose_detected r = true
  /\ pose_landmarks r = map pose_dict (enumerate (repeat raw_origin 16))
  /\ exists k,
       pose_keypoints r = Some k
       /\ nose k = point_of (landmark_at (pose_landmarks r) 0)
       /\ left_shoulder k = point_of (landmark_at (pose_landmarks r) 11)
       /\ right_shoulder k = point_of (landmark_at (pose_landmarks r) 12)
       /\ is_some (left_hand k)
          = (15 <? List.length (repeat raw_origin 16))%nat
       /\ is_some (right_hand k)
          = (16 <? List.length (repeat raw_origin 16))%nat
       /\ is_some (left_hip k)
          = (23 <? List.length (repeat raw_origin 16))%nat
       /\ is_some (right_hip k)
          = (24 <? List.length (repeat raw_origin 16))%nat.
Proof.
  apply (analyze_pose_guards unit same_image (Some sixteen_landmark_pose)
           tt (repeat raw_origin 16)).
  - reflexivity.
  - rewrite repeat_length. lia.
Defined.
